(** * Eurovision collusive-voting notebook: a shallow embedding

    The development follows [notebooks/collusion.ipynb]: the cleaning and
    merging of the vote table, the per-year statistics, the vote simulator,
    the [favouritism] test and the [collusion] test.

    Conventions.
    - A pandas [DataFrame] is a list of row records; a [Series] returned by a
      [groupby] is a [gmap] from the group key to the aggregated value; a
      [Series] obtained by label selection ([S[timespan]]) is a list of
      (label, value) pairs, in the order of the labels.
    - A cell of an [int64] column is a [Z] within the range of the type, and
      a sum of two such columns wraps around ([wrap64]).
    - Values of [float64] columns are the exact rationals that the floats
      round, extended with the three IEEE special values, so that a division
      by zero is what numpy makes of it.  Rounding is not modelled: two means
      that are equal as rationals are equal here, while their floats can
      differ in the last place.
    - The module-level generator [rng] is threaded through the functions that
      draw from it.
    - An exception raised by Python, numpy or pandas is the [Raised] branch of
      [outcome]. *)

From Stdlib Require Import ZArith QArith Qround Lia Lqa Sorted.
From stdpp Require Import gmap strings list fin_maps.

Open Scope Z_scope.

(** ** Exceptions *)

Inductive exn : Type := AssertionError | ValueError | KeyError.

Inductive outcome (A : Type) : Type :=
| Ok (a : A)
| Raised (e : exn).
Arguments Ok {A} a.
Arguments Raised {A} e.

Definition bind {A B} (m : outcome A) (k : A -> outcome B) : outcome B :=
  match m with
  | Ok a => k a
  | Raised e => Raised e
  end.

Notation "'let*' x ':=' m 'in' k" := (bind m (fun x => k))
  (at level 10, x pattern, m at level 100, k at level 200).

(** [assert c] *)
Definition py_assert (c : bool) : outcome unit :=
  if c then Ok tt else Raised AssertionError.

(** ** int64 values *)

(** The value that an [int64] operation keeps of the exact result [z]. *)
Definition wrap64 (z : Z) : Z := (z + 2 ^ 63) mod 2 ^ 64 - 2 ^ 63.

(** ** float64 values *)

Inductive fval : Type :=
| Fin (q : Q)
| PInf
| NInf
| NaN.

Definition is_nan (x : fval) : bool :=
  match x with NaN => true | _ => false end.

(** [a / b] on two integer columns (true division). *)
Definition fdivZ (a b : Z) : fval :=
  if b =? 0 then
    (if a =? 0 then NaN else if 0 <? a then PInf else NInf)
  else Fin (Qred (inject_Z a / inject_Z b)).

Definition fneg (x : fval) : fval :=
  match x with
  | Fin q => Fin (Qred (- q))
  | PInf => NInf
  | NInf => PInf
  | NaN => NaN
  end.

Definition fadd (x y : fval) : fval :=
  match x, y with
  | NaN, _ | _, NaN => NaN
  | Fin a, Fin b => Fin (Qred (a + b))
  | PInf, NInf | NInf, PInf => NaN
  | PInf, _ | _, PInf => PInf
  | NInf, _ | _, NInf => NInf
  end.

Definition fsub (x y : fval) : fval := fadd x (fneg y).

Definition Qsign (q : Q) : comparison := (0 ?= q)%Q.

Definition fmul (x y : fval) : fval :=
  match x, y with
  | NaN, _ | _, NaN => NaN
  | Fin a, Fin b => Fin (Qred (a * b))
  | Fin a, PInf | PInf, Fin a =>
      match Qsign a with Lt => PInf | Gt => NInf | Eq => NaN end
  | Fin a, NInf | NInf, Fin a =>
      match Qsign a with Lt => NInf | Gt => PInf | Eq => NaN end
  | PInf, PInf | NInf, NInf => PInf
  | PInf, NInf | NInf, PInf => NInf
  end.

(** [x / n] for a count [n]. *)
Definition fdiv_count (x : fval) (n : nat) : fval :=
  match n with
  | O => match x with
         | Fin q => match Qsign q with Lt => PInf | Gt => NInf | Eq => NaN end
         | _ => x
         end
  | _ => match x with
         | Fin q => Fin (Qred (q / inject_Z (Z.of_nat n)))
         | _ => x
         end
  end.

(** [x > y] and [x >= y]: false as soon as one side is NaN. *)
Definition fgt (x y : fval) : bool :=
  match x, y with
  | NaN, _ | _, NaN => false
  | Fin a, Fin b => match (a ?= b)%Q with Gt => true | _ => false end
  | PInf, PInf => false
  | PInf, _ => true
  | _, NInf => match x with NInf => false | _ => true end
  | _, _ => false
  end.

Definition fge (x y : fval) : bool :=
  match x, y with
  | NaN, _ | _, NaN => false
  | Fin a, Fin b => match (a ?= b)%Q with Lt => false | _ => true end
  | PInf, _ => true
  | _, NInf => true
  | _, _ => false
  end.

(** The order [np.sort] uses: the usual one, with NaN after everything. *)
Definition sort_le (x y : fval) : bool :=
  match x, y with
  | _, NaN => true
  | NaN, _ => false
  | _, _ => fge y x
  end.

Fixpoint sort_insert (x : fval) (l : list fval) : list fval :=
  match l with
  | [] => [x]
  | y :: l' => if sort_le x y then x :: l else y :: sort_insert x l'
  end.

(** [np.sort(a, axis=None)] *)
Definition np_sort (a : list fval) : list fval :=
  foldr sort_insert [] a.

Definition fsum (l : list fval) : fval := foldr fadd (Fin 0) l.

(** [a.mean()] of numpy: the sum over the count, NaN propagates. *)
Definition np_mean (l : list fval) : fval := fdiv_count (fsum l) (length l).

(** [s.mean()] of pandas: NaN entries are skipped first. *)
Definition pd_mean (l : list fval) : fval :=
  np_mean (filter (fun x => is_nan x = false) l).

Definition fmin (x y : fval) : fval :=
  match x, y with
  | NaN, _ | _, NaN => NaN
  | _, _ => if fge y x then x else y
  end.

(** [a.min()]: raises on an empty array, NaN propagates. *)
Definition np_min (a : list fval) : outcome fval :=
  match a with
  | [] => Raised ValueError
  | x :: l => Ok (foldl fmin x l)
  end.

(** ** Rank to points *)

(** [np.searchsorted(a, v)] with the default [side='left']: the first index
    whose element is not below [v]. *)
Fixpoint searchsorted (a : list Q) (v : Q) : Z :=
  match a with
  | [] => 0
  | x :: a' => if Qle_bool v x then 0 else 1 + searchsorted a' v
  end.

Definition bins : list Q :=
  [1; 3 # 2; 2; 5 # 2; 3; 4; 5; 6; 7; 8; 9; 10]%Q.

(** [np.where(ranks > 10, 0, 12 - np.searchsorted([...], ranks))], one cell. *)
Definition rank_to_points (rank : Z) : Z :=
  if 10 <? rank then 0 else 12 - searchsorted bins (inject_Z rank).

(** The score ladder of the contest. *)
Definition ladder : list Z := [12; 10; 8; 7; 6; 5; 4; 3; 2; 1].

(** ** The vote table *)

(** The columns of the CSV file that the notebook reads. *)
Module Raw.
Record row : Type := mk {
  Year : Z;
  semi_final : string;          (* "(semi-) final" *)
  Jury_or_Televoting : string;
  From_country : string;
  To_country : string;
  Points : Z;
  Duplicate : string
}.
End Raw.

(** [csv] after the selection of the relevant columns. *)
Module Vote.
Record row : Type := mk {
  Year : Z;
  Jury_or_Televoting : string;
  From_country : string;
  To_country : string;
  Points : Z
}.

#[global] Instance row_eq_dec : EqDecision row.
Proof. solve_decision. Defined.

Definition of_raw (r : Raw.row) : row :=
  mk (Raw.Year r) (Raw.Jury_or_Televoting r) (Raw.From_country r)
     (Raw.To_country r) (Raw.Points r).
End Vote.

(** The self-join of [csv], before the channel columns are dropped. *)
Module Joined.
Record row : Type := mk {
  Year : Z;
  Jury_or_Televoting_Jury : string;
  From_country : string;
  To_country : string;
  Points_Jury : Z;
  Jury_or_Televoting_Televote : string;
  Points_Televote : Z
}.
End Joined.

(** [combined_csv] *)
Module Combined.
Record row : Type := mk {
  Year : Z;
  From_country : string;
  To_country : string;
  Points_Jury : Z;
  Points_Televote : Z;
  Points_total : Z
}.
End Combined.

(** [points]: [combined_csv] with the column [highest] and the three point
    columns divided by it. *)
Module Pts.
Record row : Type := mk {
  Year : Z;
  From_country : string;
  To_country : string;
  Points_Jury : fval;
  Points_Televote : fval;
  Points_total : fval;
  highest : option Z
}.
End Pts.

(** *** Reading and cleaning *)

(** [df.drop_duplicates()]: a row equal to an earlier one is dropped. *)
Fixpoint drop_duplicates (l : list Vote.row) : list Vote.row :=
  match l with
  | [] => []
  | x :: l' => x :: filter (fun y => y <> x) (drop_duplicates l')
  end.

(** [col.replace({"F.Y.R. Macedonia": "North Macedonia"})], one cell. *)
Definition rename_country (c : string) : string :=
  if bool_decide (c = "F.Y.R. Macedonia"%string)
  then "North Macedonia"%string else c.

Definition is_grand_final (r : Raw.row) : bool :=
  bool_decide (Raw.semi_final r = "f"%string)
  && negb (bool_decide (Raw.Duplicate r = "x"%string))
  && negb (bool_decide (Raw.From_country r = Raw.To_country r)).

Definition rename_countries (r : Vote.row) : Vote.row :=
  Vote.mk (Vote.Year r) (Vote.Jury_or_Televoting r)
    (rename_country (Vote.From_country r))
    (rename_country (Vote.To_country r)) (Vote.Points r).

(** The cell "Clean / modify CSV data": the grand-final rows, the relevant
    columns without duplicates, the country renamed. *)
Definition clean_csv (raw : list Raw.row) : list Vote.row :=
  let selected := filter (fun r => is_grand_final r = true) raw in
  let csv := drop_duplicates (map Vote.of_raw selected) in
  map rename_countries csv.

(** *** Merging the two channels *)

Definition same_key (l r : Vote.row) : bool :=
  bool_decide (Vote.Year l = Vote.Year r)
  && bool_decide (Vote.From_country l = Vote.From_country r)
  && bool_decide (Vote.To_country l = Vote.To_country r).

(** [csv.join(csv.set_index([Year, From_country, To_country]), on=[...],
    lsuffix="_Jury", rsuffix="_Televote", how="right")]: every row of the
    right table with every row of the left table that has its key. *)
Definition self_join (csv : list Vote.row) : list Joined.row :=
  r ← csv;
  l ← filter (fun l => same_key l r = true) csv;
  [Joined.mk (Vote.Year l) (Vote.Jury_or_Televoting l) (Vote.From_country l)
     (Vote.To_country l) (Vote.Points l) (Vote.Jury_or_Televoting r)
     (Vote.Points r)].

Definition keep_joined (j : Joined.row) : bool :=
  (Joined.Year j <? 2016)
  || ((2016 <=? Joined.Year j)
      && bool_decide (Joined.Jury_or_Televoting_Jury j = "J"%string)
      && bool_decide (Joined.Jury_or_Televoting_Televote j = "T"%string)).

(** The rest of the cell: televote points set to 0 up to 2015, the channel
    columns dropped, the total added. *)
Definition to_combined (j : Joined.row) : Combined.row :=
  let televote := if Joined.Year j <=? 2015 then 0 else Joined.Points_Televote j in
  Combined.mk (Joined.Year j) (Joined.From_country j) (Joined.To_country j)
    (Joined.Points_Jury j) televote (wrap64 (Joined.Points_Jury j + televote)).

Definition combined_csv (csv : list Vote.row) : list Combined.row :=
  map to_combined (filter (fun j => keep_joined j = true) (self_join csv)).

(** *** Statistics of each year *)

Section groupby.
Context {K : Type} `{Countable K} {A : Type}.
Variable key : A -> K.

(** [df.groupby(key)[col].max()] *)
Definition groupby_max (col : A -> Z) (rows : list A) : gmap K Z :=
  foldr (fun a m =>
           partial_alter
             (fun o => Some (match o with
                             | Some v => Z.max v (col a)
                             | None => col a
                             end)) (key a) m) ∅ rows.

(** [df.groupby(key)[col].count()] for a column without missing values *)
Definition groupby_count (rows : list A) : gmap K Z :=
  foldr (fun a m =>
           partial_alter
             (fun o => Some (match o with
                             | Some n => n + 1
                             | None => 1
                             end)) (key a) m) ∅ rows.
End groupby.

Definition year_of_group {V : Type} (g : (Z * string) * V) : Z := fst (fst g).

(** [max_each_year(csv)] *)
Definition max_each_year (csv : list Combined.row)
  : gmap Z Z * gmap Z bool :=
  let by_donor := fun r => (Combined.Year r, Combined.From_country r) in
  let grouped_Jury := groupby_max by_donor Combined.Points_Jury csv in
  let grouped_Televote := groupby_max by_donor Combined.Points_Televote csv in
  let by_year_Jury := groupby_max year_of_group snd (map_to_list grouped_Jury) in
  let by_year_Televote :=
    groupby_max year_of_group snd (map_to_list grouped_Televote) in
  let max_possible_points :=
    map_zip_with (fun jury televote => wrap64 (jury + televote))
      by_year_Jury by_year_Televote in
  let televote_by_year := (fun m => negb (m =? 0)) <$> by_year_Televote in
  (max_possible_points, televote_by_year).

Definition fdiv_highest (p : Z) (highest : option Z) : fval :=
  match highest with
  | Some h => fdivZ p h
  | None => NaN
  end.

(** [combined_csv.join(MAX_POSSIBLE_POINTS_RECEIVED.to_frame(name="highest"),
    on=["Year"])] and the three divisions. *)
Definition normalise (max_points : gmap Z Z) (csv : list Combined.row)
  : list Pts.row :=
  map (fun r =>
         let highest := max_points !! Combined.Year r in
         Pts.mk (Combined.Year r) (Combined.From_country r)
           (Combined.To_country r)
           (fdiv_highest (Combined.Points_Jury r) highest)
           (fdiv_highest (Combined.Points_Televote r) highest)
           (fdiv_highest (Combined.Points_total r) highest)
           highest) csv.

(** [points.groupby(["Year", "From_country"]).count()["To_country"]
      .groupby(level="Year").count()] *)
Definition participants_by_year (points : list Pts.row) : gmap Z Z :=
  let donors :=
    groupby_count (fun r => (Pts.Year r, Pts.From_country r)) points in
  groupby_count year_of_group (map_to_list donors).

(** The module-level tables that [favouritism] reads. *)
Record Globals : Type := mkGlobals {
  MAX_POSSIBLE_POINTS_RECEIVED : gmap Z Z;
  HAS_TELEVOTE_BY_YEAR : gmap Z bool;
  PARTICIPANTS_BY_YEAR : gmap Z Z
}.

(** The notebook from the CSV rows down to [points] and the tables. *)
Definition prepare (raw : list Raw.row) : list Pts.row * Globals :=
  let combined := combined_csv (clean_csv raw) in
  let '(max_points, has_televote) := max_each_year combined in
  let points := normalise max_points combined in
  (points, mkGlobals max_points has_televote (participants_by_year points)).

(** ** The random generator *)

(** [rng = default_rng()].  The generator is a stream of raw values and the
    position of the next one; nothing is assumed about the stream, so every
    sequence of draws within the bounds is the output of some generator. *)
Record Generator : Type := mkGenerator {
  stream : nat -> Z;
  cursor : nat
}.

Definition advance (n : nat) (g : Generator) : Generator :=
  mkGenerator (stream g) (cursor g + n).

(** One row of [rng.integers(low, high, size=(rows, len(high)))]: column [j]
    is drawn from [low .. high[j] - 1]. *)
Definition draw_row (g : Generator) (offset : nat) (low : Z) (high : list Z)
  : list Z :=
  imap (fun j h => low + stream g (cursor g + offset + j) `mod` (h - low)) high.

(** The frame of [rows] rows, drawn row after row. *)
Definition drawn_ranks (g : Generator) (low : Z) (high : list Z) (rows : nat)
  : list (list Z) :=
  map (fun i => draw_row g (i * length high) low high) (seq 0 rows).

(** [rng.integers(low=low, high=high, size=(rows, len(high)))].  For a size
    without rows numpy returns the empty array before it looks at the bounds;
    otherwise it refuses an empty range with "low >= high". *)
Definition rng_integers (low : Z) (high : list Z) (rows : nat) (g : Generator)
  : outcome (list (list Z) * Generator) :=
  if bool_decide (rows <> 0%nat /\ Exists (fun h => h <= low) high)
  then Raised ValueError
  else Ok (drawn_ranks g low high rows, advance (rows * length high) g).

(** ** Vote simulation *)

(** [ranks.max()]: the maximum of each column, NaN (here [None]) for a frame
    without rows. *)
Definition frame_max (ncols : nat) (data : list (list Z)) : list (option Z) :=
  foldl (fun acc row =>
           zip_with (fun o r => Some (match o with
                                      | Some m => Z.max m r
                                      | None => r
                                      end)) acc row)
        (replicate ncols None) data.

(** [(countries_each_year - ranks.max()).sum()]; [sum] skips NaN. *)
Definition margin_sum (countries : list Z) (maxima : list (option Z)) : Z :=
  foldr Z.add 0
    (zip_with (fun c o => match o with Some m => c - m | None => 0 end)
       countries maxima).

(** [simulate_jury_votes(countries_each_year, num_simulations)] *)
Definition simulate_jury_votes (countries_each_year : list (Z * Z))
  (num_simulations : nat) (rng : Generator)
  : outcome (list (list Z) * Generator) :=
  let high := countries_each_year.*2 in
  let* (ranks, rng') := rng_integers 1 high num_simulations rng in
  let* _ := py_assert
              (0 <=? margin_sum high (frame_max (length high) ranks)) in
  Ok (map (map rank_to_points) ranks, rng').

(** [ranks[index] = 256], one row: every column whose label is in [index] is
    set, and each label of [index] that is no column of the frame becomes a
    new column, after the others. *)
Definition set_columns (labels index : list Z) (row : list Z) : list Z :=
  zip_with (fun label r => if bool_decide (label ∈ index) then 256 else r)
    labels row
  ++ replicate
       (length (remove_dups (filter (fun label => label ∉ labels) index)))
       256.

(** [simulate_televotes(countries_each_year, no_televote, num_simulations)] *)
Definition simulate_televotes (countries_each_year : list (Z * Z))
  (no_televote : list (Z * bool)) (num_simulations : nat) (rng : Generator)
  : outcome (list (list Z) * Generator) :=
  let high := countries_each_year.*2 in
  let* (ranks, rng') := rng_integers 1 high num_simulations rng in
  let* _ := py_assert
              (0 <=? margin_sum high (frame_max (length high) ranks)) in
  let ranks := map (set_columns countries_each_year.*1 no_televote.*1) ranks in
  Ok (map (map rank_to_points) ranks, rng').

(** ** Percentile *)

(** numpy's [_lerp(a, b, t)] *)
Definition lerp (a b : fval) (t : Q) : fval :=
  let diff_b_a := fsub b a in
  if Qle_bool (1 # 2) t
  then fsub b (fmul diff_b_a (Fin (1 - t)))
  else fadd a (fmul diff_b_a (Fin t)).

Definition nth_fval (a : list fval) (i : Z) : fval :=
  default NaN (a !! Z.to_nat i).

(** [np.percentile(a, q)] with the default linear method: [q] outside of
    [0, 100] is refused, a NaN in [a] makes the result NaN, otherwise the two
    order statistics around the virtual index [q / 100 * (n - 1)] are
    interpolated. *)
Definition np_percentile (a : list fval) (q : Q) : outcome fval :=
  if negb (Qle_bool 0 q && Qle_bool q 100) then Raised ValueError
  else
    let arr := np_sort a in
    let n := Z.of_nat (length arr) in
    if existsb is_nan arr || (n =? 0) then Ok NaN
    else
      let virtual_index := (q / 100 * inject_Z (n - 1))%Q in
      let previous := Qfloor virtual_index in
      let next := Z.min (previous + 1) (n - 1) in
      let gamma := (virtual_index - inject_Z previous)%Q in
      Ok (lerp (nth_fval arr previous) (nth_fval arr next) gamma).

(** ** Favouritism and collusion *)

(** What [favouritism] returns: [None], a boolean, or the dictionary of the
    detailed result. *)
Inductive pyval : Type :=
| PyNone
| PyBool (b : bool)
| PyDict (actual_avg sim_avg : fval).

(** The truth value Python gives to such a value (in [x and y], [if x]). *)
Definition truthy (v : pyval) : bool :=
  match v with
  | PyNone => false
  | PyBool b => b
  | PyDict _ _ => true
  end.

(** [S[labels]]: selection of a list of labels in a [Series]; a missing label
    is a [KeyError]. *)
Fixpoint getitem {V : Type} (s : gmap Z V) (labels : list Z)
  : outcome (list (Z * V)) :=
  match labels with
  | [] => Ok []
  | y :: labels' =>
      match s !! y with
      | None => Raised KeyError
      | Some v => let* rest := getitem s labels' in Ok ((y, v) :: rest)
      end
  end.

(** The end of [favouritism]: the value returned for the two flags. *)
Definition report (return_detailed_data has_favouritism : bool)
  (actual_average simulated_95th_percentile : fval) : pyval :=
  if return_detailed_data then
    (if has_favouritism
     then PyDict actual_average simulated_95th_percentile
     else PyBool false)
  else PyBool has_favouritism.

Section tests.
Variable tables : Globals.

(** The rows of [csv] from [country_x] to [country_y] in the range. *)
Definition select_by_year (csv : list Pts.row) (country_x country_y : string)
  (start_year end_year : Z) : list Pts.row :=
  filter (fun r =>
            ((start_year <=? Pts.Year r) && (Pts.Year r <=? end_year)
             && bool_decide (Pts.From_country r = country_x)
             && bool_decide (Pts.To_country r = country_y)) = true) csv.

(** The simulated distribution of [favouritism]: the two simulations, their
    normalisation by the maximum of each year, the mean of each row.  The
    three selections are taken at the years of the time span, and
    [no_televote] is a part of one of them, so that the two frames and the
    maxima have one column for each year and numpy adds and divides cell by
    cell. *)
Definition simulation_avgs (timespan : list Z)
  (countries_each_year : list (Z * Z)) (no_televote : list (Z * bool))
  (num_simulations : nat) (rng : Generator)
  : outcome (list fval * Generator) :=
  let* (jury_votes, rng) :=
    simulate_jury_votes countries_each_year num_simulations rng in
  let* (televotes, rng) :=
    simulate_televotes countries_each_year no_televote num_simulations rng in
  let simulated_points := zip_with (zip_with Z.add) jury_votes televotes in
  let* max_points := getitem (MAX_POSSIBLE_POINTS_RECEIVED tables) timespan in
  let points_percentage :=
    map (fun row => zip_with fdivZ row max_points.*2) simulated_points in
  Ok (map np_mean points_percentage, rng).

(** [favouritism(csv, country_x, country_y, start_year, end_year,
    num_simulations, confidence_threshold, return_detailed_data)];
    [plot_data] only draws a figure and is left out. *)
Definition favouritism (csv : list Pts.row) (country_x country_y : string)
  (start_year end_year : Z) (num_simulations : nat)
  (confidence_threshold : Q) (return_detailed_data : bool) (rng : Generator)
  : outcome (pyval * Generator) :=
  if bool_decide (country_x = country_y) then Ok (PyBool false, rng)
  else
    let by_year := select_by_year csv country_x country_y start_year end_year in
    if (length by_year =? 0)%nat then Ok (PyNone, rng)
    else
      let timespan := map Pts.Year by_year in
      let* countries_each_year :=
        getitem (PARTICIPANTS_BY_YEAR tables) timespan in
      let actual_average := pd_mean (map Pts.Points_total by_year) in
      let* has_televote := getitem (HAS_TELEVOTE_BY_YEAR tables) timespan in
      let no_televote := filter (fun p => p.2 = false) has_televote in
      let* (avgs, rng) :=
        simulation_avgs timespan countries_each_year no_televote
          num_simulations rng in
      let simluated_distribution := np_sort avgs in
      let* lowest := np_min simluated_distribution in
      let* _ := py_assert (fge lowest (Fin 0)) in
      let* simulated_95th_percentile :=
        np_percentile simluated_distribution confidence_threshold in
      let has_favouritism := fgt actual_average simulated_95th_percentile in
      Ok (report return_detailed_data has_favouritism actual_average
            simulated_95th_percentile, rng).

(** [collusion(csv, country_x, country_y, start_year, end_year, **kwargs)]:
    Python's [a and b] is [a] when [a] is falsy and [b] otherwise, and [b]
    is not evaluated in the first case. *)
Definition collusion (csv : list Pts.row) (country_x country_y : string)
  (start_year end_year : Z) (num_simulations : nat)
  (confidence_threshold : Q) (return_detailed_data : bool) (rng : Generator)
  : outcome (pyval * Generator) :=
  let* (first, rng') :=
    favouritism csv country_x country_y start_year end_year num_simulations
      confidence_threshold return_detailed_data rng in
  if truthy first
  then favouritism csv country_y country_x start_year end_year
         num_simulations confidence_threshold return_detailed_data rng'
  else Ok (first, rng').
End tests.

(** The names of the index levels that [csv.join(..., how="right")] leaves to
    the merged table: the row numbers of the left table have no name, and
    for a table without rows pandas takes the index of the right table, whose
    levels are the three keys. *)
Definition join_index_names (csv : list Vote.row) : list string :=
  match csv with
  | [] => ["Year"; "From_country"; "To_country"]%string
  | _ :: _ => []
  end.

(** [df.groupby(keys)] refuses a key that names both a column and a level of
    the index ("is both an index level and a column label, which is
    ambiguous"). *)
Definition groupby_keys (index_names keys : list string) : outcome unit :=
  if bool_decide (Exists (fun k => k ∈ index_names) keys)
  then Raised ValueError
  else Ok tt.

(** The cells from the CSV rows to [points] as a computation that may raise.
    The boolean selections, [drop_duplicates], [replace], [join] and the
    aggregations are total on a table with these columns, and a division of
    columns by zero gives a special float value and a warning, not an
    exception; [max_each_year] is the first to group the merged table, by
    its columns ["Year"] and ["From_country"]. *)
Definition record_normalizer (raw : list Raw.row)
  : outcome (list Pts.row * Globals) :=
  let* _ := groupby_keys (join_index_names (clean_csv raw))
              ["Year"; "From_country"]%string in
  Ok (prepare raw).

Definition points_of (raw : list Raw.row) : list Pts.row := (prepare raw).1.
Definition tables_of (raw : list Raw.row) : Globals := (prepare raw).2.

(** ** Reading the results *)

(** The three outcomes of a favouritism test: [None] stands for "no record
    of the pair in the range", [False] for "not significant", [True] or the
    detailed dictionary for "significant". *)
Inductive verdict : Type := NO_DATA | NOT_SIGNIFICANT | SIGNIFICANT.

Definition verdict_of (v : pyval) : verdict :=
  match v with
  | PyNone => NO_DATA
  | PyBool false => NOT_SIGNIFICANT
  | PyBool true | PyDict _ _ => SIGNIFICANT
  end.

Definition key_of (r : Vote.row) : Z * string * string :=
  (Vote.Year r, Vote.From_country r, Vote.To_country r).

Definition combined_key (c : Combined.row) : Z * string * string :=
  (Combined.Year c, Combined.From_country c, Combined.To_country c).

(** A value of a percentage column within [0, 1]. *)
Definition in_unit_interval (x : fval) : bool :=
  fge x (Fin 0) && fge (Fin 1) x.

(** Equality of float values up to the representation of the rational. *)
Definition feq (x y : fval) : Prop :=
  match x, y with
  | Fin a, Fin b => (a == b)%Q
  | PInf, PInf | NInf, NInf | NaN, NaN => True
  | _, _ => False
  end.

(** The percentile by linear interpolation between order statistics, as the
    specification words it: on the sorted batch [s] of [n] values, with
    [h = q / 100 * (n - 1)], the value [s[k] + (h - k) * (s[k + 1] - s[k])]
    where [k] is the integer part of [h] (and [s[k]] itself at the last
    position). *)
Definition order_statistic (s : list Q) (k : Z) : Q :=
  default 0%Q (s !! Z.to_nat k).

Definition percentile_linear (s : list Q) (q : Q) : Q :=
  let n := Z.of_nat (length s) in
  let h := (q / 100 * inject_Z (n - 1))%Q in
  let k := Qfloor h in
  if k + 1 <? n
  then (order_statistic s k
        + (h - inject_Z k) * (order_statistic s (k + 1) - order_statistic s k))%Q
  else order_statistic s k.

(** The conditions under which the simulation of a time span runs: every
    year is in the three tables, has at least two participants and a
    positive maximum, there is at least one simulation and the confidence
    threshold is a percentage. *)
Definition year_ok (tables : Globals) (y : Z) : bool :=
  match PARTICIPANTS_BY_YEAR tables !! y, HAS_TELEVOTE_BY_YEAR tables !! y,
        MAX_POSSIBLE_POINTS_RECEIVED tables !! y with
  | Some n, Some _, Some h => (2 <=? n) && (0 <? h)
  | _, _, _ => false
  end.

Definition runnable (tables : Globals) (timespan : list Z)
  (num_simulations : nat) (confidence_threshold : Q) : bool :=
  forallb (year_ok tables) timespan
  && (0 <? num_simulations)%nat
  && Qle_bool 0 confidence_threshold && Qle_bool confidence_threshold 100.

(** The number of raw values that a favouritism test takes from the
    generator: two frames of [num_simulations] rows and one column for each
    row of the pair in the range. *)
Definition draws (csv : list Pts.row) (country_x country_y : string)
  (start_year end_year : Z) (num_simulations : nat) : nat :=
  if bool_decide (country_x = country_y) then 0%nat
  else 2 * (num_simulations
            * length (select_by_year csv country_x country_y
                        start_year end_year)).

(** The generator whose next [m] values are those that [g] gives after its
    next [n], followed by the next [n] values of [g]: the two blocks of
    draws exchanged. *)
Definition exchange (n m : nat) (g : Generator) : Generator :=
  mkGenerator
    (fun i =>
       let c := cursor g in
       if (i <? c)%nat then stream g i
       else if (i <? c + m)%nat then stream g (i + n)
       else if (i <? c + m + n)%nat then stream g (i - m)
       else stream g i)
    (cursor g).

(** The batch of simulated averages of a test over [timespan]: the tables
    are read for the years of the span and the simulation is run, as
    [favouritism] does. *)
Definition simulated_batch (tables : Globals) (timespan : list Z)
  (num_simulations : nat) (rng : Generator)
  : outcome (list fval * Generator) :=
  let* countries_each_year :=
    getitem (PARTICIPANTS_BY_YEAR tables) timespan in
  let* has_televote := getitem (HAS_TELEVOTE_BY_YEAR tables) timespan in
  simulation_avgs tables timespan countries_each_year
    (filter (fun p => p.2 = false) has_televote) num_simulations rng.

(** The value of a computation that also returns the generator. *)
Definition value_of {A : Type} (o : outcome (A * Generator)) : outcome A :=
  match o with
  | Ok (a, _) => Ok a
  | Raised e => Raised e
  end.

(** ** Auxiliary predicates *)

(** Two generators that give the same next [n] values. *)
Definition same_draws (n : nat) (g g' : Generator) : Prop :=
  forall i, (i < n)%nat -> stream g (cursor g + i) = stream g' (cursor g' + i).

(** A column maximum (if the frame has rows) below the count of the year. *)
Definition below_count (o : option Z) (h : Z) : Prop :=
  match o with
  | Some m => m < h
  | None => True
  end.

(** The shape of a row of simulated points: one cell for each year of the
    time span, none negative. *)
Definition points_row (width : nat) (row : list Z) : Prop :=
  length row = width /\ Forall (fun p => 0 <= p) row.

(** A finite float value that is not negative. *)
Definition nonneg_fin (x : fval) : Prop :=
  exists q, x = Fin q /\ (0 <= q)%Q.

(** ** Sample tables *)

Definition vote (year : Z) (channel donor recipient : string) (p : Z)
  : Raw.row :=
  Raw.mk year "f" channel donor recipient p "".

(** A final of 2000 with four juries. *)
Definition final_2000 : list Raw.row :=
  [vote 2000 "J" "A" "B" 12; vote 2000 "J" "B" "A" 10;
   vote 2000 "J" "C" "A" 0; vote 2000 "J" "D" "A" 0].

(** A final of 2016 where C has a televote from A and no jury vote. *)
Definition final_2016 : list Raw.row :=
  [vote 2016 "J" "A" "B" 12; vote 2016 "T" "A" "B" 8;
   vote 2016 "T" "A" "C" 8].

(** The televote of Belarus to Russia reported with two different scores in
    the 2019 final, and the jury vote listed twice. *)
Definition final_2019 : list Raw.row :=
  [vote 2019 "J" "Belarus" "Russia" 5; vote 2019 "T" "Belarus" "Russia" 12;
   vote 2019 "T" "Belarus" "Russia" 0; vote 2019 "J" "Belarus" "Russia" 5].

(** A year in which twelve juries gave no points at all. *)
Definition final_zero : list Raw.row :=
  map (fun donor => vote 1990 "J" donor "B" 0)
    ["A"; "C"; "D"; "E"; "F"; "G"; "H"; "I"; "J"; "K"; "L"; "M"]%string.

(** A generator that gives 1, then zeros, then 2 as third value. *)
Definition sample_rng : Generator :=
  mkGenerator (fun n => match n with
                        | 0%nat => 1
                        | 2%nat => 2
                        | _ => 0
                        end) 0.

(** A generator whose values are all 10. *)
Definition constant_rng : Generator := mkGenerator (fun _ => 10) 0.

(** A final with a single jury. *)
Definition final_single : list Raw.row := [vote 2000 "J" "A" "B" 12].

(** ** The matrix of favouritism and the compiled results *)

(** [sorted(...)] on country names.  Python orders strings by code point,
    which on UTF-8 bytes is the order of [String.leb]; the list sorted here
    has no repetition, so that the algorithm leaves no trace. *)
Fixpoint insert_name (c : string) (l : list string) : list string :=
  match l with
  | [] => [c]
  | d :: l' => if String.leb c d then c :: l else d :: insert_name c l'
  end.

Definition sorted (l : list string) : list string := foldr insert_name [] l.

(** [sorted(set(filtered_by_year["From_country"].unique())
           | set(filtered_by_year["To_country"].unique()))] *)
Definition all_participants (points : list Pts.row) (start_year end_year : Z)
  : list string :=
  let filtered_by_year :=
    filter (fun r => ((start_year <=? Pts.Year r)
                      && (Pts.Year r <=? end_year)) = true) points in
  sorted
    (elements
       ((list_to_set (Pts.From_country <$> filtered_by_year) : gset string)
        ∪ list_to_set (Pts.To_country <$> filtered_by_year))).

(** A frame of booleans with the same labels for its rows and its columns,
    as [get_favouritism_matrix] builds it; [cell] is read at labels only. *)
Record Matrix : Type := mkMatrix {
  labels : list string;
  cell : string -> string -> bool
}.

(** [pd.DataFrame(index=labels, columns=labels, data=False)] *)
Definition false_matrix (labels : list string) : Matrix :=
  mkMatrix labels (fun _ _ => false).

(** [matrix.at[donor, recipient] = True] *)
Definition set_true (m : Matrix) (donor recipient : string) : Matrix :=
  mkMatrix (labels m)
    (fun a b =>
       if bool_decide (a = donor /\ b = recipient) then true else cell m a b).

(** The pairs that two nested loops over [l] go through. *)
Definition ordered_pairs (l : list string) : list (string * string) :=
  d ← l; r ← l; [(d, r)].

(** [result == True] *)
Definition py_eq_True (v : pyval) : bool :=
  match v with
  | PyBool true => true
  | _ => false
  end.

(** The defaults of [favouritism]. *)
Definition default_num_simulations : nat := Z.to_nat 100000.
Definition default_confidence_threshold : Q := 95.

(** A row of the results of [compile_one_result]. *)
Module Finding.
Record row : Type := mk {
  start_year : Z;
  end_year : Z;
  from_country : string;
  to_country : string;
  real_avg : fval;
  sim_avg : fval
}.
End Finding.

Section compiling.
Variable tables : Globals.
Variable points : list Pts.row.

(** The two loops of [get_favouritism_matrix]. *)
Fixpoint fill_matrix (start_year end_year : Z)
  (pairs : list (string * string)) (favouritism_matrix : Matrix)
  (rng : Generator) : outcome (Matrix * Generator) :=
  match pairs with
  | [] => Ok (favouritism_matrix, rng)
  | (donor, recipient) :: pairs' =>
      let* (result, rng) :=
        favouritism tables points donor recipient start_year end_year
          default_num_simulations default_confidence_threshold false rng in
      let favouritism_matrix :=
        if py_eq_True result
        then set_true favouritism_matrix donor recipient
        else favouritism_matrix in
      fill_matrix start_year end_year pairs' favouritism_matrix rng
  end.

(** [get_favouritism_matrix(points, start_year, end_year)] *)
Definition get_favouritism_matrix (start_year end_year : Z) (rng : Generator)
  : outcome (Matrix * Generator) :=
  let all_participants := all_participants points start_year end_year in
  fill_matrix start_year end_year (ordered_pairs all_participants)
    (false_matrix all_participants) rng.

(** The two loops of [compile_one_result].  With [return_detailed_data=True]
    a result that is true is a dictionary. *)
Fixpoint collect_results (start_year end_year : Z) (num_simulations : nat)
  (confidence_threshold : Q) (pairs : list (string * string))
  (results : list Finding.row) (rng : Generator)
  : outcome (list Finding.row * Generator) :=
  match pairs with
  | [] => Ok (results, rng)
  | (donor, recipient) :: pairs' =>
      let* (result, rng) :=
        favouritism tables points donor recipient start_year end_year
          num_simulations confidence_threshold true rng in
      let results :=
        match result with
        | PyDict actual_avg sim_avg =>
            results ++ [Finding.mk start_year end_year donor recipient
                          actual_avg sim_avg]
        | _ => results
        end in
      collect_results start_year end_year num_simulations
        confidence_threshold pairs' results rng
  end.

(** [compile_one_result(start_year, end_year, num_simulations,
    confidence_threshold)] *)
Definition compile_one_result (start_year end_year : Z)
  (num_simulations : nat) (confidence_threshold : Q) (rng : Generator)
  : outcome (list Finding.row * Generator) :=
  collect_results start_year end_year num_simulations confidence_threshold
    (ordered_pairs (all_participants points start_year end_year)) [] rng.

(** The loop of [compile_favouritism_results]. *)
Fixpoint compile_years (num_simulations : nat) (confidence_threshold : Q)
  (years_list : list (Z * Z)) (results : list Finding.row) (rng : Generator)
  : outcome (list Finding.row * Generator) :=
  match years_list with
  | [] => Ok (results, rng)
  | years :: years_list' =>
      let* (result, rng) :=
        compile_one_result years.1 years.2 num_simulations
          confidence_threshold rng in
      let results :=
        match result with
        | [] => results
        | _ => results ++ result
        end in
      compile_years num_simulations confidence_threshold years_list'
        results rng
  end.

(** [compile_favouritism_results(years_list, num_simulations,
    confidence_threshold)]: the rows of the frame of results and the row of
    the frame of parameters. *)
Definition compile_favouritism_results (years_list : list (Z * Z))
  (num_simulations : nat) (confidence_threshold : Q) (rng : Generator)
  : outcome ((list Finding.row * (nat * Q)) * Generator) :=
  let* (results, rng) :=
    compile_years num_simulations confidence_threshold years_list [] rng in
  Ok ((results, (num_simulations, confidence_threshold)), rng).
End compiling.

(** [matrix.transpose()] *)
Definition transpose (m : Matrix) : Matrix :=
  mkMatrix (labels m) (fun a b => cell m b a).

(** [a & b] on two frames with the same labels *)
Definition matrix_and (a b : Matrix) : Matrix :=
  mkMatrix (labels a) (fun x y => cell a x y && cell b x y).

(** The edges that [draw_favouritism_graph_from_adjacency_matrix] gives to
    the graph: [zip(matrix.index[rows], matrix.columns[cols])] for
    [rows, cols = np.where(matrix)]. *)
Definition matrix_edges (m : Matrix) : list (string * string) :=
  filter (fun p => cell m p.1 p.2 = true) (ordered_pairs (labels m)).

(** The matrix and the edges of
    [draw_collusion_graph_from_adjacency_matrix]. *)
Definition collusion_matrix (m : Matrix) : Matrix :=
  matrix_and m (transpose m).

Definition collusion_edges (m : Matrix) : list (string * string) :=
  matrix_edges (collusion_matrix m).

(** The pair of countries of a row of the results. *)
Definition finding_pair (row : Finding.row) : string * string :=
  (Finding.from_country row, Finding.to_country row).

(** What a row of the results says. *)
Definition finding_ok (points : list Pts.row) (s e : Z) (row : Finding.row)
  : Prop :=
  Finding.start_year row = s /\ Finding.end_year row = e
  /\ Finding.from_country row <> Finding.to_country row
  /\ Finding.real_avg row
     = pd_mean (map Pts.Points_total
                  (select_by_year points (Finding.from_country row)
                     (Finding.to_country row) s e))
  /\ select_by_year points (Finding.from_country row)
       (Finding.to_country row) s e <> []
  /\ fgt (Finding.real_avg row) (Finding.sim_avg row) = true.


(** * The notebook of the agreement between jury and televote

    [notebooks/agree.ipynb] reads the same CSV file. *)

(** [grand_final] after the selection of its four columns. *)
Module Ballot.
Record row : Type := mk {
  Jury_or_Televoting : string;
  From_country : string;
  To_country : string;
  Points : Z
}.

#[global] Instance row_eq_dec : EqDecision row.
Proof. solve_decision. Defined.

Definition of_raw (r : Raw.row) : row :=
  mk (Raw.Jury_or_Televoting r) (Raw.From_country r) (Raw.To_country r)
     (Raw.Points r).
End Ballot.

(** [voting_pairs]: the televote points of a pair are missing when the pair
    has no televote row. *)
Module Pair.
Record row : Type := mk {
  From_country : string;
  To_country : string;
  Points_Jury : Z;
  Points_Televote : option Z
}.
End Pair.

(** A frame of [voting_by_year] with its two columns of disagreement. *)
Module Scored.
Record row : Type := mk {
  From_country : string;
  To_country : string;
  Points_Jury : Z;
  Points_Televote : option Z;
  disagree_val : option Z;
  disagree_val_weighted : option Z
}.
End Scored.

Section frames.
Context {A : Type}.

(** [df[df.duplicated(subset)]]: the rows whose key is that of an earlier
    row; [seen] holds the keys of the rows gone through. *)
Fixpoint duplicated_after {K : Type} `{EqDecision K} (key : A -> K)
  (seen : list K) (l : list A) : list A :=
  match l with
  | [] => []
  | a :: l' =>
      if bool_decide (key a ∈ seen)
      then a :: duplicated_after key (key a :: seen) l'
      else duplicated_after key (key a :: seen) l'
  end.

Definition duplicated {K : Type} `{EqDecision K} (key : A -> K) (l : list A)
  : list A :=
  duplicated_after key [] l.

(** [df.drop_duplicates()] on the rows of any frame. *)
Fixpoint drop_duplicate_rows `{EqDecision A} (l : list A) : list A :=
  match l with
  | [] => []
  | x :: l' => x :: filter (fun y => y <> x) (drop_duplicate_rows l')
  end.
End frames.

Definition ballot_key (b : Ballot.row) : string * string * string :=
  (Ballot.Jury_or_Televoting b, Ballot.From_country b, Ballot.To_country b).

Definition ballot_pair (b : Ballot.row) : string * string :=
  (Ballot.From_country b, Ballot.To_country b).

(** The first two statements of [grand_final_votes]: the rows of the grand
    final of the year, with their four columns. *)
Definition grand_final_of (csv : list Raw.row) (year : Z) : list Ballot.row :=
  Ballot.of_raw
    <$> filter (fun r => Raw.Year r = year /\ is_grand_final r = true) csv.

(** [juryvotes.join(televotes.set_index(["From_country", "To_country"]),
    on=["From_country", "To_country"], lsuffix="_Jury",
    rsuffix="_Televote")] without the two channel columns: a left join. *)
Definition join_televotes (juryvotes televotes : list Ballot.row)
  : list Pair.row :=
  j ← juryvotes;
  match filter (fun t => ballot_pair t = ballot_pair j) televotes with
  | [] => [Pair.mk (Ballot.From_country j) (Ballot.To_country j)
             (Ballot.Points j) None]
  | matches =>
      (fun t => Pair.mk (Ballot.From_country j) (Ballot.To_country j)
                  (Ballot.Points j) (Some (Ballot.Points t))) <$> matches
  end.

(** [grand_final_votes(csv, year)] *)
Definition grand_final_votes (csv : list Raw.row) (year : Z)
  : outcome (list Pair.row) :=
  let grand_final := grand_final_of csv year in
  let duplicated := duplicated ballot_key grand_final in
  let* _ := py_assert (length duplicated =? 0)%nat in
  let juryvotes :=
    drop_duplicate_rows
      (filter (fun b => Ballot.Jury_or_Televoting b = "J"%string)
         grand_final) in
  let televotes :=
    drop_duplicate_rows
      (filter (fun b => Ballot.Jury_or_Televoting b = "T"%string)
         grand_final) in
  let voting_pairs := join_televotes juryvotes televotes in
  let* _ := py_assert
              ((length juryvotes =? length televotes)%nat
               && (length televotes =? length voting_pairs)%nat) in
  Ok voting_pairs.

(** The two cells that add [disagree_val] and [disagree_val_weighted].  The
    differences and the cubes are the exact ones, as they are in pandas for
    the scores of the contest, which are far from the limits of [int64] and
    of the integers that [float64] holds. *)
Definition add_disagreement (voting : list Pair.row) : list Scored.row :=
  (fun p =>
     Scored.mk (Pair.From_country p) (Pair.To_country p) (Pair.Points_Jury p)
       (Pair.Points_Televote p)
       ((fun t => Z.abs (Pair.Points_Jury p - t)) <$> Pair.Points_Televote p)
       ((fun t => Z.abs (Pair.Points_Jury p ^ 3 - t ^ 3))
          <$> Pair.Points_Televote p)) <$> voting.

(** [2 * ((12)**3 + (10)**3 + np.sum((np.arange(1, 8+1))**3))] *)
Definition MAX_WIGHTED_DISAGREEMENT : Z :=
  2 * (12 ^ 3 + 10 ^ 3 + foldr Z.add 0 ((fun k => k ^ 3) <$> seqZ 1 8)).

(** [df.groupby(key)[col].sum()]: missing values count for nothing. *)
Definition groupby_sum {K : Type} `{Countable K} {A : Type} (key : A -> K)
  (col : A -> option Z) (rows : list A) : gmap K Z :=
  foldr (fun a m =>
           partial_alter
             (fun o => Some (default 0 o + default 0 (col a))) (key a) m)
        ∅ rows.

(** [df.sort_values(by="disagree_val")] on the rows of the summary.  Rows
    with the same value come out in an order that numpy's quicksort decides;
    here they keep the order they had. *)
Fixpoint insert_by_value (x : string * (Q * Q)) (l : list (string * (Q * Q)))
  : list (string * (Q * Q)) :=
  match l with
  | [] => [x]
  | y :: l' =>
      if Qle_bool x.2.1 y.2.1 then x :: l else y :: insert_by_value x l'
  end.

Definition sort_values (l : list (string * (Q * Q)))
  : list (string * (Q * Q)) :=
  foldr insert_by_value [] l.

(** [disagreement_tabulate(voting)]: for each voting country, its two sums
    as percentages of 116 and of [MAX_WIGHTED_DISAGREEMENT]. *)
Definition disagreement_tabulate (voting : list Scored.row)
  : list (string * (Q * Q)) :=
  let flat := groupby_sum Scored.From_country Scored.disagree_val voting in
  let weighted :=
    groupby_sum Scored.From_country Scored.disagree_val_weighted voting in
  let voting_pairs_grouped_summary := map_zip_with pair flat weighted in
  let voting_pairs_grouped_summary_normalized :=
    (fun s => (Qred (inject_Z s.1 / 116 * 100),
               Qred (inject_Z s.2 / inject_Z MAX_WIGHTED_DISAGREEMENT * 100))%Q)
      <$> voting_pairs_grouped_summary in
  sort_values (map_to_list voting_pairs_grouped_summary_normalized).

(** Two juries and two televotes of 2019, each with one score. *)
Definition final_2019_pairs : list Raw.row :=
  [vote 2019 "J" "A" "B" 12; vote 2019 "T" "A" "B" 10;
   vote 2019 "J" "B" "A" 0; vote 2019 "T" "B" "A" 12].

(** ** Auxiliary notions for the agreement notebook *)

(** The two columns that name a row of [voting_pairs]. *)
Definition pair_key (p : Pair.row) : string * string :=
  (Pair.From_country p, Pair.To_country p).

(** The sum of a column of disagreement over the rows of one voting
    country, a missing value counting for nothing. *)
Definition column_sum (c : string) (col : Scored.row -> option Z)
  (voting : list Scored.row) : Z :=
  foldr Z.add 0
    ((fun a => default 0 (col a))
       <$> filter (fun a => Scored.From_country a = c) voting).

(** The points that a country gives in a year, by channel; a missing
    televote counts as no points. *)
Definition jury_awards (c : string) (voting : list Pair.row) : list Z :=
  Pair.Points_Jury <$> filter (fun p => Pair.From_country p = c) voting.

Definition televote_awards (c : string) (voting : list Pair.row) : list Z :=
  (fun p => default 0 (Pair.Points_Televote p))
    <$> filter (fun p => Pair.From_country p = c) voting.

(** The rule of the contest for one channel of one country: each score of
    the ladder goes to at most one recipient, the others get nothing. *)
Definition award_ok (l : list Z) : Prop :=
  NoDup (filter (fun p => p <> 0) l)
  /\ Forall (fun p => p = 0 \/ p ∈ ladder) l.

(** One country with two recipients, and the scores of both channels. *)
Definition sample_pairs : list Pair.row :=
  [Pair.mk "A" "B" 12 (Some 10); Pair.mk "A" "C" 0 (Some 12)].

(** * Properties *)

(** Closed goals on the sample tables: an equation by evaluation, a
    membership in an evaluated list. *)
Ltac by_computation :=
  first [ vm_compute; reflexivity
        | apply list_elem_of_In; vm_compute; tauto ].

(** ** Rank to points *)

Lemma rank_to_points_nonneg (rank : Z) : 0 <= rank_to_points rank.
Proof.
  unfold rank_to_points. destruct (10 <? rank); [lia|].
  assert (Hb : forall a v, 0 <= searchsorted a v <= Z.of_nat (length a)).
  { induction a as [|x a IH]; intros v; [simpl; lia|].
    cbn [searchsorted length]. rewrite Nat2Z.inj_succ.
    destruct (Qle_bool v x); [lia|]. specialize (IH v). lia. }
  specialize (Hb bins (inject_Z rank)).
  change (Z.of_nat (length bins)) with 12 in Hb. lia.
Qed.

(** The cell function on a rank that can be drawn: the value of the ladder
    at the position of the rank up to 10, and 0 above. *)
Lemma rank_to_points_cell (rank : Z) :
  1 <= rank ->
  (rank <= 10 -> ladder !! Z.to_nat (rank - 1) = Some (rank_to_points rank))
  /\ (10 < rank -> rank_to_points rank = 0).
Proof.
  intros Hlow. split.
  - intros Hhigh.
    assert (Hcases : rank = 1 \/ rank = 2 \/ rank = 3 \/ rank = 4 \/ rank = 5
                     \/ rank = 6 \/ rank = 7 \/ rank = 8 \/ rank = 9
                     \/ rank = 10) by lia.
    repeat (destruct Hcases as [-> | Hcases]; [reflexivity|]).
    subst rank. reflexivity.
  - intros Hhigh. unfold rank_to_points.
    destruct (Z.ltb_spec 10 rank); [reflexivity | lia].
Qed.

(** ** The early returns of [favouritism] *)

(** C4, as the code has it. The test of a country toward itself returns
    [False], the value of a test that was not significant, whatever the
    table, the range and the options; the generator is left as it was, so
    nothing was simulated. *)
Theorem favouritism_self (tables : Globals) (csv : list Pts.row)
  (country_x : string) (start_year end_year : Z) (num_simulations : nat)
  (confidence_threshold : Q) (return_detailed_data : bool) (rng : Generator) :
  favouritism tables csv country_x country_x start_year end_year
    num_simulations confidence_threshold return_detailed_data rng
  = Ok (PyBool false, rng).
Proof.
  unfold favouritism. rewrite bool_decide_eq_true_2; reflexivity.
Qed.

(** C4, as stated, fails: the verdict of the test of A toward itself is not
    [NO_DATA]. *)
Lemma favouritism_self_not_no_data :
  ~ (exists result rng',
        favouritism (tables_of final_2000) (points_of final_2000) "A" "A"
          1999 2001 10 95 false sample_rng
        = Ok (result, rng')
        /\ verdict_of result = NO_DATA).
Proof.
  intros (result & rng' & Hrun & Hverdict).
  vm_compute in Hrun. injection Hrun as <- _. discriminate Hverdict.
Qed.

Lemma select_by_year_empty_length (csv : list Pts.row) (x y : string)
  (s e : Z) :
  (length (select_by_year csv x y s e) =? 0)%nat = true
  <-> select_by_year csv x y s e = [].
Proof.
  rewrite Nat.eqb_eq. destruct (select_by_year csv x y s e); simpl; split;
    (discriminate || reflexivity || lia).
Qed.

(** C5, as the code has it. For two different countries without a row in the
    range the test returns [None] and leaves the generator as it was; and a
    test of a pair that has rows never returns [None], so that the two
    outcomes can be told apart. *)
Theorem favouritism_no_data (tables : Globals) (csv : list Pts.row)
  (country_x country_y : string) (start_year end_year : Z)
  (num_simulations : nat) (confidence_threshold : Q)
  (return_detailed_data : bool) (rng : Generator) :
  country_x <> country_y ->
  (select_by_year csv country_x country_y start_year end_year = [] ->
   favouritism tables csv country_x country_y start_year end_year
     num_simulations confidence_threshold return_detailed_data rng
   = Ok (PyNone, rng))
  /\ (select_by_year csv country_x country_y start_year end_year <> [] ->
      forall result rng',
        favouritism tables csv country_x country_y start_year end_year
          num_simulations confidence_threshold return_detailed_data rng
        = Ok (result, rng') ->
        verdict_of result <> NO_DATA).
Proof.
  intros Hne. unfold favouritism.
  rewrite bool_decide_eq_false_2 by exact Hne. split.
  - intros Hempty.
    apply select_by_year_empty_length in Hempty. rewrite Hempty. reflexivity.
  - intros Hrows result rng' Hrun.
    destruct (length _ =? 0)%nat eqn:Hlen.
    { apply select_by_year_empty_length in Hlen. contradiction. }
    destruct (getitem (PARTICIPANTS_BY_YEAR tables) _); [|discriminate].
    simpl in Hrun.
    destruct (getitem (HAS_TELEVOTE_BY_YEAR tables) _); [|discriminate].
    simpl in Hrun.
    destruct (simulation_avgs _ _ _ _ _ _) as [[avgs rng1]|]; [|discriminate].
    simpl in Hrun.
    destruct (np_min _); [|discriminate]. simpl in Hrun.
    destruct (py_assert _); [|discriminate]. simpl in Hrun.
    destruct (np_percentile _ _); [|discriminate]. simpl in Hrun.
    injection Hrun as <- _. unfold report.
    destruct return_detailed_data, (fgt _ _); discriminate.
Qed.

Lemma favouritism_no_data_witness :
  favouritism (tables_of final_2000) (points_of final_2000) "C" "B"
    1999 2001 10 95 false sample_rng
  = Ok (PyNone, sample_rng).
Proof.
  apply favouritism_no_data; [discriminate | vm_compute; reflexivity].
Defined.

(** C5, as stated, fails when the donor is the recipient: A has no row
    toward itself, and the verdict is not [NO_DATA]. *)
Lemma favouritism_empty_span_not_no_data :
  select_by_year (points_of final_2000) "A" "A" 1999 2001 = []
  /\ exists rng',
      favouritism (tables_of final_2000) (points_of final_2000) "A" "A"
        1999 2001 10 95 false sample_rng
      = Ok (PyBool false, rng')
      /\ verdict_of (PyBool false) <> NO_DATA.
Proof.
  split; [vm_compute; reflexivity|].
  eexists. split; [vm_compute; reflexivity | discriminate].
Qed.

(** ** Collusion *)

Lemma truthy_significant (v : pyval) :
  truthy v = true <-> verdict_of v = SIGNIFICANT.
Proof. destruct v as [|[]|]; simpl; split; (reflexivity || discriminate). Qed.

(** C3, as the code has it. [collusion] runs the test from x to y and, only
    when that one is significant, the test from y to x on the generator that
    the first has left; an exception of a test that is run is the outcome of
    [collusion].  A first test that returns without being significant, for
    lack of data as well, is the result, and it is false (as Python reads
    it); after a significant first test the outcome is that of the second.
    So the value returned is true if and only if both tests are
    significant. *)
Theorem collusion_both_significant (tables : Globals) (csv : list Pts.row)
  (country_x country_y : string) (start_year end_year : Z)
  (num_simulations : nat) (confidence_threshold : Q)
  (return_detailed_data : bool) (rng : Generator) :
  let test a b g :=
    favouritism tables csv a b start_year end_year num_simulations
      confidence_threshold return_detailed_data g in
  let both :=
    collusion tables csv country_x country_y start_year end_year
      num_simulations confidence_threshold return_detailed_data rng in
  (forall e, test country_x country_y rng = Raised e -> both = Raised e)
  /\ (forall first rng1,
         test country_x country_y rng = Ok (first, rng1) ->
         verdict_of first <> SIGNIFICANT ->
         both = Ok (first, rng1) /\ truthy first = false)
  /\ (forall first rng1,
         test country_x country_y rng = Ok (first, rng1) ->
         verdict_of first = SIGNIFICANT ->
         both = test country_y country_x rng1
         /\ forall second rng2,
             test country_y country_x rng1 = Ok (second, rng2) ->
             (truthy second = true <-> verdict_of second = SIGNIFICANT))
  /\ (forall result rng',
         both = Ok (result, rng') ->
         (truthy result = true <->
          exists first rng1,
            test country_x country_y rng = Ok (first, rng1)
            /\ verdict_of first = SIGNIFICANT
            /\ test country_y country_x rng1 = Ok (result, rng')
            /\ verdict_of result = SIGNIFICANT)).
Proof.
  intros test both. subst both. unfold collusion.
  fold (test country_x country_y rng).
  split; [|split; [|split]].
  - by intros e ->.
  - intros first rng1 -> Hverdict. cbn [bind].
    destruct (truthy first) eqn:Htruthy; [|done].
    by apply truthy_significant in Htruthy.
  - intros first rng1 -> Hverdict%truthy_significant. cbn [bind].
    rewrite Hverdict. split; [done|]. intros second rng2 _.
    apply truthy_significant.
  - intros result rng' Hrun.
    destruct (test country_x country_y rng) as [[first rng1]|] eqn:Hfirst;
      [|done].
    cbn [bind] in Hrun. destruct (truthy first) eqn:Htruthy.
    + fold (test country_y country_x rng1) in Hrun. split.
      * intros Hresult. exists first, rng1.
        repeat split; try done; by apply truthy_significant.
      * intros (first' & rng1' & _ & _ & _ & Hsig).
        by apply truthy_significant.
    + injection Hrun as <- <-. rewrite Htruthy. split; [done|].
      intros (first' & rng1' & Heq & Hsig & _).
      injection Heq as <- <-. apply truthy_significant in Hsig. congruence.
Qed.

Lemma collusion_both_significant_witness :
  collusion (tables_of final_2000) (points_of final_2000) "A" "B"
    1999 2001 1 95 false sample_rng
  = favouritism (tables_of final_2000) (points_of final_2000) "B" "A"
      1999 2001 1 95 false (advance 2 sample_rng).
Proof.
  pose proof (collusion_both_significant (tables_of final_2000)
                (points_of final_2000) "A" "B" 1999 2001 1 95 false sample_rng)
    as (_ & _ & Hsecond & _).
  apply (Hsecond (PyBool true) (advance 2 sample_rng));
    [vm_compute; reflexivity | reflexivity].
Defined.

(** C3, as stated, fails: the single jury of the 2000 final gives the test
    from B to A no data, and the collusion test of A and B stops on the
    [ValueError] of the test from A to B all the same. *)
Lemma collusion_raises_without_data :
  (exists rng',
      favouritism (tables_of final_single) (points_of final_single) "B" "A"
        1999 2001 1 95 false sample_rng = Ok (PyNone, rng')
      /\ verdict_of PyNone = NO_DATA)
  /\ collusion (tables_of final_single) (points_of final_single) "A" "B"
       1999 2001 1 95 false sample_rng
     = Raised ValueError.
Proof.
  split; [eexists; split; [vm_compute; reflexivity | reflexivity]|].
  vm_compute. reflexivity.
Qed.

(** ** Merging the two channels *)

Lemma elem_of_self_join (csv : list Vote.row) (j : Joined.row) :
  j ∈ self_join csv <->
  exists l r,
    l ∈ csv /\ r ∈ csv /\ key_of l = key_of r
    /\ j = Joined.mk (Vote.Year l) (Vote.Jury_or_Televoting l)
             (Vote.From_country l) (Vote.To_country l) (Vote.Points l)
             (Vote.Jury_or_Televoting r) (Vote.Points r).
Proof.
  unfold self_join. rewrite list_elem_of_bind. split.
  - intros (r & Hj & Hr). apply list_elem_of_bind in Hj as (l & Hj & Hl).
    apply list_elem_of_filter in Hl as [Hkey Hl].
    apply list_elem_of_singleton in Hj.
    exists l, r. repeat split; try assumption.
    unfold same_key in Hkey. unfold key_of.
    repeat (apply andb_prop in Hkey as [Hkey ?]).
    repeat match goal with H : bool_decide _ = true |- _ =>
      apply bool_decide_eq_true_1 in H end.
    congruence.
  - intros (l & r & Hl & Hr & Hkey & ->). exists r. split; [|assumption].
    apply list_elem_of_bind. exists l. split; [by apply list_elem_of_singleton|].
    apply list_elem_of_filter. split; [|assumption].
    unfold key_of in Hkey. injection Hkey as H1 H2 H3. unfold same_key.
    rewrite !bool_decide_eq_true_2 by assumption. reflexivity.
Qed.

Lemma elem_of_combined_csv (csv : list Vote.row) (c : Combined.row) :
  c ∈ combined_csv csv <->
  exists l r,
    l ∈ csv /\ r ∈ csv /\ key_of l = key_of r
    /\ (Vote.Year l < 2016
        \/ (2016 <= Vote.Year l /\ Vote.Jury_or_Televoting l = "J"%string
            /\ Vote.Jury_or_Televoting r = "T"%string))
    /\ c = let televote := if Vote.Year l <=? 2015 then 0 else Vote.Points r in
           Combined.mk (Vote.Year l) (Vote.From_country l) (Vote.To_country l)
             (Vote.Points l) televote (wrap64 (Vote.Points l + televote)).
Proof.
  unfold combined_csv. rewrite list_elem_of_fmap. split.
  - intros (j & -> & Hj). apply list_elem_of_filter in Hj as [Hkeep Hj].
    apply elem_of_self_join in Hj as (l & r & Hl & Hr & Hkey & ->).
    exists l, r. repeat split; try assumption.
    unfold keep_joined in Hkeep.
    cbn [Joined.Year Joined.Jury_or_Televoting_Jury
         Joined.Jury_or_Televoting_Televote] in Hkeep.
    rewrite orb_true_iff, !andb_true_iff, Z.ltb_lt, Z.leb_le,
      !bool_decide_eq_true in Hkeep.
    tauto.
  - intros (l & r & Hl & Hr & Hkey & Hchannel & ->).
    exists (Joined.mk (Vote.Year l) (Vote.Jury_or_Televoting l)
              (Vote.From_country l) (Vote.To_country l) (Vote.Points l)
              (Vote.Jury_or_Televoting r) (Vote.Points r)).
    split; [reflexivity|].
    apply list_elem_of_filter. split.
    + unfold keep_joined.
      cbn [Joined.Year Joined.Jury_or_Televoting_Jury
           Joined.Jury_or_Televoting_Televote].
      rewrite orb_true_iff, !andb_true_iff, Z.ltb_lt, Z.leb_le,
        !bool_decide_eq_true.
      tauto.
    + apply elem_of_self_join. exists l, r. by repeat split.
Qed.

(** C7, as the code has it. From 2016 on, a merged record of a key comes from
    a jury record and a televote record of that key and carries their points
    and their [int64] sum; so a recipient with only a televote from a donor
    has no merged record.  Before 2016 a merged record comes from any two
    records of the key: its jury points are those of the first, and its
    televote points are 0. *)
Theorem combined_csv_needs_both_channels (csv : list Vote.row)
  (c : Combined.row) :
  (2016 <= Combined.Year c ->
   (c ∈ combined_csv csv <->
    exists l r,
      l ∈ csv /\ r ∈ csv
      /\ key_of l = combined_key c /\ key_of r = combined_key c
      /\ Vote.Jury_or_Televoting l = "J"%string
      /\ Vote.Jury_or_Televoting r = "T"%string
      /\ Combined.Points_Jury c = Vote.Points l
      /\ Combined.Points_Televote c = Vote.Points r
      /\ Combined.Points_total c = wrap64 (Vote.Points l + Vote.Points r)))
  /\ (Combined.Year c < 2016 ->
      (c ∈ combined_csv csv <->
       exists l r,
         l ∈ csv /\ r ∈ csv
         /\ key_of l = combined_key c /\ key_of r = combined_key c
         /\ Combined.Points_Jury c = Vote.Points l
         /\ Combined.Points_Televote c = 0
         /\ Combined.Points_total c = wrap64 (Vote.Points l))).
Proof.
  rewrite elem_of_combined_csv. destruct c as [y f t pj pt ptot].
  unfold combined_key, key_of. simpl. split; intros Hyear; split.
  - intros (l & r & Hl & Hr & Hkey & Hchannel & Hc).
    injection Hc as -> -> -> -> -> ->.
    destruct Hchannel as [? | (_ & HJ & HT)]; [lia|].
    destruct (Z.leb_spec (Vote.Year l) 2015); [lia|].
    exists l, r. repeat split; try assumption. congruence.
  - intros (l & r & Hl & Hr & Hkl & Hkr & HJ & HT & -> & -> & ->).
    injection Hkl as <- <- <-. exists l, r.
    repeat split; try assumption; [congruence | right; by repeat split |].
    destruct (Z.leb_spec (Vote.Year l) 2015); [lia | reflexivity].
  - intros (l & r & Hl & Hr & Hkey & _ & Hc).
    injection Hc as -> -> -> -> -> ->.
    destruct (Z.leb_spec (Vote.Year l) 2015); [|lia].
    exists l, r. repeat split; try assumption; [congruence|].
    by rewrite Z.add_0_r.
  - intros (l & r & Hl & Hr & Hkl & Hkr & -> & -> & ->).
    injection Hkl as <- <- <-. exists l, r.
    repeat split; try assumption; [congruence | by left |].
    destruct (Z.leb_spec (Vote.Year l) 2015); [|lia].
    by rewrite Z.add_0_r.
Qed.

Lemma combined_csv_needs_both_channels_witness :
  Combined.mk 2016 "A" "B" 12 8 20 ∈ combined_csv (clean_csv final_2016).
Proof.
  apply (proj1 (combined_csv_needs_both_channels _ _));
    [unfold Combined.Year; lia|].
  exists (Vote.mk 2016 "J" "A" "B" 12), (Vote.mk 2016 "T" "A" "B" 8).
  repeat split; by_computation.
Defined.

(** C7, as stated, fails: C received a televote from A in 2016 and no jury
    vote, and there is no merged record from A to C. *)
Lemma televote_only_recipient_dropped :
  Vote.mk 2016 "T" "A" "C" 8 ∈ clean_csv final_2016
  /\ ~ (exists c, c ∈ combined_csv (clean_csv final_2016)
                  /\ combined_key c = (2016, "A"%string, "C"%string)).
Proof.
  split.
  - by_computation.
  - intros (c & Hc & Hkey).
    let merged := eval vm_compute in (combined_csv (clean_csv final_2016)) in
    change (combined_csv (clean_csv final_2016)) with merged in Hc.
    apply list_elem_of_singleton in Hc. subst c. discriminate Hkey.
Qed.

(** ** Duplicate records *)

Lemma elem_of_drop_duplicates (l : list Vote.row) (v : Vote.row) :
  v ∈ drop_duplicates l <-> v ∈ l.
Proof.
  induction l as [|x l IH]; [reflexivity|]. cbn [drop_duplicates].
  rewrite !elem_of_cons, list_elem_of_filter, IH.
  destruct (decide (v = x)); tauto.
Qed.

Lemma NoDup_drop_duplicates (l : list Vote.row) : NoDup (drop_duplicates l).
Proof.
  induction l as [|x l IH]; [constructor|]. cbn [drop_duplicates].
  constructor; [|by apply NoDup_filter].
  rewrite list_elem_of_filter. tauto.
Qed.

(** The cells stop on a file without a grand-final row, and on no other. *)
Lemma record_normalizer_cases (raw : list Raw.row) :
  ((forall w, w ∈ raw -> is_grand_final w = false)
   /\ record_normalizer raw = Raised ValueError)
  \/ ((exists w, w ∈ raw /\ is_grand_final w = true)
      /\ record_normalizer raw = Ok (prepare raw)).
Proof.
  unfold record_normalizer, clean_csv.
  destruct (filter (fun r => is_grand_final r = true) raw) as [|w selected]
    eqn:Hselected.
  - left. split; [|done]. intros w Hw.
    destruct (is_grand_final w) eqn:Hfinal; [|done].
    assert (Hin : w ∈ filter (fun r => is_grand_final r = true) raw)
      by by apply list_elem_of_filter.
    rewrite Hselected in Hin. by apply not_elem_of_nil in Hin.
  - right. split; [|done]. exists w.
    assert (Hin : w ∈ filter (fun r => is_grand_final r = true) raw)
      by (rewrite Hselected; left).
    by apply list_elem_of_filter in Hin as [? ?].
Qed.

(** C8, as the code has it. Duplicate records never make the cells fail: a
    file with a grand-final row is normalised, whatever its duplicates, and
    the only failure is the [ValueError] of [groupby] on a file without any
    grand-final row.  The cleaned table is the renaming of a table that holds
    every selected row of the input once: rows equal in all five columns are
    reduced to one, and every row that differs from the others, be it only
    by its points, is kept. *)
Theorem duplicates_dropped_silently (raw : list Raw.row) :
  ((exists w, w ∈ raw /\ is_grand_final w = true) ->
   record_normalizer raw = Ok (prepare raw))
  /\ ((forall w, w ∈ raw -> is_grand_final w = false) ->
      record_normalizer raw = Raised ValueError)
  /\ exists csv,
      clean_csv raw = map rename_countries csv
      /\ NoDup csv
      /\ (forall v,
             v ∈ csv <->
             exists w, w ∈ raw /\ is_grand_final w = true
                       /\ v = Vote.of_raw w).
Proof.
  split; [|split].
  - intros (w & Hw & Hfinal).
    destruct (record_normalizer_cases raw) as [[Hnone _] | [_ Hok]]; [|done].
    rewrite (Hnone w Hw) in Hfinal. done.
  - intros Hnone.
    destruct (record_normalizer_cases raw)
      as [[_ Hfail] | [(w & Hw & Hfinal) _]]; [done|].
    rewrite (Hnone w Hw) in Hfinal. done.
  - exists (drop_duplicates
              (map Vote.of_raw
                 (filter (fun r => is_grand_final r = true) raw))).
    split; [reflexivity|]. split; [apply NoDup_drop_duplicates|].
    intros v. rewrite elem_of_drop_duplicates, list_elem_of_fmap. split.
    + intros (w & -> & [Hfinal Hw]%list_elem_of_filter). by exists w.
    + intros (w & Hw & Hfinal & ->). exists w. split; [done|].
      by apply list_elem_of_filter.
Qed.

(** C8, as stated, fails: the 2019 table has two televote records and two
    jury records for one key, and the cells return a table in which the two
    jury records are one and the key has two merged records. *)
Lemma duplicate_records_not_refused :
  exists points tables,
    record_normalizer final_2019 = Ok (points, tables)
    /\ clean_csv final_2019
       = [Vote.mk 2019 "J" "Belarus" "Russia" 5;
          Vote.mk 2019 "T" "Belarus" "Russia" 12;
          Vote.mk 2019 "T" "Belarus" "Russia" 0]
    /\ map Pts.Points_total points = [Fin 1; Fin (5 # 17)].
Proof.
  eexists _, _. split; [vm_compute; reflexivity|].
  split; vm_compute; reflexivity.
Qed.

(** ** Statistics of each year *)

Section groupby_facts.
Context {K : Type} `{Countable K} {A : Type}.
Variable key : A -> K.
Variable col : A -> Z.

(** Every row is below the maximum of its group. *)
Lemma groupby_max_above (rows : list A) (a : A) :
  a ∈ rows ->
  exists v, groupby_max key col rows !! key a = Some v /\ col a <= v.
Proof.
  induction rows as [|b rows IH]; [by intros ?%not_elem_of_nil|].
  intros Ha. cbn [groupby_max foldr]. rewrite lookup_partial_alter.
  fold (groupby_max key col rows).
  destruct (decide (key b = key a)) as [Heq | Hneq].
  - apply elem_of_cons in Ha as [-> | Ha].
    + eexists. split; [reflexivity|].
      destruct (groupby_max key col rows !! key b); lia.
    + destruct (IH Ha) as (v & Hv & Hle). rewrite Heq, Hv.
      eexists. split; [reflexivity | lia].
  - apply elem_of_cons in Ha as [-> | Ha]; [done | by apply IH].
Qed.

(** The maximum of a group is the value of one of its rows. *)
Lemma groupby_max_attained (rows : list A) (k : K) (v : Z) :
  groupby_max key col rows !! k = Some v ->
  exists a, a ∈ rows /\ key a = k /\ col a = v.
Proof.
  revert v. induction rows as [|b rows IH]; intros v.
  { cbn. by rewrite lookup_empty. }
  cbn [groupby_max foldr]. rewrite lookup_partial_alter.
  fold (groupby_max key col rows).
  destruct (decide (key b = k)) as [Heq | Hneq].
  - destruct (groupby_max key col rows !! key b) as [w|] eqn:Hw.
    + intros [= <-]. destruct (Z.max_spec w (col b)) as [[_ ->] | [_ ->]].
      * exists b. split; [left | done].
      * rewrite Heq in Hw. destruct (IH _ Hw) as (a & Ha & Hk & Hc).
        exists a. split; [by right | done].
    + intros [= <-]. exists b. split; [left | done].
  - intros Hv. destruct (IH _ Hv) as (a & Ha & Hk & Hc).
    exists a. split; [by right | done].
Qed.
End groupby_facts.

(** The maximum of a year, computed through the maxima of the donors. *)
Lemma by_year_max_above {A : Type} (col : A -> Z) (year : A -> Z)
  (donor : A -> string) (rows : list A) (a : A) :
  a ∈ rows ->
  exists v,
    groupby_max year_of_group snd
      (map_to_list (groupby_max (fun r => (year r, donor r)) col rows))
    !! year a = Some v
    /\ col a <= v.
Proof.
  intros Ha.
  destruct (groupby_max_above (fun r => (year r, donor r)) col rows a Ha)
    as (w & Hw & Hle).
  apply elem_of_map_to_list in Hw.
  destruct (groupby_max_above year_of_group snd _ _ Hw) as (v & Hv & Hle').
  exists v. split; [exact Hv | simpl in Hle'; lia].
Qed.

Lemma by_year_max_attained {A : Type} (col : A -> Z) (year : A -> Z)
  (donor : A -> string) (rows : list A) (y v : Z) :
  groupby_max year_of_group snd
    (map_to_list (groupby_max (fun r => (year r, donor r)) col rows))
  !! y = Some v ->
  exists a, a ∈ rows /\ year a = y /\ col a = v.
Proof.
  intros Hv.
  apply groupby_max_attained in Hv as ([[y' d] w] & Hin & Hy & Hw).
  apply elem_of_map_to_list in Hin.
  apply groupby_max_attained in Hin as (a & Ha & Hk & Hc).
  injection Hk as Hyear _. exists a. unfold year_of_group in Hy.
  simpl in *. split; [done | split; congruence].
Qed.

(** [max_each_year]: the maximum receivable of the year of a row is the
    [int64] sum of the two maxima of that year, which are the highest jury
    points and the highest televote points of the rows of the year. *)
Lemma max_each_year_above (csv : list Combined.row) (c : Combined.row) :
  c ∈ csv ->
  exists maxJ maxT,
    (max_each_year csv).1 !! Combined.Year c = Some (wrap64 (maxJ + maxT))
    /\ (forall a, a ∈ csv -> Combined.Year a = Combined.Year c ->
                  Combined.Points_Jury a <= maxJ
                  /\ Combined.Points_Televote a <= maxT)
    /\ (exists a, a ∈ csv /\ Combined.Year a = Combined.Year c
                  /\ Combined.Points_Jury a = maxJ)
    /\ (exists a, a ∈ csv /\ Combined.Year a = Combined.Year c
                  /\ Combined.Points_Televote a = maxT).
Proof.
  intros Hc. unfold max_each_year. cbn [fst].
  destruct (by_year_max_above Combined.Points_Jury Combined.Year
              Combined.From_country csv c Hc) as (maxJ & HJ & HleJ).
  destruct (by_year_max_above Combined.Points_Televote Combined.Year
              Combined.From_country csv c Hc) as (maxT & HT & HleT).
  exists maxJ, maxT. rewrite map_lookup_zip_with, HJ, HT.
  split; [done|]. split; [|split].
  - intros a Ha Hyear.
    destruct (by_year_max_above Combined.Points_Jury Combined.Year
                Combined.From_country csv a Ha) as (v & Hv & Hle).
    destruct (by_year_max_above Combined.Points_Televote Combined.Year
                Combined.From_country csv a Ha) as (w & Hw & Hle').
    rewrite Hyear in Hv, Hw. rewrite HJ in Hv. rewrite HT in Hw.
    injection Hv as <-. injection Hw as <-. done.
  - by apply by_year_max_attained in HJ.
  - by apply by_year_max_attained in HT.
Qed.

(** ** Float comparisons on finite values *)

Lemma fge_Fin (a b : Q) : fge (Fin a) (Fin b) = true <-> (b <= a)%Q.
Proof.
  cbn [fge]. destruct (a ?= b)%Q eqn:Hcmp.
  - apply Qeq_alt in Hcmp. split; [intros _; rewrite Hcmp; apply Qle_refl | done].
  - apply Qlt_alt in Hcmp. split; [done|]. intros Hle.
    exfalso. by apply (Qlt_not_le a b).
  - apply Qgt_alt in Hcmp. split; [intros _; by apply Qlt_le_weak | done].
Qed.

Lemma fgt_Fin (a b : Q) : fgt (Fin a) (Fin b) = true <-> (b < a)%Q.
Proof.
  cbn [fgt]. destruct (a ?= b)%Q eqn:Hcmp.
  - apply Qeq_alt in Hcmp. split; [done|]. intros Hlt. exfalso.
    rewrite Hcmp in Hlt. by apply (Qlt_irrefl b).
  - apply Qlt_alt in Hcmp. split; [done|]. intros Hlt. exfalso.
    exact (Qlt_irrefl a (Qlt_trans a b a Hcmp Hlt)).
  - apply Qgt_alt in Hcmp. by split.
Qed.

(** A quotient of an integer between 0 and a positive bound by that bound. *)
Lemma fdivZ_unit (p h : Z) :
  0 <= p <= h -> 0 < h ->
  exists q, fdivZ p h = Fin q /\ (0 <= q <= 1)%Q.
Proof.
  intros Hp Hh. unfold fdivZ. destruct (Z.eqb_spec h 0); [lia|].
  eexists. split; [reflexivity|]. rewrite Qred_correct.
  assert (Hpos : (0 < inject_Z h)%Q) by (unfold Qlt; simpl; lia).
  split.
  - apply Qle_shift_div_l; [done|]. unfold Qle; simpl; lia.
  - apply Qle_shift_div_r; [done|]. unfold Qle; simpl; lia.
Qed.

Lemma fdivZ_nonneg (p h : Z) :
  0 <= p -> 0 < h -> exists q, fdivZ p h = Fin q /\ (0 <= q)%Q.
Proof.
  intros Hp Hh. unfold fdivZ. destruct (Z.eqb_spec h 0); [lia|].
  eexists. split; [reflexivity|]. rewrite Qred_correct.
  apply Qle_shift_div_l; [unfold Qlt; simpl; lia | unfold Qle; simpl; lia].
Qed.

(** ** Normalised points *)

Lemma clean_csv_points (raw : list Raw.row) (v : Vote.row) :
  v ∈ clean_csv raw ->
  exists w, w ∈ raw /\ Vote.Points v = Raw.Points w.
Proof.
  unfold clean_csv. intros Hv.
  apply list_elem_of_fmap in Hv as (u & -> & Hu).
  rewrite elem_of_drop_duplicates in Hu.
  apply list_elem_of_fmap in Hu as (w & -> & Hw).
  apply list_elem_of_filter in Hw as [_ Hw]. by exists w.
Qed.

Lemma wrap64_small (z : Z) : - 2 ^ 63 <= z < 2 ^ 63 -> wrap64 z = z.
Proof. intros Hz. unfold wrap64. rewrite Z.mod_small; lia. Qed.

(** With points from 0 to below [2 ^ 62] the total of a merged record is the
    sum of its two channels. *)
Lemma combined_csv_points (csv : list Vote.row) (c : Combined.row) :
  (forall v, v ∈ csv -> 0 <= Vote.Points v < 2 ^ 62) ->
  c ∈ combined_csv csv ->
  0 <= Combined.Points_Jury c < 2 ^ 62
  /\ 0 <= Combined.Points_Televote c < 2 ^ 62
  /\ Combined.Points_total c
     = Combined.Points_Jury c + Combined.Points_Televote c.
Proof.
  intros Hpos Hc.
  apply elem_of_combined_csv in Hc as (l & r & Hl & Hr & _ & _ & ->).
  cbn. apply Hpos in Hl, Hr.
  destruct (Vote.Year l <=? 2015); (split; [lia|]); (split; [lia|]);
    apply wrap64_small; lia.
Qed.

Lemma points_of_unfold (raw : list Raw.row) :
  points_of raw
  = normalise (max_each_year (combined_csv (clean_csv raw))).1
      (combined_csv (clean_csv raw)).
Proof. reflexivity. Qed.

Lemma tables_of_max (raw : list Raw.row) :
  MAX_POSSIBLE_POINTS_RECEIVED (tables_of raw)
  = (max_each_year (combined_csv (clean_csv raw))).1.
Proof. reflexivity. Qed.

(** C9, as the code has it. When the points of every record of the input are
    from 0 to below [2 ^ 62], every row of [points] carries the maximum
    receivable of its year, which is the highest jury points of the merged
    records of the year plus their highest televote points, and is not below
    the total of the row; and when that maximum is positive, the normalised
    total of the row lies between 0 and 1. *)
Theorem points_total_pct_in_unit_interval (raw : list Raw.row)
  (r : Pts.row) :
  (forall v, v ∈ raw -> 0 <= Raw.Points v < 2 ^ 62) ->
  r ∈ points_of raw ->
  let merged := combined_csv (clean_csv raw) in
  exists total maxJ maxT,
    (forall a, a ∈ merged -> Combined.Year a = Pts.Year r ->
               Combined.Points_Jury a <= maxJ
               /\ Combined.Points_Televote a <= maxT)
    /\ (exists a, a ∈ merged /\ Combined.Year a = Pts.Year r
                  /\ Combined.Points_Jury a = maxJ)
    /\ (exists a, a ∈ merged /\ Combined.Year a = Pts.Year r
                  /\ Combined.Points_Televote a = maxT)
    /\ MAX_POSSIBLE_POINTS_RECEIVED (tables_of raw) !! Pts.Year r
       = Some (maxJ + maxT)
    /\ Pts.highest r = Some (maxJ + maxT)
    /\ Pts.Points_total r = fdivZ total (maxJ + maxT)
    /\ 0 <= total <= maxJ + maxT
    /\ (0 < maxJ + maxT -> in_unit_interval (Pts.Points_total r) = true).
Proof.
  intros Hpos Hr merged. rewrite tables_of_max. rewrite points_of_unfold in Hr.
  fold merged in Hr |- *.
  apply list_elem_of_fmap in Hr as (c & -> & Hc).
  destruct (max_each_year_above merged c Hc)
    as (maxJ & maxT & Hmax & Hle & HattJ & HattT).
  assert (Hvote : forall v, v ∈ clean_csv raw -> 0 <= Vote.Points v < 2 ^ 62).
  { intros v (w & Hw & ->)%clean_csv_points. by apply Hpos. }
  destruct (combined_csv_points _ c Hvote Hc) as (HposJ & HposT & Htotal).
  destruct (Hle c Hc eq_refl) as [HleJ HleT].
  assert (HmaxJ : 0 <= maxJ < 2 ^ 62).
  { destruct HattJ as (a & Ha & _ & <-).
    by destruct (combined_csv_points _ a Hvote Ha) as (? & _). }
  assert (HmaxT : 0 <= maxT < 2 ^ 62).
  { destruct HattT as (a & Ha & _ & <-).
    by destruct (combined_csv_points _ a Hvote Ha) as (_ & ? & _). }
  rewrite wrap64_small in Hmax by lia.
  exists (Combined.Points_total c), maxJ, maxT.
  cbn [Pts.Year Pts.highest Pts.Points_total]. rewrite Hmax.
  cbn [fdiv_highest].
  split; [exact Hle|]. repeat split; try done; try lia.
  intros Hh.
  destruct (fdivZ_unit (Combined.Points_total c) (maxJ + maxT))
    as (q & -> & Hq0 & Hq1); [lia | lia |].
  unfold in_unit_interval. apply andb_true_intro. by rewrite !fge_Fin.
Qed.

Lemma points_total_pct_in_unit_interval_witness :
  exists total maxJ maxT,
    (forall a, a ∈ combined_csv (clean_csv final_2000) ->
               Combined.Year a = 2000 ->
               Combined.Points_Jury a <= maxJ
               /\ Combined.Points_Televote a <= maxT)
    /\ (exists a, a ∈ combined_csv (clean_csv final_2000)
                  /\ Combined.Year a = 2000 /\ Combined.Points_Jury a = maxJ)
    /\ (exists a, a ∈ combined_csv (clean_csv final_2000)
                  /\ Combined.Year a = 2000
                  /\ Combined.Points_Televote a = maxT)
    /\ MAX_POSSIBLE_POINTS_RECEIVED (tables_of final_2000) !! 2000
       = Some (maxJ + maxT)
    /\ Some 12 = Some (maxJ + maxT)
    /\ Fin (5 # 6) = fdivZ total (maxJ + maxT)
    /\ 0 <= total <= maxJ + maxT
    /\ (0 < maxJ + maxT -> in_unit_interval (Fin (5 # 6)) = true).
Proof.
  apply (points_total_pct_in_unit_interval final_2000
           (Pts.mk 2000 "B" "A" (Fin (5 # 6)) (Fin 0) (Fin (5 # 6)) (Some 12))).
  - intros v Hv. apply list_elem_of_In in Hv. vm_compute in Hv.
    repeat (destruct Hv as [<- | Hv]; [cbn [Raw.Points]; lia|]).
    destruct Hv.
  - by_computation.
Defined.

(** C9, as stated, fails: in a year where no points were given at all, the
    maximum receivable is 0 and the normalised total is not a number. *)
Lemma points_total_pct_not_a_number :
  (forall v, v ∈ final_zero -> 0 <= Raw.Points v < 2 ^ 62)
  /\ exists r,
      r ∈ points_of final_zero
      /\ Pts.Points_total r = NaN
      /\ in_unit_interval (Pts.Points_total r) = false.
Proof.
  split.
  - intros v Hv. apply list_elem_of_In in Hv. vm_compute in Hv.
    repeat (destruct Hv as [<- | Hv]; [cbn [Raw.Points]; lia|]).
    destruct Hv.
  - exists (Pts.mk 1990 "A" "B" NaN NaN NaN (Some 0)).
    split; [by_computation | by split].
Qed.

(** ** Drawing ranks *)

Lemma imap_Forall2 {A B : Type} (P : B -> A -> Prop) (Q : A -> Prop)
  (f : nat -> A -> B) (l : list A) :
  (forall j a, Q a -> P (f j a) a) -> Forall Q l -> Forall2 P (imap f l) l.
Proof.
  revert f. induction l as [|a l IH]; intros f Hf Hl; [constructor|].
  apply Forall_cons in Hl as [Ha Hl]. cbn [imap]. constructor; [by apply Hf|].
  apply IH; [|done]. intros j b. apply Hf.
Qed.

Lemma Forall_zip_with_both {A B C : Type} (P : A -> Prop) (Q : B -> Prop)
  (R : C -> Prop) (f : A -> B -> C) (l : list A) (k : list B) :
  (forall a b, P a -> Q b -> R (f a b)) ->
  Forall P l -> Forall Q k -> Forall R (zip_with f l k).
Proof.
  intros Hf Hl. revert k. induction Hl as [|a l Ha _ IH]; intros k Hk; [done|].
  destruct Hk as [|b k Hb Hk]; [done|]. cbn [zip_with].
  constructor; [by apply Hf | by apply IH].
Qed.

Lemma draw_row_bounds (g : Generator) (offset : nat) (low : Z)
  (high : list Z) :
  Forall (fun h => low < h) high ->
  Forall2 (fun r h => low <= r < h) (draw_row g offset low high) high.
Proof.
  intros Hhigh. unfold draw_row.
  apply (imap_Forall2 _ (fun h => low < h)); [|done].
  intros j h Hh. cbv beta.
  pose proof (Z.mod_pos_bound (stream g (cursor g + offset + j)) (h - low)).
  lia.
Qed.

Lemma rng_integers_cases (low : Z) (high : list Z) (rows : nat)
  (g : Generator) :
  (rows <> 0%nat /\ Exists (fun h => h <= low) high
   /\ rng_integers low high rows g = Raised ValueError)
  \/ ((rows = 0%nat \/ Forall (fun h => low < h) high)
      /\ rng_integers low high rows g
         = Ok (drawn_ranks g low high rows, advance (rows * length high) g)).
Proof.
  unfold rng_integers. case_bool_decide as Hex; [left; tauto | right].
  split; [|done]. destruct (decide (rows = 0%nat)) as [Hrows | Hrows];
    [by left | right].
  assert (Hnone : ~ Exists (fun h => h <= low) high) by tauto.
  apply not_Exists_Forall in Hnone; [|intros h; apply _].
  eapply Forall_impl; [exact Hnone|]. intros h Hh. unfold compose in Hh. lia.
Qed.

(** The ranks of a frame are within their bounds: there is none in a frame
    without rows. *)
Lemma drawn_ranks_bounds (g : Generator) (low : Z) (high : list Z)
  (rows : nat) :
  rows = 0%nat \/ Forall (fun h => low < h) high ->
  Forall (fun row => Forall2 (fun r h => low <= r < h) row high)
    (drawn_ranks g low high rows).
Proof.
  intros [-> | Hhigh]; [constructor|].
  unfold drawn_ranks. apply Forall_fmap, Forall_forall.
  intros i _. by apply draw_row_bounds.
Qed.

Lemma length_drawn_ranks (g : Generator) (low : Z) (high : list Z)
  (rows : nat) :
  length (drawn_ranks g low high rows) = rows.
Proof. unfold drawn_ranks. by rewrite length_map, length_seq. Qed.

(** ** The assertion on the ranks *)

Lemma frame_max_below (high : list Z) (data : list (list Z)) :
  Forall (fun row => Forall2 (fun r h => r < h) row high) data ->
  Forall2 below_count (frame_max (length high) data) high.
Proof.
  unfold frame_max.
  assert (Hinit : Forall2 below_count (replicate (length high) None) high).
  { induction high; constructor; done. }
  revert Hinit. generalize (replicate (length high) (@None Z)).
  induction data as [|row data IH]; intros acc Hacc Hdata; [done|].
  apply Forall_cons in Hdata as [Hrow Hdata]. cbn [foldl].
  apply IH; [|done]. clear IH Hdata data.
  revert acc Hacc. induction Hrow as [|r h row high Hr Hrow IH];
    intros acc Hacc; inversion Hacc as [|o ? acc' ? Ho Hacc']; subst;
    [constructor|].
  cbn [zip_with]. constructor; [|by apply IH].
  destruct o; cbn in *; lia.
Qed.

Lemma margin_sum_nonneg (high : list Z) (maxima : list (option Z)) :
  Forall2 below_count maxima high -> 0 <= margin_sum high maxima.
Proof.
  unfold margin_sum. induction 1 as [|o h maxima high Ho _ IH]; [done|].
  cbn [zip_with foldr]. destruct o; cbn in Ho; lia.
Qed.

Lemma ranks_assertion (g : Generator) (high : list Z) (rows : nat) :
  rows = 0%nat \/ Forall (fun h => 1 < h) high ->
  py_assert
    (0 <=? margin_sum high (frame_max (length high) (drawn_ranks g 1 high rows)))
  = Ok tt.
Proof.
  intros Hhigh. unfold py_assert.
  rewrite (proj2 (Z.leb_le _ _)); [done|].
  apply margin_sum_nonneg, frame_max_below.
  eapply Forall_impl; [by apply drawn_ranks_bounds|].
  intros row Hrow. eapply Forall2_impl; [exact Hrow|]. cbv beta. lia.
Qed.

(** The two simulations either stop on numpy's "low >= high" or return the
    points of the ranks they drew; their assertion never fails. *)
Lemma simulate_jury_votes_cases (countries : list (Z * Z)) (n : nat)
  (g : Generator) :
  (n <> 0%nat /\ Exists (fun h => h <= 1) countries.*2
   /\ simulate_jury_votes countries n g = Raised ValueError)
  \/ ((n = 0%nat \/ Forall (fun h => 1 < h) countries.*2)
      /\ simulate_jury_votes countries n g
         = Ok (map (map rank_to_points) (drawn_ranks g 1 countries.*2 n),
               advance (n * length countries.*2) g)).
Proof.
  unfold simulate_jury_votes.
  destruct (rng_integers_cases 1 countries.*2 n g)
    as [(Hn & Hex & ->) | [Hall ->]]; [by left | right].
  split; [done|]. cbn [bind]. by rewrite ranks_assertion.
Qed.

Lemma simulate_televotes_cases (countries : list (Z * Z))
  (no_televote : list (Z * bool)) (n : nat) (g : Generator) :
  (n <> 0%nat /\ Exists (fun h => h <= 1) countries.*2
   /\ simulate_televotes countries no_televote n g = Raised ValueError)
  \/ ((n = 0%nat \/ Forall (fun h => 1 < h) countries.*2)
      /\ simulate_televotes countries no_televote n g
         = Ok (map (map rank_to_points)
                 (map (set_columns countries.*1 no_televote.*1)
                    (drawn_ranks g 1 countries.*2 n)),
               advance (n * length countries.*2) g)).
Proof.
  unfold simulate_televotes.
  destruct (rng_integers_cases 1 countries.*2 n g)
    as [(Hn & Hex & ->) | [Hall ->]]; [by left | right].
  split; [done|]. cbn [bind]. by rewrite ranks_assertion.
Qed.

(** ** The points of the drawn ranks *)

Lemma set_columns_ranks (labels index row : list Z) :
  Forall (fun rank => 1 <= rank) row ->
  Forall (fun rank => 1 <= rank) (set_columns labels index row).
Proof.
  intros Hrow. unfold set_columns. apply Forall_app. split.
  - apply (Forall_zip_with_both (fun _ => True) (fun rank => 1 <= rank));
      [|by apply Forall_true|done].
    intros label rank _ Hrank. case_bool_decide; lia.
  - apply Forall_replicate. lia.
Qed.

Lemma drawn_ranks_positive (g : Generator) (high : list Z) (rows : nat) :
  rows = 0%nat \/ Forall (fun h => 1 < h) high ->
  Forall (Forall (fun rank => 1 <= rank)) (drawn_ranks g 1 high rows).
Proof.
  intros Hhigh. eapply Forall_impl; [by apply drawn_ranks_bounds|].
  intros row Hrow. eapply Forall2_Forall_l; [exact Hrow|].
  apply Forall_true. intros h rank. lia.
Qed.

Lemma ranks_to_points (ranks : list (list Z)) :
  Forall (Forall (fun rank => 1 <= rank)) ranks ->
  Forall2
    (Forall2 (fun p rank =>
                (rank <= 10 -> ladder !! Z.to_nat (rank - 1) = Some p)
                /\ (10 < rank -> p = 0)))
    (map (map rank_to_points) ranks) ranks.
Proof.
  intros Hranks. apply Forall2_fmap_l, Forall_Forall2_diag.
  eapply Forall_impl; [exact Hranks|]. intros row Hrow. cbn.
  apply Forall2_fmap_l, Forall_Forall2_diag.
  eapply Forall_impl; [exact Hrow|]. intros rank Hrank. cbn.
  by apply rank_to_points_cell.
Qed.

(** C2. Each of the two simulators returns, for every rank that
    [rng.integers] drew for it (and, in [simulate_televotes], for the 256 put
    in the columns without televote), the value of the ladder
    [12, 10, 8, 7, 6, 5, 4, 3, 2, 1] at the position of the rank when the
    rank is from 1 to 10, and 0 when it is above 10; the ranks are at least
    1, and the simulators return whenever every year has two participants
    at least. *)
Theorem rank_to_points_ladder (countries : list (Z * Z))
  (no_televote : list (Z * bool)) (n : nat) (rng : Generator) :
  let cells :=
    Forall2
      (Forall2 (fun p rank =>
                  (rank <= 10 -> ladder !! Z.to_nat (rank - 1) = Some p)
                  /\ (10 < rank -> p = 0))) in
  (forall points rng',
      simulate_jury_votes countries n rng = Ok (points, rng') ->
      exists ranks,
        rng_integers 1 countries.*2 n rng = Ok (ranks, rng')
        /\ Forall (Forall (fun rank => 1 <= rank)) ranks
        /\ cells points ranks)
  /\ (forall points rng',
         simulate_televotes countries no_televote n rng = Ok (points, rng') ->
         exists ranks,
           rng_integers 1 countries.*2 n rng = Ok (ranks, rng')
           /\ Forall (Forall (fun rank => 1 <= rank))
                (map (set_columns countries.*1 no_televote.*1) ranks)
           /\ cells points
                (map (set_columns countries.*1 no_televote.*1) ranks))
  /\ (Forall (fun count => 2 <= count) countries.*2 ->
      (exists points rng',
          simulate_jury_votes countries n rng = Ok (points, rng'))
      /\ (exists points rng',
             simulate_televotes countries no_televote n rng
             = Ok (points, rng'))).
Proof.
  intros cells. subst cells. split; [|split].
  - intros points rng'.
    destruct (simulate_jury_votes_cases countries n rng)
      as [(_ & _ & ->) | [Hhigh ->]]; [done|].
    intros [= <- <-]. exists (drawn_ranks rng 1 countries.*2 n).
    pose proof (drawn_ranks_positive rng _ _ Hhigh) as Hranks.
    split; [|split; [done | by apply ranks_to_points]].
    destruct (rng_integers_cases 1 countries.*2 n rng)
      as [(Hn & Hex & _) | [_ ->]]; [|done].
    destruct Hhigh as [-> | Hhigh]; [done|].
    apply Exists_exists in Hex as (h & Hin & Hh).
    rewrite Forall_forall in Hhigh. apply Hhigh in Hin. lia.
  - intros points rng'.
    destruct (simulate_televotes_cases countries no_televote n rng)
      as [(_ & _ & ->) | [Hhigh ->]]; [done|].
    intros [= <- <-]. exists (drawn_ranks rng 1 countries.*2 n).
    assert (Hranks : Forall (Forall (fun rank => 1 <= rank))
                       (map (set_columns countries.*1 no_televote.*1)
                          (drawn_ranks rng 1 countries.*2 n))).
    { apply Forall_fmap.
      eapply Forall_impl; [by apply drawn_ranks_positive|].
      intros row Hrow. by apply set_columns_ranks. }
    split; [|split; [done | by apply ranks_to_points]].
    destruct (rng_integers_cases 1 countries.*2 n rng)
      as [(Hn & Hex & _) | [_ ->]]; [|done].
    destruct Hhigh as [-> | Hhigh]; [done|].
    apply Exists_exists in Hex as (h & Hin & Hh).
    rewrite Forall_forall in Hhigh. apply Hhigh in Hin. lia.
  - intros Hcounts.
    assert (Hnone : ~ Exists (fun h => h <= 1) countries.*2).
    { intros (h & Hin & Hh)%Exists_exists.
      rewrite Forall_forall in Hcounts. apply Hcounts in Hin. lia. }
    split.
    + destruct (simulate_jury_votes_cases countries n rng)
        as [(_ & Hex & _) | [_ ->]]; [done | by eexists _, _].
    + destruct (simulate_televotes_cases countries no_televote n rng)
        as [(_ & Hex & _) | [_ ->]]; [done | by eexists _, _].
Qed.

Lemma rank_to_points_ladder_witness :
  exists ranks,
    rng_integers 1 [4; 12] 2 constant_rng = Ok (ranks, advance 4 constant_rng)
    /\ Forall (Forall (fun rank => 1 <= rank)) ranks
    /\ Forall2
         (Forall2 (fun p rank =>
                     (rank <= 10 -> ladder !! Z.to_nat (rank - 1) = Some p)
                     /\ (10 < rank -> p = 0)))
         [[10; 0]; [10; 0]] ranks.
Proof.
  apply (proj1 (rank_to_points_ladder [(2000, 4); (2001, 12)] [] 2
                  constant_rng)).
  by_computation.
Defined.

(** ** Finite values that are not negative *)

Lemma fadd_nonneg (a b : fval) :
  nonneg_fin a -> nonneg_fin b -> nonneg_fin (fadd a b).
Proof.
  intros (p & -> & Hp) (q & -> & Hq). eexists. split; [reflexivity|].
  rewrite Qred_correct. lra.
Qed.

Lemma fsum_nonneg (l : list fval) : Forall nonneg_fin l -> nonneg_fin (fsum l).
Proof.
  induction 1 as [|x l Hx _ IH]; [by exists 0%Q | by apply fadd_nonneg].
Qed.

Lemma np_mean_nonneg (l : list fval) :
  l <> [] -> Forall nonneg_fin l -> nonneg_fin (np_mean l).
Proof.
  intros Hne Hl. unfold np_mean.
  destruct (fsum_nonneg l Hl) as (q & -> & Hq).
  destruct l as [|x l]; [done|]. cbn [length fdiv_count].
  eexists. split; [reflexivity|]. rewrite Qred_correct.
  apply Qle_shift_div_l; [unfold Qlt; simpl; lia | lra].
Qed.

Lemma fmin_nonneg (a b : fval) :
  nonneg_fin a -> nonneg_fin b -> nonneg_fin (fmin a b).
Proof.
  intros (p & -> & Hp) (q & -> & Hq). cbn [fmin].
  destruct (fge _ _); eexists; by split.
Qed.

Lemma np_min_nonneg (l : list fval) :
  l <> [] -> Forall nonneg_fin l ->
  exists m, np_min l = Ok m /\ nonneg_fin m.
Proof.
  intros Hne Hl. destruct l as [|x l]; [done|].
  apply Forall_cons in Hl as [Hx Hl]. eexists. split; [reflexivity|].
  clear Hne. revert x Hx. induction Hl as [|y l Hy _ IH]; intros x Hx; [done|].
  cbn [foldl]. apply IH. by apply fmin_nonneg.
Qed.

Lemma nonneg_fin_ge (x : fval) : nonneg_fin x -> fge x (Fin 0) = true.
Proof. intros (q & -> & Hq). by apply fge_Fin. Qed.

Lemma nonneg_fin_values (l : list fval) :
  Forall nonneg_fin l -> exists qs, l = Fin <$> qs.
Proof.
  induction 1 as [|x l (q & -> & _) _ (qs & ->)]; [by exists []|].
  by exists (q :: qs).
Qed.

(** ** Sorting *)

Lemma sort_insert_perm (x : fval) (l : list fval) : sort_insert x l ≡ₚ x :: l.
Proof.
  induction l as [|y l IH]; [done|]. cbn [sort_insert].
  destruct (sort_le x y); [done|]. by rewrite IH, Permutation_swap.
Qed.

Lemma np_sort_perm (l : list fval) : np_sort l ≡ₚ l.
Proof.
  induction l as [|x l IH]; [done|]. cbn [np_sort foldr].
  fold (np_sort l). by rewrite sort_insert_perm, IH.
Qed.

Lemma sort_le_total (x y : fval) : sort_le x y = false -> sort_le y x = true.
Proof.
  destruct x as [a| | |], y as [b| | |]; cbn [sort_le fge]; try done.
  rewrite <- (Qcompare_antisym b a). by destruct (b ?= a)%Q.
Qed.

Lemma sort_insert_sorted (x : fval) (l : list fval) :
  Sorted (fun a b => sort_le a b = true) l ->
  Sorted (fun a b => sort_le a b = true) (sort_insert x l).
Proof.
  induction 1 as [|y l Hl IH Hhd]; [by repeat constructor|].
  cbn [sort_insert]. destruct (sort_le x y) eqn:Hxy.
  - constructor; [by constructor | by constructor].
  - constructor; [exact IH|].
    destruct Hhd as [|z l Hyz]; cbn [sort_insert].
    + constructor. by apply sort_le_total.
    + destruct (sort_le x z); constructor; [by apply sort_le_total | done].
Qed.

Lemma np_sort_sorted (l : list fval) :
  Sorted (fun a b => sort_le a b = true) (np_sort l).
Proof.
  induction l as [|x l IH]; [constructor|]. by apply sort_insert_sorted.
Qed.

(** A sorted array is left as it is. *)
Lemma np_sort_of_sorted (l : list fval) :
  Sorted (fun a b => sort_le a b = true) l -> np_sort l = l.
Proof.
  induction 1 as [|x l Hl IH Hhd]; [done|]. cbn [np_sort foldr].
  fold (np_sort l). rewrite IH.
  destruct Hhd as [|y l Hxy]; [done|]. cbn [sort_insert]. by rewrite Hxy.
Qed.

Lemma np_sort_idempotent (l : list fval) : np_sort (np_sort l) = np_sort l.
Proof. apply np_sort_of_sorted, np_sort_sorted. Qed.

(** ** Selections in the tables *)

Lemma getitem_Ok {V : Type} (s : gmap Z V) (labels : list Z)
  (l : list (Z * V)) :
  getitem s labels = Ok l ->
  l.*1 = labels /\ Forall (fun p => s !! p.1 = Some p.2) l.
Proof.
  revert l. induction labels as [|y labels IH]; intros l; cbn [getitem].
  { by intros [= <-]. }
  destruct (s !! y) as [v|] eqn:Hv; [|done].
  destruct (getitem s labels) as [rest|]; [|done]. cbn [bind].
  intros [= <-]. destruct (IH rest eq_refl) as [<- Hrest].
  split; [done | by constructor].
Qed.

Lemma getitem_Raised {V : Type} (s : gmap Z V) (labels : list Z) (e : exn) :
  getitem s labels = Raised e -> e = KeyError.
Proof.
  induction labels as [|y labels IH]; cbn [getitem]; [done|].
  destruct (s !! y); [|by intros [= <-]].
  destruct (getitem s labels); [done|]. cbn [bind]. intros [= <-]. by apply IH.
Qed.

Lemma getitem_total {V : Type} (s : gmap Z V) (labels : list Z) :
  Forall (fun y => is_Some (s !! y)) labels ->
  exists l, getitem s labels = Ok l.
Proof.
  induction 1 as [|y labels [v Hv] _ [rest IH]]; [by exists []|].
  cbn [getitem]. rewrite Hv, IH. by eexists.
Qed.

(** ** The simulated distribution *)

Lemma points_row_jury (g : Generator) (high : list Z) (n : nat) :
  Forall (points_row (length high))
    (map (map rank_to_points) (drawn_ranks g 1 high n)).
Proof.
  unfold drawn_ranks. rewrite <- list_fmap_compose. apply Forall_fmap, Forall_forall.
  intros i _. split.
  - cbn. unfold draw_row. by rewrite length_map, length_imap.
  - apply Forall_fmap, Forall_forall. intros r _. apply rank_to_points_nonneg.
Qed.

(** The rows of the televote frame have a cell for each year of the time
    span at least, none negative. *)
Lemma points_row_televote (g : Generator) (labels index high : list Z)
  (n : nat) :
  length labels = length high ->
  Forall (fun row => (length high <= length row)%nat
                     /\ Forall (fun p => 0 <= p) row)
    (map (map rank_to_points)
       (map (set_columns labels index) (drawn_ranks g 1 high n))).
Proof.
  intros Hlabels. unfold drawn_ranks. rewrite <- !list_fmap_compose.
  apply Forall_fmap, Forall_forall. intros i _. split.
  - cbn. unfold set_columns, draw_row.
    rewrite length_map, length_app, length_zip_with, length_imap. lia.
  - apply Forall_fmap, Forall_forall. intros r _. apply rank_to_points_nonneg.
Qed.

Lemma points_row_sum (width : nat) (a b : list Z) :
  points_row width a ->
  (width <= length b)%nat /\ Forall (fun p => 0 <= p) b ->
  points_row width (zip_with Z.add a b).
Proof.
  intros [Hla Ha] [Hlb Hb]. split.
  - rewrite length_zip_with. lia.
  - apply (Forall_zip_with_both (fun p => 0 <= p) (fun p => 0 <= p));
      [lia | done | done].
Qed.

Lemma percentage_row_mean (maxima row : list Z) :
  maxima <> [] -> Forall (fun h => 0 < h) maxima ->
  points_row (length maxima) row ->
  nonneg_fin (np_mean (zip_with fdivZ row maxima)).
Proof.
  intros Hne Hmax [Hlen Hrow]. apply np_mean_nonneg.
  - destruct row, maxima; done.
  - apply (Forall_zip_with_both (fun p => 0 <= p) (fun h => 0 < h));
      [|done|done].
    intros p h Hp Hh. destruct (fdivZ_nonneg p h Hp Hh) as (q & -> & Hq).
    by exists q.
Qed.

Lemma batch_nonneg (maxima : list Z) (jury televote : list (list Z)) :
  maxima <> [] -> Forall (fun h => 0 < h) maxima ->
  Forall (points_row (length maxima)) jury ->
  Forall (fun row => (length maxima <= length row)%nat
                     /\ Forall (fun p => 0 <= p) row) televote ->
  Forall nonneg_fin
    (map np_mean
       (map (fun row => zip_with fdivZ row maxima)
          (zip_with (zip_with Z.add) jury televote))).
Proof.
  intros Hne Hmax Hjury Htelevote. rewrite <- list_fmap_compose.
  apply Forall_fmap.
  apply (Forall_zip_with_both (points_row (length maxima))
           (fun row => (length maxima <= length row)%nat
                       /\ Forall (fun p => 0 <= p) row)); [|done|done].
  intros a b Ha Hb. cbn. apply percentage_row_mean; [done | done |].
  by apply points_row_sum.
Qed.

(** What [simulation_avgs] returns when it returns. *)
Lemma simulation_avgs_Ok (tables : Globals) (timespan : list Z)
  (countries : list (Z * Z)) (no_televote : list (Z * bool)) (n : nat)
  (g : Generator) (batch : list fval) (g' : Generator) :
  simulation_avgs tables timespan countries no_televote n g = Ok (batch, g') ->
  let width := length countries.*2 in
  let jury := map (map rank_to_points) (drawn_ranks g 1 countries.*2 n) in
  let televote :=
    map (map rank_to_points)
      (map (set_columns countries.*1 no_televote.*1)
         (drawn_ranks (advance (n * width) g) 1 countries.*2 n)) in
  (n = 0%nat \/ Forall (fun h => 1 < h) countries.*2)
  /\ g' = advance (n * width) (advance (n * width) g)
  /\ exists max_points,
      getitem (MAX_POSSIBLE_POINTS_RECEIVED tables) timespan = Ok max_points
      /\ batch = map np_mean
                   (map (fun row => zip_with fdivZ row max_points.*2)
                      (zip_with (zip_with Z.add) jury televote)).
Proof.
  unfold simulation_avgs.
  destruct (simulate_jury_votes_cases countries n g)
    as [(_ & _ & ->) | [Hhigh ->]];
    [done|]. cbn [bind].
  destruct (simulate_televotes_cases countries no_televote n
              (advance (n * length countries.*2) g))
    as [(_ & _ & ->) | [_ ->]]; [done|]. cbn [bind].
  destruct (getitem _ timespan) as [max_points|]; [|done]. cbn [bind].
  intros [= <- <-]. split; [done|]. split; [done|]. by exists max_points.
Qed.

Lemma simulation_avgs_Raised (tables : Globals) (timespan : list Z)
  (countries : list (Z * Z)) (no_televote : list (Z * bool)) (n : nat)
  (g : Generator) (e : exn) :
  simulation_avgs tables timespan countries no_televote n g = Raised e ->
  e = ValueError \/ e = KeyError.
Proof.
  unfold simulation_avgs.
  destruct (simulate_jury_votes_cases countries n g)
    as [(_ & _ & ->) | [Hhigh ->]].
  { intros [= <-]. by left. }
  cbn [bind].
  destruct (simulate_televotes_cases countries no_televote n
              (advance (n * length countries.*2) g))
    as [(_ & _ & ->) | [_ ->]].
  { intros [= <-]. by left. }
  cbn [bind].
  destruct (getitem _ timespan) as [max_points|] eqn:Hmax; [done|].
  cbn [bind]. intros [= <-]. right. by apply getitem_Raised in Hmax.
Qed.

Lemma simulation_avgs_total (tables : Globals) (timespan : list Z)
  (countries : list (Z * Z)) (no_televote : list (Z * bool)) (n : nat)
  (g : Generator) :
  Forall (fun h => 1 < h) countries.*2 ->
  Forall (fun y => is_Some (MAX_POSSIBLE_POINTS_RECEIVED tables !! y))
    timespan ->
  exists batch g',
    simulation_avgs tables timespan countries no_televote n g
    = Ok (batch, g').
Proof.
  intros Hhigh Hmax. unfold simulation_avgs.
  destruct (simulate_jury_votes_cases countries n g)
    as [(_ & Hex & _) | [_ ->]].
  { apply Exists_exists in Hex as (h & Hin & Hh).
    rewrite Forall_forall in Hhigh. apply Hhigh in Hin. lia. }
  cbn [bind].
  destruct (simulate_televotes_cases countries no_televote n
              (advance (n * length countries.*2) g))
    as [(_ & Hex & _) | [_ ->]].
  { apply Exists_exists in Hex as (h & Hin & Hh).
    rewrite Forall_forall in Hhigh. apply Hhigh in Hin. lia. }
  cbn [bind]. destruct (getitem_total _ _ Hmax) as [max_points ->].
  cbn [bind]. by eexists _, _.
Qed.

(** The batch of a time span whose years all have a positive maximum. *)
Lemma simulation_avgs_nonneg (tables : Globals) (timespan : list Z)
  (countries : list (Z * Z)) (no_televote : list (Z * bool)) (n : nat)
  (g : Generator) (batch : list fval) (g' : Generator) :
  timespan <> [] -> countries.*1 = timespan ->
  Forall (fun y => forall h,
            MAX_POSSIBLE_POINTS_RECEIVED tables !! y = Some h -> 0 < h)
    timespan ->
  simulation_avgs tables timespan countries no_televote n g = Ok (batch, g') ->
  Forall nonneg_fin batch /\ length batch = n.
Proof.
  intros Hne Hlabels Hpos Hrun.
  apply simulation_avgs_Ok in Hrun as (Hhigh & _ & max_points & Hmax & ->).
  apply getitem_Ok in Hmax as [Hyears Hlookup].
  assert (Hwidth : length max_points.*2 = length countries.*2).
  { rewrite !length_fmap. rewrite <- (length_fmap fst max_points), Hyears.
    by rewrite <- Hlabels, length_fmap. }
  split.
  - apply batch_nonneg.
    + intros Hnil. apply (f_equal length) in Hnil. rewrite length_fmap in Hnil.
      rewrite <- (length_fmap fst max_points), Hyears in Hnil.
      by destruct timespan.
    + apply Forall_fmap. rewrite Forall_forall. intros [y h] Hin. cbn.
      rewrite Forall_forall in Hlookup. specialize (Hlookup _ Hin).
      rewrite Forall_forall in Hpos. apply (Hpos y); [|done].
      rewrite <- Hyears. apply list_elem_of_fmap. by exists (y, h).
    + rewrite Hwidth. apply points_row_jury.
    + rewrite Hwidth. apply points_row_televote. by rewrite !length_fmap.
  - rewrite !length_map, length_zip_with, !length_map, !length_drawn_ranks. lia.
Qed.

(** ** The percentile of a finite sorted batch *)

Lemma fgt_feq (a t t' : fval) : feq t t' -> fgt a t = fgt a t'.
Proof.
  destruct t as [p| | |], t' as [q| | |]; cbn [feq]; try done.
  intros Hpq. destruct a as [r| | |]; cbn [fgt]; try done.
  by rewrite Hpq.
Qed.

Lemma lerp_Fin (a b t : Q) :
  exists r, lerp (Fin a) (Fin b) t = Fin r /\ (r == a + t * (b - a))%Q.
Proof.
  unfold lerp, fsub. cbn [fneg fadd fmul].
  destruct (Qle_bool (1 # 2) t); eexists; (split; [reflexivity|]);
    rewrite !Qred_correct; ring.
Qed.

Lemma virtual_index_bounds (q : Q) (m : Z) :
  (0 <= q)%Q -> (q <= 100)%Q -> 0 <= m ->
  0 <= Qfloor (q / 100 * inject_Z m) <= m.
Proof.
  intros Hq0 Hq1 Hm.
  assert (HM : (0 <= inject_Z m)%Q) by (unfold Qle; simpl; lia).
  assert (Hc0 : (0 <= q / 100)%Q) by (apply Qle_shift_div_l; [done | lra]).
  assert (Hc1 : (q / 100 <= 1)%Q) by (apply Qle_shift_div_r; [done | lra]).
  split.
  - rewrite <- (Qfloor_Z 0). apply Qfloor_resp_le.
    by apply Qmult_le_0_compat.
  - rewrite <- (Qfloor_Z m) at 2. apply Qfloor_resp_le.
    rewrite <- (Qmult_1_l (inject_Z m)) at 2.
    by apply Qmult_le_compat_r.
Qed.

Lemma nth_fval_Fin (qs : list Q) (i : Z) :
  0 <= i < Z.of_nat (length qs) ->
  nth_fval (Fin <$> qs) i = Fin (order_statistic qs i).
Proof.
  intros Hi. unfold nth_fval, order_statistic. rewrite list_lookup_fmap.
  destruct (lookup_lt_is_Some_2 qs (Z.to_nat i)) as [x ->]; [lia | done].
Qed.

Lemma existsb_is_nan_Fin (qs : list Q) : existsb is_nan (Fin <$> qs) = false.
Proof. induction qs; [done | by cbn]. Qed.

Lemma np_percentile_Raised (a : list fval) (q : Q) (e : exn) :
  np_percentile a q = Raised e -> e = ValueError.
Proof.
  unfold np_percentile. destruct (negb _); [by intros [= <-]|].
  by destruct (_ || _).
Qed.

(** On a finite sorted batch numpy's percentile is the linear interpolation
    between order statistics. *)
Lemma np_percentile_linear (qs : list Q) (q : Q) :
  qs <> [] -> (0 <= q)%Q -> (q <= 100)%Q ->
  np_sort (Fin <$> qs) = Fin <$> qs ->
  exists threshold,
    np_percentile (Fin <$> qs) q = Ok threshold
    /\ feq threshold (Fin (percentile_linear qs q)).
Proof.
  intros Hne Hq0 Hq1 Hsorted. unfold np_percentile, percentile_linear.
  rewrite (proj2 (Qle_bool_iff 0 q) Hq0), (proj2 (Qle_bool_iff q 100) Hq1).
  cbn [andb negb]. rewrite Hsorted, existsb_is_nan_Fin, length_fmap.
  set (n := Z.of_nat (length qs)).
  assert (Hn : 0 < n) by (subst n; destruct qs; [done | cbn [length]; lia]).
  destruct (Z.eqb_spec n 0); [lia|]. cbn [orb].
  set (h := (q / 100 * inject_Z (n - 1))%Q).
  pose proof (virtual_index_bounds q (n - 1) Hq0 Hq1 ltac:(lia)) as Hk.
  fold h in Hk. set (k := Qfloor h) in *.
  rewrite (nth_fval_Fin qs k) by (subst n; lia).
  destruct (Z.ltb_spec (k + 1) n) as [Hlt | Hge].
  - rewrite Z.min_l by lia. rewrite (nth_fval_Fin qs (k + 1)) by (subst n; lia).
    destruct (lerp_Fin (order_statistic qs k) (order_statistic qs (k + 1))
                (h - inject_Z k)) as (r & -> & Hr).
    eexists. split; [reflexivity|]. cbn [feq]. by rewrite Hr.
  - rewrite Z.min_r by lia. replace (n - 1) with k by lia.
    rewrite (nth_fval_Fin qs k) by (subst n; lia).
    destruct (lerp_Fin (order_statistic qs k) (order_statistic qs k)
                (h - inject_Z k)) as (r & -> & Hr).
    eexists. split; [reflexivity|]. cbn [feq]. rewrite Hr. ring.
Qed.

(** ** The favouritism test *)

Lemma verdict_report (detailed has_favouritism : bool) (a t : fval) :
  verdict_of (report detailed has_favouritism a t) = SIGNIFICANT
  <-> has_favouritism = true.
Proof. destruct detailed, has_favouritism; cbn; split; done. Qed.

Section favouritism_facts.
Variable tables : Globals.
Variable csv : list Pts.row.
Variables country_x country_y : string.
Variables start_year end_year : Z.
Variable num_simulations : nat.
Variable confidence_threshold : Q.
Variable return_detailed_data : bool.

Let by_year := select_by_year csv country_x country_y start_year end_year.
Let timespan := map Pts.Year by_year.
Let actual_average := pd_mean (map Pts.Points_total by_year).
Let test :=
  favouritism tables csv country_x country_y start_year end_year
    num_simulations confidence_threshold return_detailed_data.

(** The steps behind a result of a test that reached the simulation. *)
Lemma favouritism_Ok_inv (rng rng' : Generator) (result : pyval) :
  country_x <> country_y -> by_year <> [] ->
  test rng = Ok (result, rng') ->
  exists countries has_televote batch lowest threshold,
    getitem (PARTICIPANTS_BY_YEAR tables) timespan = Ok countries
    /\ getitem (HAS_TELEVOTE_BY_YEAR tables) timespan = Ok has_televote
    /\ simulation_avgs tables timespan countries
         (filter (fun p => p.2 = false) has_televote) num_simulations rng
       = Ok (batch, rng')
    /\ np_min (np_sort batch) = Ok lowest
    /\ fge lowest (Fin 0) = true
    /\ np_percentile (np_sort batch) confidence_threshold = Ok threshold
    /\ result = report return_detailed_data (fgt actual_average threshold)
                  actual_average threshold.
Proof.
  intros Hne Hrows. subst test. unfold favouritism.
  rewrite bool_decide_eq_false_2 by done.
  fold by_year. destruct (length by_year =? 0)%nat eqn:Hlen.
  { apply select_by_year_empty_length in Hlen. done. }
  fold timespan actual_average.
  destruct (getitem (PARTICIPANTS_BY_YEAR tables) timespan)
    as [countries|] eqn:Hcountries; [|done]. cbn [bind].
  destruct (getitem (HAS_TELEVOTE_BY_YEAR tables) timespan)
    as [has_televote|] eqn:Htelevote; [|done]. cbn [bind].
  destruct (simulation_avgs _ _ _ _ _ _) as [[batch rng1]|] eqn:Hsim; [|done].
  cbn [bind].
  destruct (np_min (np_sort batch)) as [lowest|] eqn:Hmin; [|done].
  cbn [bind].
  destruct (fge lowest (Fin 0)) eqn:Hlowest; [|done]. cbn [py_assert bind].
  destruct (np_percentile _ _) as [threshold|] eqn:Hpercentile; [|done].
  cbn [bind]. intros [= <- <-].
  by exists countries, has_televote, batch, lowest, threshold.
Qed.

(** A test over years with a positive maximum stops, if it stops, on a
    missing year or on a value that numpy refuses. *)
Lemma favouritism_Raised (rng : Generator) (e : exn) :
  Forall (fun y => forall h,
            MAX_POSSIBLE_POINTS_RECEIVED tables !! y = Some h -> 0 < h)
    timespan ->
  test rng = Raised e -> e = KeyError \/ e = ValueError.
Proof.
  intros Hpos. subst test. unfold favouritism.
  destruct (bool_decide (country_x = country_y)); [done|].
  fold by_year. destruct (length by_year =? 0)%nat eqn:Hlen; [done|].
  fold timespan actual_average.
  assert (Hspan : timespan <> []).
  { subst timespan. destruct by_year; done. }
  destruct (getitem (PARTICIPANTS_BY_YEAR tables) timespan)
    as [countries|] eqn:Hcountries.
  2:{ cbn [bind]. intros [= <-]. left. by apply getitem_Raised in Hcountries. }
  cbn [bind].
  destruct (getitem (HAS_TELEVOTE_BY_YEAR tables) timespan)
    as [has_televote|] eqn:Htelevote.
  2:{ cbn [bind]. intros [= <-]. left. by apply getitem_Raised in Htelevote. }
  cbn [bind].
  destruct (simulation_avgs _ _ _ _ _ _) as [[batch rng1]|] eqn:Hsim.
  2:{ cbn [bind]. intros [= <-].
      apply simulation_avgs_Raised in Hsim. tauto. }
  cbn [bind]. apply getitem_Ok in Hcountries as [Hlabels _].
  destruct (simulation_avgs_nonneg _ _ _ _ _ _ _ _ Hspan Hlabels Hpos Hsim)
    as [Hbatch _].
  assert (Hsorted : Forall nonneg_fin (np_sort batch)).
  { by rewrite np_sort_perm. }
  destruct (np_sort batch) as [|x sorted] eqn:Hsort.
  { cbn [np_min bind]. intros [= <-]. by right. }
  destruct (np_min_nonneg (x :: sorted)) as (lowest & -> & Hlowest);
    [done | done |].
  cbn [bind]. rewrite (nonneg_fin_ge _ Hlowest). cbn [py_assert bind].
  destruct (np_percentile _ _) eqn:Hpercentile; [done|].
  cbn [bind]. intros [= <-]. right. by apply np_percentile_Raised in Hpercentile.
Qed.

(** A test that can run does return. *)
Lemma favouritism_total (rng : Generator) :
  country_x <> country_y -> by_year <> [] ->
  runnable tables timespan num_simulations confidence_threshold = true ->
  exists result rng' batch qs,
    test rng = Ok (result, rng')
    /\ (exists countries has_televote,
          getitem (PARTICIPANTS_BY_YEAR tables) timespan = Ok countries
          /\ getitem (HAS_TELEVOTE_BY_YEAR tables) timespan = Ok has_televote
          /\ simulation_avgs tables timespan countries
               (filter (fun p => p.2 = false) has_televote) num_simulations rng
             = Ok (batch, rng'))
    /\ np_sort batch = Fin <$> qs
    /\ exists threshold,
        feq threshold (Fin (percentile_linear qs confidence_threshold))
        /\ result = report return_detailed_data
                      (fgt actual_average threshold) actual_average threshold.
Proof.
  intros Hne Hrows Hrun. unfold runnable in Hrun.
  apply andb_prop in Hrun as [Hrun Hq1]. apply andb_prop in Hrun as [Hrun Hq0].
  apply andb_prop in Hrun as [Hyears Hsims].
  apply Qle_bool_iff in Hq0, Hq1. apply Nat.ltb_lt in Hsims.
  rewrite forallb_forall in Hyears.
  assert (Hok : forall y, y ∈ timespan ->
            exists n b h,
              PARTICIPANTS_BY_YEAR tables !! y = Some n
              /\ HAS_TELEVOTE_BY_YEAR tables !! y = Some b
              /\ MAX_POSSIBLE_POINTS_RECEIVED tables !! y = Some h
              /\ 2 <= n /\ 0 < h).
  { intros y Hy. apply list_elem_of_In, Hyears in Hy. unfold year_ok in Hy.
    destruct (PARTICIPANTS_BY_YEAR tables !! y) as [n|]; [|done].
    destruct (HAS_TELEVOTE_BY_YEAR tables !! y) as [b|]; [|done].
    destruct (MAX_POSSIBLE_POINTS_RECEIVED tables !! y) as [h|]; [|done].
    apply andb_prop in Hy as [Hn Hh]. exists n, b, h.
    repeat split; try done; lia. }
  assert (Hspan : timespan <> []).
  { subst timespan. destruct by_year; done. }
  destruct (getitem_total (PARTICIPANTS_BY_YEAR tables) timespan)
    as [countries Hcountries].
  { apply Forall_forall. intros y (n & b & h & -> & _)%Hok. by eexists. }
  destruct (getitem_total (HAS_TELEVOTE_BY_YEAR tables) timespan)
    as [has_televote Htelevote].
  { apply Forall_forall. intros y (n & b & h & _ & -> & _)%Hok. by eexists. }
  pose proof (getitem_Ok _ _ _ Hcountries) as [Hlabels Hlookup].
  assert (Hhigh : Forall (fun h => 1 < h) countries.*2).
  { apply Forall_fmap, Forall_forall. intros [y n] Hin. cbn.
    rewrite Forall_forall in Hlookup. specialize (Hlookup _ Hin). cbn in Hlookup.
    destruct (Hok y) as (n' & b & h & Hn & _ & _ & Hle & _).
    { rewrite <- Hlabels. apply list_elem_of_fmap. by exists (y, n). }
    assert (n = n') by congruence. lia. }
  destruct (simulation_avgs_total tables timespan countries
              (filter (fun p => p.2 = false) has_televote) num_simulations rng
              Hhigh) as (batch & rng' & Hsim).
  { apply Forall_forall. intros y (n & b & h & _ & _ & -> & _)%Hok.
    by eexists. }
  assert (Hpos : Forall (fun y => forall h,
                      MAX_POSSIBLE_POINTS_RECEIVED tables !! y = Some h ->
                      0 < h) timespan).
  { apply Forall_forall. intros y (n & b & h & _ & _ & Hh & _ & Hpos)%Hok h'.
    rewrite Hh. by intros [= <-]. }
  destruct (simulation_avgs_nonneg _ _ _ _ _ _ _ _ Hspan Hlabels Hpos Hsim)
    as [Hbatch Hlength].
  assert (Hsorted : Forall nonneg_fin (np_sort batch)).
  { by rewrite np_sort_perm. }
  destruct (nonneg_fin_values _ Hsorted) as [qs Hqs].
  assert (Hqs_ne : qs <> []).
  { intros ->. apply (f_equal length) in Hqs.
    rewrite (Permutation_length (np_sort_perm batch)) in Hqs. cbn in Hqs. lia. }
  destruct (np_min_nonneg (np_sort batch)) as (lowest & Hmin & Hlowest);
    [rewrite Hqs; by destruct qs | done |].
  destruct (np_percentile_linear qs confidence_threshold Hqs_ne Hq0 Hq1)
    as (threshold & Hpercentile & Hthreshold).
  { by rewrite <- Hqs, np_sort_idempotent. }
  exists (report return_detailed_data (fgt actual_average threshold)
            actual_average threshold), rng', batch, qs.
  split; [|split; [by exists countries, has_televote | split; [done|]]].
  - subst test. unfold favouritism. rewrite bool_decide_eq_false_2 by done.
    fold by_year. destruct (length by_year =? 0)%nat eqn:Hlen.
    { apply select_by_year_empty_length in Hlen. done. }
    fold timespan actual_average. rewrite Hcountries. cbn [bind].
    rewrite Htelevote. cbn [bind]. rewrite Hsim. cbn [bind].
    rewrite Hmin. cbn [bind]. rewrite (nonneg_fin_ge _ Hlowest).
    cbn [py_assert bind]. rewrite Hqs, Hpercentile. done.
  - by exists threshold.
Qed.
End favouritism_facts.

Lemma simulated_batch_Ok (tables : Globals) (timespan : list Z) (n : nat)
  (g g' : Generator) (batch : list fval) :
  (exists countries has_televote,
      getitem (PARTICIPANTS_BY_YEAR tables) timespan = Ok countries
      /\ getitem (HAS_TELEVOTE_BY_YEAR tables) timespan = Ok has_televote
      /\ simulation_avgs tables timespan countries
           (filter (fun p => p.2 = false) has_televote) n g
         = Ok (batch, g'))
  <-> simulated_batch tables timespan n g = Ok (batch, g').
Proof.
  unfold simulated_batch. split.
  - intros (countries & has_televote & Hcountries & Htelevote & Hsim).
    rewrite Hcountries. cbn [bind]. rewrite Htelevote. cbn [bind]. exact Hsim.
  - destruct (getitem (PARTICIPANTS_BY_YEAR tables) timespan)
      as [countries|]; [|done].
    destruct (getitem (HAS_TELEVOTE_BY_YEAR tables) timespan)
      as [has_televote|]; [|done].
    cbn [bind]. intros Hsim. by exists countries, has_televote.
Qed.

(** The decision of a test, in the exact arithmetic of this embedding.  A
    test of two different countries with rows in the range that returns a
    result returns a significant one if and only if the observed mean is
    strictly above numpy's percentile of the sorted batch of simulated
    averages; and when the tables allow the simulation to run, the test does
    return, the sorted batch is finite, and that percentile is the linear
    interpolation between the order statistics of the batch.  The floats of
    the notebook decide in the same way on the rounded means, so that, where
    the two exact values are equal or next to each other, its result can
    differ from the one stated here. *)
Theorem favouritism_significant_iff (tables : Globals) (csv : list Pts.row)
  (country_x country_y : string) (start_year end_year : Z)
  (num_simulations : nat) (confidence_threshold : Q)
  (return_detailed_data : bool) (rng : Generator) :
  let by_year := select_by_year csv country_x country_y start_year end_year in
  let timespan := map Pts.Year by_year in
  let observed_mean := pd_mean (map Pts.Points_total by_year) in
  let test :=
    favouritism tables csv country_x country_y start_year end_year
      num_simulations confidence_threshold return_detailed_data in
  country_x <> country_y -> by_year <> [] ->
  (forall result rng',
      test rng = Ok (result, rng') ->
      exists batch threshold,
        simulated_batch tables timespan num_simulations rng = Ok (batch, rng')
        /\ np_percentile (np_sort batch) confidence_threshold = Ok threshold
        /\ (verdict_of result = SIGNIFICANT
            <-> fgt observed_mean threshold = true))
  /\ (runnable tables timespan num_simulations confidence_threshold = true ->
      exists result rng' batch qs,
        test rng = Ok (result, rng')
        /\ simulated_batch tables timespan num_simulations rng
           = Ok (batch, rng')
        /\ np_sort batch = Fin <$> qs
        /\ (verdict_of result = SIGNIFICANT
            <-> fgt observed_mean
                  (Fin (percentile_linear qs confidence_threshold)) = true)).
Proof.
  intros by_year timespan observed_mean test Hne Hrows. split.
  - intros result rng' Hrun.
    destruct (favouritism_Ok_inv _ _ _ _ _ _ _ _ _ _ _ _ Hne Hrows Hrun)
      as (countries & has_televote & batch & lowest & threshold & Hcountries
          & Htelevote & Hsim & _ & _ & Hpercentile & ->).
    exists batch, threshold. split; [|split; [done|]].
    + apply simulated_batch_Ok. by exists countries, has_televote.
    + apply verdict_report.
  - intros Hrunnable.
    destruct (favouritism_total tables csv country_x country_y start_year
                end_year num_simulations confidence_threshold
                return_detailed_data rng Hne Hrows Hrunnable)
      as (result & rng' & batch & qs & Hrun & Hsim & Hqs & threshold
          & Hthreshold & ->).
    exists (report return_detailed_data
              (fgt observed_mean threshold) observed_mean threshold),
      rng', batch, qs.
    split; [done|]. split; [by apply simulated_batch_Ok|]. split; [done|].
    rewrite verdict_report. fold by_year. fold observed_mean.
    by rewrite (fgt_feq _ _ _ Hthreshold).
Qed.

Lemma favouritism_significant_iff_witness :
  exists result rng' batch qs,
    favouritism (tables_of final_2000) (points_of final_2000) "A" "B"
      1999 2001 4 95 true sample_rng = Ok (result, rng')
    /\ simulated_batch (tables_of final_2000) [2000] 4 sample_rng
       = Ok (batch, rng')
    /\ np_sort batch = Fin <$> qs
    /\ (verdict_of result = SIGNIFICANT
        <-> fgt (Fin 1) (Fin (percentile_linear qs 95)) = true).
Proof.
  pose proof (favouritism_significant_iff (tables_of final_2000)
                (points_of final_2000) "A" "B" 1999 2001 4 95 true sample_rng)
    as Htest.
  cbv zeta in Htest.
  destruct Htest as [_ Htest]; [discriminate | vm_compute; discriminate |].
  apply Htest. vm_compute. reflexivity.
Defined.

(** ** The assertions *)

(** X25. When every year of the time span with a maximum in the table has a
    positive one, a favouritism test never fails an assertion; every rank
    that [rng.integers] returns for the counts of the span is at least 1 and
    below the count of its year; and every simulated average of the sorted
    batch is at least 0. *)
Theorem assertions_hold (tables : Globals) (csv : list Pts.row)
  (country_x country_y : string) (start_year end_year : Z)
  (num_simulations : nat) (confidence_threshold : Q)
  (return_detailed_data : bool) (rng : Generator) :
  let timespan :=
    map Pts.Year
      (select_by_year csv country_x country_y start_year end_year) in
  Forall (fun y => forall h,
            MAX_POSSIBLE_POINTS_RECEIVED tables !! y = Some h -> 0 < h)
    timespan ->
  favouritism tables csv country_x country_y start_year end_year
    num_simulations confidence_threshold return_detailed_data rng
  <> Raised AssertionError
  /\ (forall countries rng0 ranks rng1,
         getitem (PARTICIPANTS_BY_YEAR tables) timespan = Ok countries ->
         rng_integers 1 countries.*2 num_simulations rng0 = Ok (ranks, rng1) ->
         Forall (fun row =>
                   Forall2 (fun rank count => 1 <= rank < count) row
                     countries.*2) ranks)
  /\ (forall batch rng',
         timespan <> [] ->
         simulated_batch tables timespan num_simulations rng
         = Ok (batch, rng') ->
         Forall (fun avg => fge avg (Fin 0) = true) (np_sort batch)).
Proof.
  intros timespan Hpos. split; [|split].
  - intros Hrun. by apply favouritism_Raised in Hrun as [? | ?].
  - intros countries rng0 ranks rng1 _ Hdraw.
    destruct (rng_integers_cases 1 countries.*2 num_simulations rng0)
      as [(_ & _ & Hfail) | [Hhigh Hok]]; [congruence|].
    rewrite Hok in Hdraw. injection Hdraw as <- _.
    by apply drawn_ranks_bounds.
  - intros batch rng' Hspan Hbatch.
    apply simulated_batch_Ok in Hbatch
      as (countries & has_televote & Hcountries & _ & Hsim).
    apply getitem_Ok in Hcountries as [Hlabels _].
    destruct (simulation_avgs_nonneg _ _ _ _ _ _ _ _ Hspan Hlabels Hpos Hsim)
      as [Hbatch _].
    rewrite np_sort_perm. eapply Forall_impl; [exact Hbatch|].
    apply nonneg_fin_ge.
Qed.

Lemma assertions_hold_witness :
  favouritism (tables_of final_2000) (points_of final_2000) "A" "B"
    1999 2001 4 95 false sample_rng
  <> Raised AssertionError.
Proof.
  apply (assertions_hold (tables_of final_2000) (points_of final_2000)
           "A" "B" 1999 2001 4 95 false sample_rng).
  vm_compute. constructor; [|constructor].
  intros h [= <-]. reflexivity.
Defined.

(** C10. The code breaks its own assertion: in a year without points the
    maximum of the year is 0, the simulated points of a rank above 10 are
    divided by it into a value that is not a number, and the assertion on
    the lowest simulated average fails. *)
Lemma assertion_fails_without_points :
  favouritism (tables_of final_zero) (points_of final_zero) "A" "B"
    1900 2000 1 95 false constant_rng
  = Raised AssertionError.
Proof. vm_compute. reflexivity. Qed.

(** ** The draws of a test *)

Lemma same_draws_advance (k n : nat) (g g' : Generator) :
  same_draws (k + n) g g' -> same_draws n (advance k g) (advance k g').
Proof.
  intros Hsame i Hi. cbn. rewrite <- !Nat.add_assoc. apply Hsame. lia.
Qed.

Lemma same_draws_le (n m : nat) (g g' : Generator) :
  (n <= m)%nat -> same_draws m g g' -> same_draws n g g'.
Proof. intros Hle Hsame i Hi. apply Hsame. lia. Qed.

Lemma drawn_ranks_local (g g' : Generator) (low : Z) (high : list Z)
  (rows : nat) :
  same_draws (rows * length high) g g' ->
  drawn_ranks g low high rows = drawn_ranks g' low high rows.
Proof.
  intros Hsame. unfold drawn_ranks. apply map_ext_in. intros i Hi.
  apply in_seq in Hi. unfold draw_row. apply imap_ext. intros j h Hj.
  apply lookup_lt_Some in Hj. cbv beta.
  rewrite <- !Nat.add_assoc, Hsame; [done | nia].
Qed.

Lemma simulate_jury_votes_eq (countries : list (Z * Z)) (n : nat)
  (g : Generator) :
  simulate_jury_votes countries n g
  = if bool_decide (n <> 0%nat /\ Exists (fun h => h <= 1) countries.*2)
    then Raised ValueError
    else Ok (map (map rank_to_points) (drawn_ranks g 1 countries.*2 n),
             advance (n * length countries.*2) g).
Proof.
  destruct (simulate_jury_votes_cases countries n g)
    as [(Hn & Hex & ->) | [Hall ->]].
  - by rewrite bool_decide_eq_true_2.
  - rewrite bool_decide_eq_false_2; [done|]. intros [Hn Hex].
    destruct Hall as [-> | Hall]; [done|].
    apply Exists_exists in Hex as (h & Hin & Hh).
    rewrite Forall_forall in Hall. apply Hall in Hin. lia.
Qed.

Lemma simulate_televotes_eq (countries : list (Z * Z))
  (no_televote : list (Z * bool)) (n : nat) (g : Generator) :
  simulate_televotes countries no_televote n g
  = if bool_decide (n <> 0%nat /\ Exists (fun h => h <= 1) countries.*2)
    then Raised ValueError
    else Ok (map (map rank_to_points)
               (map (set_columns countries.*1 no_televote.*1)
                  (drawn_ranks g 1 countries.*2 n)),
             advance (n * length countries.*2) g).
Proof.
  destruct (simulate_televotes_cases countries no_televote n g)
    as [(Hn & Hex & ->) | [Hall ->]].
  - by rewrite bool_decide_eq_true_2.
  - rewrite bool_decide_eq_false_2; [done|]. intros [Hn Hex].
    destruct Hall as [-> | Hall]; [done|].
    apply Exists_exists in Hex as (h & Hin & Hh).
    rewrite Forall_forall in Hall. apply Hall in Hin. lia.
Qed.

(** The batch depends on the generator through the values it draws only. *)
Lemma simulation_avgs_local (tables : Globals) (timespan : list Z)
  (countries : list (Z * Z)) (no_televote : list (Z * bool)) (n : nat)
  (g g' : Generator) :
  same_draws (2 * (n * length countries.*2)) g g' ->
  value_of (simulation_avgs tables timespan countries no_televote n g)
  = value_of (simulation_avgs tables timespan countries no_televote n g').
Proof.
  intros Hsame. unfold simulation_avgs.
  rewrite !simulate_jury_votes_eq. case_bool_decide; [done|]. cbn [bind].
  rewrite !simulate_televotes_eq. rewrite bool_decide_eq_false_2 by done.
  cbn [bind].
  rewrite (drawn_ranks_local g g').
  2:{ eapply same_draws_le; [|exact Hsame]. lia. }
  rewrite (drawn_ranks_local (advance (n * length countries.*2) g)
             (advance (n * length countries.*2) g')).
  2:{ apply same_draws_advance. eapply same_draws_le; [|exact Hsame]. lia. }
  by destruct (getitem _ timespan).
Qed.

Lemma simulation_avgs_cursor (tables : Globals) (timespan : list Z)
  (countries : list (Z * Z)) (no_televote : list (Z * bool)) (n : nat)
  (g g' : Generator) (batch : list fval) :
  simulation_avgs tables timespan countries no_televote n g = Ok (batch, g') ->
  stream g' = stream g
  /\ cursor g' = (cursor g + 2 * (n * length countries.*2))%nat.
Proof.
  intros (_ & -> & _)%simulation_avgs_Ok. cbn. split; [done | lia].
Qed.

Section draws_of_a_test.
Variable tables : Globals.
Variable csv : list Pts.row.
Variables start_year end_year : Z.
Variable num_simulations : nat.
Variable confidence_threshold : Q.
Variable return_detailed_data : bool.

Let test (a b : string) :=
  favouritism tables csv a b start_year end_year num_simulations
    confidence_threshold return_detailed_data.
Let count (a b : string) := draws csv a b start_year end_year num_simulations.

(** A test moves the generator by the number of its draws. *)
Lemma favouritism_cursor (a b : string) (g g' : Generator) (result : pyval) :
  test a b g = Ok (result, g') ->
  stream g' = stream g /\ cursor g' = (cursor g + count a b)%nat.
Proof.
  subst test count. cbv beta. unfold favouritism, draws.
  case_bool_decide as Hab.
  { intros [= _ <-]. split; [done | lia]. }
  destruct (length _ =? 0)%nat eqn:Hlen.
  { apply Nat.eqb_eq in Hlen. rewrite Hlen. intros [= _ <-]. split; [done | lia]. }
  destruct (getitem (PARTICIPANTS_BY_YEAR tables) _)
    as [countries|] eqn:Hcountries; [|done]. cbn [bind].
  destruct (getitem (HAS_TELEVOTE_BY_YEAR tables) _)
    as [has_televote|]; [|done]. cbn [bind].
  destruct (simulation_avgs _ _ _ _ _ _) as [[batch g1]|] eqn:Hsim; [|done].
  cbn [bind]. destruct (np_min _); [|done]. cbn [bind].
  destruct (py_assert _); [|done]. cbn [bind].
  destruct (np_percentile _ _); [|done]. cbn [bind]. intros [= _ <-].
  apply simulation_avgs_cursor in Hsim as [-> ->].
  apply getitem_Ok in Hcountries as [Hlabels _].
  apply (f_equal length) in Hlabels. rewrite !length_fmap in Hlabels.
  rewrite ?length_map in Hlabels. by rewrite length_fmap, Hlabels.
Qed.

(** The value of a test depends on the generator through its draws only. *)
Lemma favouritism_local (a b : string) (g g' : Generator) :
  same_draws (count a b) g g' ->
  value_of (test a b g) = value_of (test a b g').
Proof.
  subst test count. cbv beta. unfold favouritism, draws.
  case_bool_decide as Hab; [done|].
  destruct (length _ =? 0)%nat eqn:Hlen; [done|]. intros Hsame.
  destruct (getitem (PARTICIPANTS_BY_YEAR tables) _)
    as [countries|] eqn:Hcountries; [|done]. cbn [bind].
  destruct (getitem (HAS_TELEVOTE_BY_YEAR tables) _)
    as [has_televote|]; [|done]. cbn [bind].
  apply getitem_Ok in Hcountries as [Hlabels _].
  apply (f_equal length) in Hlabels. rewrite !length_fmap in Hlabels.
  rewrite ?length_map in Hlabels.
  match goal with
  | |- context [simulation_avgs ?t ?s ?c ?v ?n g] =>
      pose proof (simulation_avgs_local t s c v n g g') as Hlocal
  end.
  rewrite length_fmap, Hlabels in Hlocal. specialize (Hlocal Hsame).
  destruct (simulation_avgs _ _ _ _ _ g) as [[batch g1]|];
    destruct (simulation_avgs _ _ _ _ _ g') as [[batch' g1']|];
    cbn [value_of] in Hlocal; try done.
  - injection Hlocal as <-. cbn [bind].
    destruct (np_min _); [|done]. cbn [bind].
    destruct (py_assert _); [|done]. cbn [bind].
    by destruct (np_percentile _ _).
  - by injection Hlocal as <-.
Qed.
End draws_of_a_test.

(** ** Symmetry of collusion *)

Lemma value_of_Ok {A : Type} (o : outcome (A * Generator)) (a : A) :
  value_of o = Ok a -> exists g, o = Ok (a, g).
Proof. destruct o as [[a' g]|]; [|done]. intros [= <-]. by exists g. Qed.

Lemma exchange_second_block (n m : nat) (g g1 : Generator) :
  stream g1 = stream g -> cursor g1 = (cursor g + n)%nat ->
  same_draws m g1 (exchange n m g).
Proof.
  intros Hstream Hcursor i Hi. rewrite Hstream, Hcursor.
  unfold exchange. cbn [stream cursor].
  destruct (Nat.ltb_spec (cursor g + i) (cursor g)); [lia|].
  destruct (Nat.ltb_spec (cursor g + i) (cursor g + m)); [|lia].
  f_equal. lia.
Qed.

Lemma exchange_first_block (n m : nat) (g h : Generator) :
  stream h = stream (exchange n m g) -> cursor h = (cursor g + m)%nat ->
  same_draws n g h.
Proof.
  intros Hstream Hcursor i Hi. rewrite Hstream, Hcursor.
  unfold exchange. cbn [stream cursor].
  destruct (Nat.ltb_spec (cursor g + m + i) (cursor g)); [lia|].
  destruct (Nat.ltb_spec (cursor g + m + i) (cursor g + m)); [lia|].
  destruct (Nat.ltb_spec (cursor g + m + i) (cursor g + m + n)); [|lia].
  f_equal. lia.
Qed.

(** C6, as the code has it. When the test from x to y and then the test from
    y to x return, the collusion test of (x, y) and the collusion test of
    (y, x) run on the generator with the two blocks of draws exchanged, so
    that each directional test sees the same draws in both orders, both
    return, and their results have the same truth value. *)
Theorem collusion_exchange_symmetric (tables : Globals) (csv : list Pts.row)
  (country_x country_y : string) (start_year end_year : Z)
  (num_simulations : nat) (confidence_threshold : Q)
  (return_detailed_data : bool) (rng rng1 rng2 : Generator)
  (first second : pyval) :
  let test a b :=
    favouritism tables csv a b start_year end_year num_simulations
      confidence_threshold return_detailed_data in
  let both a b :=
    collusion tables csv a b start_year end_year num_simulations
      confidence_threshold return_detailed_data in
  let count a b := draws csv a b start_year end_year num_simulations in
  test country_x country_y rng = Ok (first, rng1) ->
  test country_y country_x rng1 = Ok (second, rng2) ->
  exists result result',
    value_of (both country_x country_y rng) = Ok result
    /\ value_of
         (both country_y country_x
            (exchange (count country_x country_y) (count country_y country_x)
               rng))
       = Ok result'
    /\ truthy result = truthy result'.
Proof.
  intros test both count. subst test both count. cbv beta.
  intros Hfirst Hsecond.
  set (count_xy := draws csv country_x country_y start_year end_year
                     num_simulations).
  set (count_yx := draws csv country_y country_x start_year end_year
                     num_simulations).
  set (rng' := exchange count_xy count_yx rng).
  destruct (favouritism_cursor _ _ _ _ _ _ _ _ _ _ _ _ Hfirst)
    as [Hstream1 Hcursor1].
  destruct (value_of_Ok
              (favouritism tables csv country_y country_x start_year end_year
                 num_simulations confidence_threshold return_detailed_data
                 rng') second) as [h Hsecond'].
  { rewrite <- (favouritism_local tables csv start_year end_year
                  num_simulations confidence_threshold return_detailed_data
                  country_y country_x rng1 rng').
    - by rewrite Hsecond.
    - by apply exchange_second_block. }
  destruct (favouritism_cursor _ _ _ _ _ _ _ _ _ _ _ _ Hsecond')
    as [Hstreamh Hcursorh].
  destruct (value_of_Ok
              (favouritism tables csv country_x country_y start_year end_year
                 num_simulations confidence_threshold return_detailed_data
                 h) first) as [h' Hfirst'].
  { rewrite <- (favouritism_local tables csv start_year end_year
                  num_simulations confidence_threshold return_detailed_data
                  country_x country_y rng h).
    - by rewrite Hfirst.
    - by apply (exchange_first_block _ count_yx). }
  unfold collusion. rewrite Hfirst, Hsecond'. cbn [bind].
  rewrite Hsecond, Hfirst'.
  destruct (truthy first) eqn:Ht1, (truthy second) eqn:Ht2; cbn [value_of].
  - exists second, first. by rewrite Ht1, Ht2.
  - exists second, second. done.
  - exists first, first. done.
  - exists first, second. by rewrite Ht1, Ht2.
Qed.

Lemma collusion_exchange_symmetric_witness :
  exists result result',
    value_of (collusion (tables_of final_2000) (points_of final_2000) "A" "B"
                1999 2001 1 95 false sample_rng) = Ok result
    /\ value_of (collusion (tables_of final_2000) (points_of final_2000)
                   "B" "A" 1999 2001 1 95 false
                   (exchange
                      (draws (points_of final_2000) "A" "B" 1999 2001 1)
                      (draws (points_of final_2000) "B" "A" 1999 2001 1)
                      sample_rng)) = Ok result'
    /\ truthy result = truthy result'.
Proof.
  apply (collusion_exchange_symmetric (tables_of final_2000)
           (points_of final_2000) "A" "B" 1999 2001 1 95 false sample_rng
           (advance 2 sample_rng) (advance 4 sample_rng)
           (PyBool true) (PyBool true));
    vm_compute; reflexivity.
Defined.

(** C6, as stated, fails: on one and the same generator the collusion test of
    (A, B) is true and the collusion test of (B, A) is false. *)
Lemma collusion_not_symmetric :
  value_of (collusion (tables_of final_2000) (points_of final_2000) "A" "B"
              1999 2001 1 95 false sample_rng) = Ok (PyBool true)
  /\ value_of (collusion (tables_of final_2000) (points_of final_2000) "B" "A"
                 1999 2001 1 95 false sample_rng) = Ok (PyBool false)
  /\ truthy (PyBool true) <> truthy (PyBool false).
Proof. split; [by_computation | split; [by_computation | done]]. Qed.

(** * Further properties of the notebook *)

(** ** The tables of a cleaned file *)

Lemma groupby_count_lookup {K : Type} `{Countable K} {A : Type}
  (key : A -> K) (rows : list A) (k : K) :
  groupby_count key rows !! k
  = match length (filter (fun a => key a = k) rows) with
    | O => None
    | S n => Some (Z.of_nat (S n))
    end.
Proof.
  induction rows as [|a rows IH].
  { unfold groupby_count. cbn [foldr]. by rewrite lookup_empty. }
  cbn [groupby_count foldr]. rewrite lookup_partial_alter.
  fold (groupby_count key rows). rewrite filter_cons.
  destruct (decide (key a = k)) as [Heq | Hneq].
  - rewrite Heq, IH. cbn [length].
    destruct (length (filter _ rows)); [done|]. f_equal. lia.
  - exact IH.
Qed.

Lemma groupby_count_is_Some {K : Type} `{Countable K} {A : Type}
  (key : A -> K) (rows : list A) (a : A) :
  a ∈ rows -> is_Some (groupby_count key rows !! key a).
Proof.
  intros Ha. rewrite groupby_count_lookup.
  destruct (filter _ rows) as [|b l] eqn:Hfilter; [|by eexists].
  assert (Hin : a ∈ filter (fun b => key b = key a) rows)
    by by apply list_elem_of_filter.
  rewrite Hfilter in Hin. by apply not_elem_of_nil in Hin.
Qed.

Lemma tables_of_unfold (raw : list Raw.row) :
  tables_of raw
  = mkGlobals (max_each_year (combined_csv (clean_csv raw))).1
      (max_each_year (combined_csv (clean_csv raw))).2
      (participants_by_year (points_of raw)).
Proof. reflexivity. Qed.

(** Every year of a row of [points] is in the three tables. *)
Lemma tables_cover_points (raw : list Raw.row) (r : Pts.row) :
  r ∈ points_of raw ->
  is_Some (PARTICIPANTS_BY_YEAR (tables_of raw) !! Pts.Year r)
  /\ is_Some (HAS_TELEVOTE_BY_YEAR (tables_of raw) !! Pts.Year r)
  /\ is_Some (MAX_POSSIBLE_POINTS_RECEIVED (tables_of raw) !! Pts.Year r).
Proof.
  intros Hr. rewrite tables_of_unfold.
  cbn [PARTICIPANTS_BY_YEAR HAS_TELEVOTE_BY_YEAR MAX_POSSIBLE_POINTS_RECEIVED].
  split; [|split].
  - unfold participants_by_year.
    destruct (groupby_count_is_Some
                (fun r => (Pts.Year r, Pts.From_country r)) _ r Hr)
      as [n Hn].
    apply elem_of_map_to_list in Hn.
    by apply (groupby_count_is_Some year_of_group _ _ Hn).
  - rewrite points_of_unfold in Hr.
    apply list_elem_of_fmap in Hr as (c & -> & Hc).
    cbn [Pts.Year]. unfold max_each_year. cbn [snd]. rewrite lookup_fmap.
    destruct (by_year_max_above Combined.Points_Televote Combined.Year
                Combined.From_country _ c Hc) as (v & -> & _).
    by eexists.
  - rewrite points_of_unfold in Hr.
    apply list_elem_of_fmap in Hr as (c & -> & Hc).
    cbn [Pts.Year].
    destruct (max_each_year_above _ c Hc) as (maxJ & maxT & -> & _).
    by eexists.
Qed.

Lemma simulation_avgs_Raised_lookup (tables : Globals) (timespan : list Z)
  (countries : list (Z * Z)) (no_televote : list (Z * bool)) (n : nat)
  (g : Generator) (e : exn) :
  Forall (fun y => is_Some (MAX_POSSIBLE_POINTS_RECEIVED tables !! y))
    timespan ->
  simulation_avgs tables timespan countries no_televote n g = Raised e ->
  e = ValueError /\ Exists (fun h => h <= 1) countries.*2.
Proof.
  intros Hmax. unfold simulation_avgs.
  rewrite simulate_jury_votes_eq. case_bool_decide as Hex.
  { intros [= <-]. by destruct Hex. }
  cbn [bind]. rewrite simulate_televotes_eq, bool_decide_eq_false_2 by done.
  cbn [bind]. destruct (getitem_total _ _ Hmax) as [max_points ->]. done.
Qed.

(** X1. On the points and the tables of one and the same file a favouritism
    test never stops on a missing year. *)
Theorem favouritism_tables_complete (raw : list Raw.row)
  (country_x country_y : string) (start_year end_year : Z)
  (num_simulations : nat) (confidence_threshold : Q)
  (return_detailed_data : bool) (rng : Generator) :
  favouritism (tables_of raw) (points_of raw) country_x country_y start_year
    end_year num_simulations confidence_threshold return_detailed_data rng
  <> Raised KeyError.
Proof.
  unfold favouritism. case_bool_decide; [done|].
  destruct (length _ =? 0)%nat; [done|].
  set (timespan := map Pts.Year _).
  assert (Hcover : forall y, y ∈ timespan ->
            is_Some (PARTICIPANTS_BY_YEAR (tables_of raw) !! y)
            /\ is_Some (HAS_TELEVOTE_BY_YEAR (tables_of raw) !! y)
            /\ is_Some (MAX_POSSIBLE_POINTS_RECEIVED (tables_of raw) !! y)).
  { intros y (r & -> & Hr)%list_elem_of_fmap.
    apply list_elem_of_filter in Hr as [_ Hr]. by apply tables_cover_points. }
  destruct (getitem_total (PARTICIPANTS_BY_YEAR (tables_of raw)) timespan)
    as [countries ->].
  { apply Forall_forall. intros y Hy. by apply Hcover. }
  cbn [bind].
  destruct (getitem_total (HAS_TELEVOTE_BY_YEAR (tables_of raw)) timespan)
    as [has_televote ->].
  { apply Forall_forall. intros y Hy. by apply Hcover. }
  cbn [bind].
  destruct (simulation_avgs _ _ _ _ _ _) as [[batch rng1]|] eqn:Hsim.
  2:{ cbn [bind]. apply simulation_avgs_Raised_lookup in Hsim as [-> _]; [done|].
      apply Forall_forall. intros y Hy. by apply Hcover. }
  cbn [bind]. destruct (np_min _) as [lowest|] eqn:Hmin.
  2:{ cbn [bind]. destruct (np_sort batch); [|done].
      cbn in Hmin. by injection Hmin as <-. }
  cbn [bind]. destruct (fge lowest (Fin 0)); [|done]. cbn [py_assert bind].
  destruct (np_percentile _ _) eqn:Hpercentile; [done|].
  cbn [bind]. by apply np_percentile_Raised in Hpercentile as ->.
Qed.

(** X2. A year up to 2015 that is in the table of televotes is there as a
    year without televote: its televote points were all set to 0. *)
Theorem no_televote_until_2015 (raw : list Raw.row) (year : Z) :
  year <= 2015 ->
  HAS_TELEVOTE_BY_YEAR (tables_of raw) !! year <> Some true.
Proof.
  intros Hyear. rewrite tables_of_unfold. cbn [HAS_TELEVOTE_BY_YEAR].
  unfold max_each_year. cbn [snd]. rewrite lookup_fmap.
  destruct (groupby_max _ _ _ !! year) as [v|] eqn:Hv; [|done].
  apply by_year_max_attained in Hv as (a & Ha & Hy & Hpoints).
  apply elem_of_combined_csv in Ha as (l & r & _ & _ & _ & _ & ->).
  cbn in Hy, Hpoints. destruct (Z.leb_spec (Vote.Year l) 2015); [|lia].
  by subst v.
Qed.

Lemma no_televote_until_2015_witness :
  HAS_TELEVOTE_BY_YEAR (tables_of final_2000) !! 2000 <> Some true.
Proof. apply (no_televote_until_2015 final_2000 2000). lia. Defined.

(** X3. The number of participants of a year is the number of different
    countries that gave votes in that year, and is at least 1; a year without
    a row is not in the table. *)
Theorem participants_are_donors (points : list Pts.row) (year : Z) :
  (forall n,
      participants_by_year points !! year = Some n ->
      exists donors,
        NoDup donors
        /\ (forall d, d ∈ donors <->
                      exists r, r ∈ points /\ Pts.Year r = year
                                /\ Pts.From_country r = d)
        /\ n = Z.of_nat (length donors) /\ 1 <= n)
  /\ (participants_by_year points !! year = None <->
      forall r, r ∈ points -> Pts.Year r <> year).
Proof.
  unfold participants_by_year.
  set (by_donor := groupby_count
                     (fun r => (Pts.Year r, Pts.From_country r)) points).
  assert (Hdonor : forall d,
            is_Some (by_donor !! (year, d)) <->
            exists r, r ∈ points /\ Pts.Year r = year
                      /\ Pts.From_country r = d).
  { intros d. subst by_donor. rewrite groupby_count_lookup. split.
    - intros Hsome.
      destruct (filter _ points) as [|r l] eqn:Hfilter;
        [by destruct Hsome|].
      assert (Hr : r ∈ filter
                     (fun r => (Pts.Year r, Pts.From_country r) = (year, d))
                     points) by (rewrite Hfilter; left).
      apply list_elem_of_filter in Hr as [[= Hy Hd] Hr]. by exists r.
    - intros (r & Hr & Hy & Hd).
      destruct (filter _ points) as [|r' l] eqn:Hfilter; [|by eexists].
      assert (Hin : r ∈ filter
                      (fun r => (Pts.Year r, Pts.From_country r) = (year, d))
                      points).
      { apply list_elem_of_filter. split; [by rewrite Hy, Hd | done]. }
      rewrite Hfilter in Hin. by apply not_elem_of_nil in Hin. }
  rewrite groupby_count_lookup.
  set (groups := filter (fun g => year_of_group g = year)
                   (map_to_list by_donor)).
  assert (Hgroups : forall g, g ∈ groups <->
            by_donor !! g.1 = Some g.2 /\ g.1.1 = year).
  { intros [[y d] v]. subst groups. rewrite list_elem_of_filter.
    rewrite elem_of_map_to_list. unfold year_of_group. cbn. tauto. }
  split.
  - intros n Hn. exists ((fun g => g.1.2) <$> groups).
    split; [|split; [|split]].
    + apply NoDup_fmap_2_strong.
      * intros [[y d] v] [[y' d'] v'] [Hv Hy]%Hgroups [Hv' Hy']%Hgroups Heq.
        cbn in *. subst y y' d'. rewrite Hv in Hv'. by injection Hv' as <-.
      * subst groups. apply NoDup_filter, NoDup_map_to_list.
    + intros d. rewrite list_elem_of_fmap. rewrite <- Hdonor. split.
      * intros ([[y d'] v] & -> & [Hv Hy]%Hgroups). cbn in *. subst y.
        by eexists.
      * intros [v Hv]. exists ((year, d), v). split; [done|].
        by apply Hgroups.
    + rewrite length_fmap. destruct (length groups); [done|].
      by injection Hn as <-.
    + destruct (length groups); [done|]. injection Hn as <-. lia.
  - destruct groups as [|g groups'] eqn:Hg; cbn [length]; split; try done.
    + intros _ r Hr Hy.
      destruct (proj2 (Hdonor (Pts.From_country r))) as [v Hv];
        [by exists r|].
      assert (Hin : ((year, Pts.From_country r), v) ∈ @nil (Z * string * Z)).
      { by apply Hgroups. }
      by apply not_elem_of_nil in Hin.
    + intros Hnone. exfalso.
      assert (Hin : g ∈ g :: groups') by left.
      apply Hgroups in Hin as [Hv Hy]. destruct g as [[y d] v]. cbn in *.
      subst y. destruct (proj1 (Hdonor d)) as (r & Hr & Hyr & _);
        [by eexists|].
      by apply (Hnone r).
Qed.

Lemma participants_are_donors_witness :
  exists donors,
    NoDup donors
    /\ (forall d, d ∈ donors <->
                  exists r, r ∈ points_of final_2000 /\ Pts.Year r = 2000
                            /\ Pts.From_country r = d)
    /\ 4 = Z.of_nat (length donors) /\ 1 <= 4.
Proof.
  apply (proj1 (participants_are_donors (points_of final_2000) 2000)).
  by_computation.
Defined.

(** ** The simulated votes *)

Lemma rank_to_points_in_ladder (rank : Z) :
  1 <= rank <= 10 -> rank_to_points rank ∈ ladder.
Proof.
  intros Hrank.
  assert (Hcases : rank = 1 \/ rank = 2 \/ rank = 3 \/ rank = 4 \/ rank = 5
                   \/ rank = 6 \/ rank = 7 \/ rank = 8 \/ rank = 9
                   \/ rank = 10) by lia.
  repeat (destruct Hcases as [-> | Hcases];
          [apply list_elem_of_In; vm_compute; tauto|]).
  subst rank. apply list_elem_of_In. vm_compute. tauto.
Qed.

Lemma rank_to_points_above_10 (rank : Z) : 10 < rank -> rank_to_points rank = 0.
Proof.
  intros Hrank. unfold rank_to_points.
  by destruct (Z.ltb_spec 10 rank); [|lia].
Qed.

(** X4. Every cell of the frame that [simulate_jury_votes] returns is a value
    of the ladder or 0; for a year with at most 11 participants it is a value
    of the ladder, never 0, and for a year with 2 participants it is 12. *)
Theorem simulated_jury_points (countries : list (Z * Z)) (n : nat)
  (rng rng' : Generator) (points : list (list Z)) :
  simulate_jury_votes countries n rng = Ok (points, rng') ->
  length points = n
  /\ Forall (fun row =>
               Forall2 (fun p count =>
                          (p = 0 \/ p ∈ ladder)
                          /\ (count <= 11 -> p ∈ ladder)
                          /\ (count = 2 -> p = 12)) row countries.*2) points.
Proof.
  destruct (simulate_jury_votes_cases countries n rng)
    as [(_ & _ & ->) | [Hhigh ->]]; [done|].
  intros [= <- _]. split; [by rewrite length_map, length_drawn_ranks|].
  apply Forall_fmap.
  eapply Forall_impl; [by apply drawn_ranks_bounds|].
  intros row Hrow. cbn. apply Forall2_fmap_l.
  eapply Forall2_impl; [exact Hrow|]. intros rank count Hrank.
  unfold compose. cbv beta in *.
  destruct (Z.le_gt_cases rank 10) as [Hle | Hgt].
  - pose proof (rank_to_points_in_ladder rank ltac:(lia)) as Hin.
    split; [by right|]. split; [done|]. intros ->.
    by replace rank with 1 by lia.
  - rewrite rank_to_points_above_10 by lia.
    split; [by left|]. split; intros; lia.
Qed.

Lemma simulated_jury_points_witness :
  Forall (fun row =>
            Forall2 (fun p count =>
                       (p = 0 \/ p ∈ ladder)
                       /\ (count <= 11 -> p ∈ ladder)
                       /\ (count = 2 -> p = 12)) row [4; 2])
    [[10; 12]; [8; 12]].
Proof.
  apply (simulated_jury_points [(2000, 4); (2001, 2)] 2 sample_rng
           (advance 4 sample_rng) [[10; 12]; [8; 12]]).
  by_computation.
Defined.

Lemma set_columns_lookup (labels index row : list Z) (j : nat) (label : Z) :
  labels !! j = Some label -> label ∈ index ->
  (j < length row)%nat ->
  set_columns labels index row !! j = Some 256.
Proof.
  intros Hlabel Hin Hj. unfold set_columns.
  destruct (lookup_lt_is_Some_2 row j Hj) as [r Hr].
  rewrite lookup_app_l.
  - rewrite lookup_zip_with, Hlabel, Hr. cbn.
    by rewrite bool_decide_eq_true_2.
  - apply lookup_lt_Some in Hlabel. rewrite length_zip_with. lia.
Qed.

(** X5. In the frame that [simulate_televotes] returns, the column of a year
    listed as without televote holds 0 in every row. *)
Theorem simulated_televotes_zero (countries : list (Z * Z))
  (no_televote : list (Z * bool)) (n : nat) (rng rng' : Generator)
  (points : list (list Z)) (j : nat) (year : Z) :
  simulate_televotes countries no_televote n rng = Ok (points, rng') ->
  countries.*1 !! j = Some year ->
  year ∈ no_televote.*1 ->
  Forall (fun row => row !! j = Some 0) points.
Proof.
  destruct (simulate_televotes_cases countries no_televote n rng)
    as [(_ & _ & ->) | [Hhigh ->]]; [done|].
  intros [= <- _] Hyear Hin. rewrite <- list_fmap_compose.
  apply Forall_fmap, Forall_forall. intros row Hrow. cbn.
  rewrite list_lookup_fmap, (set_columns_lookup _ _ _ j year); [done..|].
  apply lookup_lt_Some in Hyear. rewrite length_fmap in Hyear.
  unfold drawn_ranks in Hrow.
  apply list_elem_of_fmap in Hrow as (i & -> & _).
  unfold draw_row. by rewrite length_imap, length_fmap.
Qed.

Lemma simulated_televotes_zero_witness :
  Forall (fun row => row !! 0%nat = Some 0) [[0; 12]; [0; 12]].
Proof.
  apply (simulated_televotes_zero [(2000, 4); (2016, 2)] [(2000, false)] 2
           sample_rng (advance 4 sample_rng) [[0; 12]; [0; 12]] 0 2000).
  - by_computation.
  - reflexivity.
  - by_computation.
Defined.

(** ** Where a favouritism test stops *)

Lemma getitem_missing {V : Type} (s : gmap Z V) (labels : list Z) (y : Z) :
  y ∈ labels -> s !! y = None -> getitem s labels = Raised KeyError.
Proof.
  intros Hy Hnone. induction labels as [|z labels IH];
    [by apply not_elem_of_nil in Hy|].
  cbn [getitem]. destruct (decide (z = y)) as [-> | Hneq].
  - by rewrite Hnone.
  - apply elem_of_cons in Hy as [-> | Hy]; [done|].
    destruct (s !! z); [|done]. by rewrite (IH Hy).
Qed.

Lemma getitem_values {V : Type} (s : gmap Z V) (labels : list Z)
  (l : list (Z * V)) (y : Z) (v : V) :
  getitem s labels = Ok l -> y ∈ labels -> s !! y = Some v -> v ∈ l.*2.
Proof.
  intros [Hlabels Hlookup]%getitem_Ok Hy Hv. rewrite <- Hlabels in Hy.
  apply list_elem_of_fmap in Hy as ([y' v'] & -> & Hin).
  rewrite Forall_forall in Hlookup. specialize (Hlookup _ Hin).
  cbn in *. apply list_elem_of_fmap. exists (y', v'). split; [|done].
  cbn. congruence.
Qed.

Section stops.
Variable tables : Globals.
Variable csv : list Pts.row.
Variables country_x country_y : string.
Variables start_year end_year : Z.
Variable return_detailed_data : bool.

Let by_year := select_by_year csv country_x country_y start_year end_year.
Let timespan := map Pts.Year by_year.
Let test (n : nat) (q : Q) :=
  favouritism tables csv country_x country_y start_year end_year n q
    return_detailed_data.

Lemma timespan_nonempty (year : Z) : year ∈ timespan -> by_year <> [].
Proof.
  subst timespan. intros Hy ->. by apply not_elem_of_nil in Hy.
Qed.

(** X6. A test of two different countries whose time span has a year that is
    not in the table of participants stops on a [KeyError], whatever the
    number of simulations, the threshold and the generator: the table is
    read before the simulation. *)
Theorem favouritism_missing_year (n : nat) (q : Q) (rng : Generator)
  (year : Z) :
  country_x <> country_y ->
  year ∈ timespan ->
  PARTICIPANTS_BY_YEAR tables !! year = None ->
  test n q rng = Raised KeyError.
Proof.
  intros Hne Hyear Hnone. subst test. cbv beta. unfold favouritism.
  rewrite bool_decide_eq_false_2 by done. fold by_year.
  destruct (length by_year =? 0)%nat eqn:Hlen.
  { apply select_by_year_empty_length in Hlen.
    by apply timespan_nonempty in Hyear. }
  fold timespan. by rewrite (getitem_missing _ _ year).
Qed.

(** X7. A test with at least one simulation of two different countries
    whose time span is in the tables and has a year with a single participant
    stops on the [ValueError] of [rng.integers]: there is no rank to draw for
    that year. *)
Theorem favouritism_single_participant (n : nat) (q : Q) (rng : Generator)
  (year count : Z) :
  country_x <> country_y ->
  n <> 0%nat ->
  Forall (fun y => is_Some (PARTICIPANTS_BY_YEAR tables !! y)
                   /\ is_Some (HAS_TELEVOTE_BY_YEAR tables !! y)) timespan ->
  year ∈ timespan ->
  PARTICIPANTS_BY_YEAR tables !! year = Some count ->
  count <= 1 ->
  test n q rng = Raised ValueError.
Proof.
  intros Hne Hn Htables Hyear Hcount Hle. subst test. cbv beta.
  unfold favouritism. rewrite bool_decide_eq_false_2 by done. fold by_year.
  destruct (length by_year =? 0)%nat eqn:Hlen.
  { apply select_by_year_empty_length in Hlen.
    by apply timespan_nonempty in Hyear. }
  fold timespan.
  destruct (getitem_total (PARTICIPANTS_BY_YEAR tables) timespan)
    as [countries Hcountries].
  { eapply Forall_impl; [exact Htables|]. by intros y [? _]. }
  destruct (getitem_total (HAS_TELEVOTE_BY_YEAR tables) timespan)
    as [has_televote Htelevote].
  { eapply Forall_impl; [exact Htables|]. by intros y [_ ?]. }
  rewrite Hcountries. cbn [bind]. rewrite Htelevote. cbn [bind].
  unfold simulation_avgs. rewrite simulate_jury_votes_eq.
  rewrite bool_decide_eq_true_2; [done|]. split; [done|].
  apply Exists_exists. exists count. split; [|done].
  by apply (getitem_values _ _ _ year count Hcountries).
Qed.
End stops.

Lemma favouritism_missing_year_witness :
  favouritism (tables_of final_2016) (points_of final_2000) "A" "B" 1999 2001
    3 95 false sample_rng
  = Raised KeyError.
Proof.
  apply (favouritism_missing_year (tables_of final_2016)
           (points_of final_2000) "A" "B" 1999 2001 false 3 95 sample_rng
           2000).
  - discriminate.
  - by_computation.
  - by_computation.
Defined.

Lemma favouritism_single_participant_witness :
  favouritism (tables_of final_single) (points_of final_single) "A" "B"
    1999 2001 3 95 false sample_rng
  = Raised ValueError.
Proof.
  apply (favouritism_single_participant (tables_of final_single)
           (points_of final_single) "A" "B" 1999 2001 false 3 95 sample_rng
           2000 1).
  - discriminate.
  - discriminate.
  - vm_compute. repeat constructor; by eexists.
  - by_computation.
  - by_computation.
  - lia.
Defined.

Lemma nonneg_fin_rationals (l : list fval) :
  Forall nonneg_fin l ->
  exists qs, l = Fin <$> qs /\ Forall (fun q => (0 <= q)%Q) qs.
Proof.
  induction 1 as [|x l (q & -> & Hq) _ (qs & -> & Hqs)].
  - by exists [].
  - exists (q :: qs). split; [done | by constructor].
Qed.

Lemma order_statistic_nonneg (qs : list Q) (k : Z) :
  Forall (fun q => (0 <= q)%Q) qs -> (0 <= order_statistic qs k)%Q.
Proof.
  intros Hqs. unfold order_statistic.
  destruct (qs !! Z.to_nat k) as [q|] eqn:Hq; [|done].
  rewrite Forall_forall in Hqs. apply Hqs.
  by apply list_elem_of_lookup_2 in Hq.
Qed.

(** The interpolated percentile of values that are not negative is not
    negative. *)
Lemma percentile_linear_nonneg (qs : list Q) (q : Q) :
  Forall (fun q => (0 <= q)%Q) qs -> (0 <= percentile_linear qs q)%Q.
Proof.
  intros Hqs. unfold percentile_linear.
  set (h := (q / 100 * inject_Z (Z.of_nat (length qs) - 1))%Q).
  pose proof (order_statistic_nonneg qs (Qfloor h) Hqs) as Ha.
  pose proof (order_statistic_nonneg qs (Qfloor h + 1) Hqs) as Hb.
  destruct (_ <? _); [|done].
  pose proof (Qfloor_le h) as Hlow. pose proof (Qlt_floor h) as Hhigh.
  rewrite inject_Z_plus in Hhigh.
  set (t := (h - inject_Z (Qfloor h))%Q).
  assert (Ht0 : (0 <= t)%Q) by (subst t; lra).
  assert (Ht1 : (0 <= 1 - t)%Q) by (subst t; change (inject_Z 1) with 1%Q in *; lra).
  set (a := order_statistic qs (Qfloor h)) in *.
  set (b := order_statistic qs (Qfloor h + 1)) in *.
  assert (Heq : (a + t * (b - a) == (1 - t) * a + t * b)%Q) by ring.
  rewrite Heq.
  pose proof (Qmult_le_0_compat _ _ Ht1 Ha).
  pose proof (Qmult_le_0_compat _ _ Ht0 Hb). lra.
Qed.

Lemma np_percentile_Ok_range (a : list fval) (q : Q) (threshold : fval) :
  np_percentile a q = Ok threshold -> (0 <= q)%Q /\ (q <= 100)%Q.
Proof.
  unfold np_percentile.
  destruct (Qle_bool 0 q) eqn:H0, (Qle_bool q 100) eqn:H1; try done.
  intros _. by split; apply Qle_bool_iff.
Qed.

Lemma simulation_avgs_length (tables : Globals) (timespan : list Z)
  (countries : list (Z * Z)) (no_televote : list (Z * bool)) (n : nat)
  (g g' : Generator) (batch : list fval) :
  simulation_avgs tables timespan countries no_televote n g = Ok (batch, g') ->
  length batch = n.
Proof.
  intros (_ & _ & max_points & _ & ->)%simulation_avgs_Ok.
  rewrite !length_map, length_zip_with, !length_map, !length_drawn_ranks. lia.
Qed.

Section reaching_the_decision.
Variable tables : Globals.
Variable csv : list Pts.row.
Variables country_x country_y : string.
Variables start_year end_year : Z.
Variable return_detailed_data : bool.

Let by_year := select_by_year csv country_x country_y start_year end_year.
Let timespan := map Pts.Year by_year.
Let actual_average := pd_mean (map Pts.Points_total by_year).

(** With the years of the span in the tables and at least two participants
    in each, the test gets its batch and goes on to the minimum. *)
Lemma favouritism_reaches_minimum (n : nat) (q : Q) (rng : Generator) :
  country_x <> country_y -> by_year <> [] ->
  Forall (fun y =>
            (exists count,
                PARTICIPANTS_BY_YEAR tables !! y = Some count /\ 2 <= count)
            /\ is_Some (HAS_TELEVOTE_BY_YEAR tables !! y)
            /\ is_Some (MAX_POSSIBLE_POINTS_RECEIVED tables !! y)) timespan ->
  exists batch rng',
    simulated_batch tables timespan n rng = Ok (batch, rng')
    /\ length batch = n
    /\ favouritism tables csv country_x country_y start_year end_year n q
         return_detailed_data rng
       = (let* lowest := np_min (np_sort batch) in
          let* _ := py_assert (fge lowest (Fin 0)) in
          let* threshold := np_percentile (np_sort batch) q in
          Ok (report return_detailed_data (fgt actual_average threshold)
                actual_average threshold, rng')).
Proof.
  intros Hne Hrows Htables. rewrite Forall_forall in Htables.
  destruct (getitem_total (PARTICIPANTS_BY_YEAR tables) timespan)
    as [countries Hcountries].
  { apply Forall_forall. intros y ([count [-> _]] & _)%Htables. by eexists. }
  destruct (getitem_total (HAS_TELEVOTE_BY_YEAR tables) timespan)
    as [has_televote Htelevote].
  { apply Forall_forall. by intros y (_ & ? & _)%Htables. }
  pose proof (getitem_Ok _ _ _ Hcountries) as [Hlabels Hlookup].
  assert (Hhigh : Forall (fun h => 1 < h) countries.*2).
  { apply Forall_fmap, Forall_forall. intros [y count] Hin. cbn.
    rewrite Forall_forall in Hlookup. specialize (Hlookup _ Hin).
    cbn in Hlookup. destruct (Htables y) as ([count' [Hcount Hle]] & _).
    { rewrite <- Hlabels. apply list_elem_of_fmap. by exists (y, count). }
    assert (count = count') by congruence. lia. }
  destruct (simulation_avgs_total tables timespan countries
              (filter (fun p => p.2 = false) has_televote) n rng Hhigh)
    as (batch & rng' & Hsim).
  { apply Forall_forall. by intros y (_ & _ & ?)%Htables. }
  exists batch, rng'. split; [|split].
  - apply simulated_batch_Ok. by exists countries, has_televote.
  - by apply simulation_avgs_length in Hsim.
  - unfold favouritism. rewrite bool_decide_eq_false_2 by done.
    fold by_year. destruct (length by_year =? 0)%nat eqn:Hlen.
    { apply select_by_year_empty_length in Hlen. done. }
    fold timespan actual_average. rewrite Hcountries. cbn [bind].
    rewrite Htelevote. cbn [bind]. by rewrite Hsim.
Qed.

(** X8. A test with [num_simulations = 0] of two different countries with
    rows in the range, whose years are in the tables with at least two
    participants each, stops on a [ValueError]: the batch is empty and has
    no minimum. *)
Theorem favouritism_no_simulation (q : Q) (rng : Generator) :
  country_x <> country_y -> by_year <> [] ->
  Forall (fun y =>
            (exists count,
                PARTICIPANTS_BY_YEAR tables !! y = Some count /\ 2 <= count)
            /\ is_Some (HAS_TELEVOTE_BY_YEAR tables !! y)
            /\ is_Some (MAX_POSSIBLE_POINTS_RECEIVED tables !! y)) timespan ->
  favouritism tables csv country_x country_y start_year end_year 0 q
    return_detailed_data rng
  = Raised ValueError.
Proof.
  intros Hne Hrows Htables.
  destruct (favouritism_reaches_minimum 0 q rng Hne Hrows Htables)
    as (batch & rng' & _ & Hlength & ->).
  by destruct batch.
Qed.

(** X9. A test that can run but for a confidence threshold outside of
    [0, 100] stops on the [ValueError] of [np.percentile], after the whole
    simulation. *)
Theorem favouritism_confidence_range (n : nat) (q : Q) (rng : Generator) :
  country_x <> country_y -> by_year <> [] ->
  forallb (year_ok tables) timespan = true ->
  (0 < n)%nat ->
  ~ (0 <= q <= 100)%Q ->
  favouritism tables csv country_x country_y start_year end_year n q
    return_detailed_data rng
  = Raised ValueError
  /\ exists batch rng',
      simulated_batch tables timespan n rng = Ok (batch, rng')
      /\ length batch = n.
Proof.
  intros Hne Hrows Hyears Hn Hq. rewrite forallb_forall in Hyears.
  assert (Hok : forall y, y ∈ timespan ->
            exists count b h,
              PARTICIPANTS_BY_YEAR tables !! y = Some count
              /\ HAS_TELEVOTE_BY_YEAR tables !! y = Some b
              /\ MAX_POSSIBLE_POINTS_RECEIVED tables !! y = Some h
              /\ 2 <= count /\ 0 < h).
  { intros y Hy. apply list_elem_of_In, Hyears in Hy. unfold year_ok in Hy.
    destruct (PARTICIPANTS_BY_YEAR tables !! y) as [count|]; [|done].
    destruct (HAS_TELEVOTE_BY_YEAR tables !! y) as [b|]; [|done].
    destruct (MAX_POSSIBLE_POINTS_RECEIVED tables !! y) as [h|]; [|done].
    apply andb_prop in Hy as [Hcount Hh]. exists count, b, h.
    repeat split; try done; lia. }
  destruct (favouritism_reaches_minimum n q rng Hne Hrows)
    as (batch & rng' & Hbatch & Hlength & ->).
  { apply Forall_forall.
    intros y (count & b & h & Hcount & Hb & Hh & Hle & _)%Hok.
    split; [by exists count|]. split; by eexists. }
  split; [|by exists batch, rng'].
  pose proof Hbatch as Hsim.
  apply simulated_batch_Ok in Hsim
    as (countries & has_televote & Hcountries & _ & Hsim).
  apply getitem_Ok in Hcountries as [Hlabels _].
  assert (Hspan : timespan <> []).
  { subst timespan. by destruct by_year. }
  assert (Hpos : Forall (fun y => forall h,
                      MAX_POSSIBLE_POINTS_RECEIVED tables !! y = Some h ->
                      0 < h) timespan).
  { apply Forall_forall.
    intros y (count & b & h & _ & _ & Hh & _ & Hpos)%Hok h'.
    rewrite Hh. by intros [= <-]. }
  destruct (simulation_avgs_nonneg _ _ _ _ _ _ _ _ Hspan Hlabels Hpos Hsim)
    as [Hnonneg _].
  assert (Hsorted : Forall nonneg_fin (np_sort batch))
    by by rewrite np_sort_perm.
  destruct (np_min_nonneg (np_sort batch)) as (lowest & -> & Hlowest);
    [|done|].
  { intros Hnil. apply (f_equal length) in Hnil.
    rewrite (Permutation_length (np_sort_perm batch)) in Hnil.
    cbn in Hnil. lia. }
  cbn [bind]. rewrite (nonneg_fin_ge _ Hlowest). cbn [py_assert bind].
  unfold np_percentile.
  destruct (Qle_bool 0 q) eqn:H0, (Qle_bool q 100) eqn:H1; try done.
  exfalso. apply Hq. split; by apply Qle_bool_iff.
Qed.

(** X10. Over years with a positive maximum, a donor whose observed mean
    toward the recipient is 0 or less is never found to favour it: the
    threshold of the test is not negative. *)
Theorem favouritism_needs_positive_mean (n : nat) (q : Q)
  (rng rng' : Generator) (result : pyval) (mean : Q) :
  Forall (fun y => forall h,
            MAX_POSSIBLE_POINTS_RECEIVED tables !! y = Some h -> 0 < h)
    timespan ->
  actual_average = Fin mean -> (mean <= 0)%Q ->
  favouritism tables csv country_x country_y start_year end_year n q
    return_detailed_data rng
  = Ok (result, rng') ->
  verdict_of result <> SIGNIFICANT.
Proof.
  intros Hpos Hmean Hle Hrun.
  destruct (decide (country_x = country_y)) as [Heq | Hne].
  { unfold favouritism in Hrun. rewrite bool_decide_eq_true_2 in Hrun by done.
    by injection Hrun as <- _. }
  destruct (decide (by_year = [])) as [Hempty | Hrows].
  { unfold favouritism in Hrun. rewrite bool_decide_eq_false_2 in Hrun by done.
    fold by_year in Hrun. rewrite Hempty in Hrun. cbn in Hrun.
    by injection Hrun as <- _. }
  destruct (favouritism_Ok_inv _ _ _ _ _ _ _ _ _ _ _ _ Hne Hrows Hrun)
    as (countries & has_televote & batch & lowest & threshold & Hcountries
        & _ & Hsim & Hmin & _ & Hpercentile & ->).
  rewrite verdict_report. fold by_year actual_average. rewrite Hmean.
  apply getitem_Ok in Hcountries as [Hlabels _].
  assert (Hspan : timespan <> []).
  { subst timespan. by destruct by_year. }
  destruct (simulation_avgs_nonneg _ _ _ _ _ _ _ _ Hspan Hlabels Hpos Hsim)
    as [Hnonneg Hlength].
  assert (Hsorted : Forall nonneg_fin (np_sort batch))
    by by rewrite np_sort_perm.
  destruct (nonneg_fin_rationals _ Hsorted) as (qs & Hqs & Hqs0).
  destruct (np_percentile_Ok_range _ _ _ Hpercentile) as [Hq0 Hq1].
  destruct (np_percentile_linear qs q) as (threshold' & Hp & Hfeq);
    [|done|done|by rewrite <- Hqs, np_sort_idempotent|].
  { intros ->. by rewrite Hqs in Hmin. }
  rewrite Hqs, Hp in Hpercentile. injection Hpercentile as <-.
  rewrite (fgt_feq _ _ _ Hfeq).
  pose proof (percentile_linear_nonneg qs q Hqs0) as Hthreshold.
  intros Hgt%fgt_Fin. lra.
Qed.
End reaching_the_decision.

Lemma favouritism_no_simulation_witness :
  favouritism (tables_of final_2000) (points_of final_2000) "A" "B"
    1999 2001 0 95 false sample_rng
  = Raised ValueError.
Proof.
  apply (favouritism_no_simulation (tables_of final_2000)
           (points_of final_2000) "A" "B" 1999 2001 false 95 sample_rng).
  - discriminate.
  - vm_compute. discriminate.
  - vm_compute. constructor; [|constructor].
    split; [exists 4; split; [reflexivity | done]|]. split; by eexists.
Defined.

Lemma favouritism_confidence_range_witness :
  favouritism (tables_of final_2000) (points_of final_2000) "A" "B"
    1999 2001 2 101 false sample_rng
  = Raised ValueError.
Proof.
  apply (favouritism_confidence_range (tables_of final_2000)
           (points_of final_2000) "A" "B" 1999 2001 false 2 101 sample_rng).
  - discriminate.
  - vm_compute. discriminate.
  - by_computation.
  - lia.
  - lra.
Defined.

Lemma favouritism_needs_positive_mean_witness :
  verdict_of (PyBool false) <> SIGNIFICANT.
Proof.
  apply (favouritism_needs_positive_mean (tables_of final_2000)
           (points_of final_2000) "C" "A" 1999 2001 false 2 95 sample_rng
           (advance 4 sample_rng) (PyBool false) 0).
  - vm_compute. constructor; [|constructor]. by intros h [= <-].
  - by_computation.
  - lra.
  - by_computation.
Defined.

(** ** What the tests take from the generator *)

(** X11. A test that returns has taken [2 * num_simulations] values for each
    row of the pair in the range, whatever its result, and none when the two
    countries are the same or the pair has no row. *)
Theorem favouritism_draws (tables : Globals) (csv : list Pts.row)
  (country_x country_y : string) (start_year end_year : Z)
  (num_simulations : nat) (confidence_threshold : Q)
  (return_detailed_data : bool) (rng rng' : Generator) (result : pyval) :
  favouritism tables csv country_x country_y start_year end_year
    num_simulations confidence_threshold return_detailed_data rng
  = Ok (result, rng') ->
  stream rng' = stream rng
  /\ cursor rng'
     = (cursor rng
        + draws csv country_x country_y start_year end_year num_simulations)%nat
  /\ (verdict_of result = NO_DATA -> cursor rng' = cursor rng).
Proof.
  intros Hrun.
  destruct (favouritism_cursor _ _ _ _ _ _ _ _ _ _ _ _ Hrun)
    as [Hstream Hcursor].
  split; [done|]. split; [done|]. intros Hverdict. rewrite Hcursor.
  unfold draws. case_bool_decide as Hxy; [lia|].
  destruct (decide (select_by_year csv country_x country_y start_year
                      end_year = [])) as [-> | Hrows]; [cbn; lia|].
  destruct (favouritism_Ok_inv _ _ _ _ _ _ _ _ _ _ _ _ Hxy Hrows Hrun)
    as (_ & _ & _ & _ & threshold & _ & _ & _ & _ & _ & _ & ->).
  exfalso. unfold report in Hverdict.
  by destruct return_detailed_data, (fgt _ threshold).
Qed.

Lemma favouritism_draws_witness :
  cursor (advance 6 sample_rng)
  = (cursor sample_rng + draws (points_of final_2000) "A" "B" 1999 2001 3)%nat.
Proof.
  apply (favouritism_draws (tables_of final_2000) (points_of final_2000)
           "A" "B" 1999 2001 3 95 false sample_rng (advance 6 sample_rng)
           (PyBool true)).
  by_computation.
Defined.

(** X12. [collusion] runs the second test only when the first is
    significant: it takes the draws of the first test, and those of the
    second only in that case. *)
Theorem collusion_draws (tables : Globals) (csv : list Pts.row)
  (country_x country_y : string) (start_year end_year : Z)
  (num_simulations : nat) (confidence_threshold : Q)
  (return_detailed_data : bool) (rng rng' : Generator) (result : pyval) :
  collusion tables csv country_x country_y start_year end_year
    num_simulations confidence_threshold return_detailed_data rng
  = Ok (result, rng') ->
  exists first rng1,
    favouritism tables csv country_x country_y start_year end_year
      num_simulations confidence_threshold return_detailed_data rng
    = Ok (first, rng1)
    /\ cursor rng'
       = (cursor rng
          + draws csv country_x country_y start_year end_year num_simulations
          + if truthy first
            then draws csv country_y country_x start_year end_year
                   num_simulations
            else 0)%nat.
Proof.
  unfold collusion.
  destruct (favouritism _ _ country_x country_y _ _ _ _ _ rng)
    as [[first rng1]|] eqn:Hfirst; [|done].
  cbn [bind]. intros Hrun. exists first, rng1. split; [done|].
  destruct (favouritism_cursor _ _ _ _ _ _ _ _ _ _ _ _ Hfirst) as [_ Hc1].
  destruct (truthy first).
  - destruct (favouritism_cursor _ _ _ _ _ _ _ _ _ _ _ _ Hrun) as [_ Hc2].
    lia.
  - injection Hrun as _ <-. lia.
Qed.

Lemma collusion_draws_witness :
  exists first rng1,
    favouritism (tables_of final_2000) (points_of final_2000) "B" "A"
      1999 2001 1 95 false sample_rng = Ok (first, rng1)
    /\ cursor (advance 2 sample_rng)
       = (cursor sample_rng
          + draws (points_of final_2000) "B" "A" 1999 2001 1
          + if truthy first
            then draws (points_of final_2000) "A" "B" 1999 2001 1
            else 0)%nat.
Proof.
  apply (collusion_draws (tables_of final_2000) (points_of final_2000)
           "B" "A" 1999 2001 1 95 false sample_rng (advance 2 sample_rng)
           (PyBool false)).
  by_computation.
Defined.

(** X13. When [collusion] is asked for the detailed data and returns a
    dictionary, this is the dictionary of the second test, from y to x: its
    observed mean is that of y toward x, above its threshold; the figures of
    the test from x to y are not returned. *)
Theorem collusion_detailed_data (tables : Globals) (csv : list Pts.row)
  (country_x country_y : string) (start_year end_year : Z)
  (num_simulations : nat) (confidence_threshold : Q)
  (rng rng' : Generator) (actual_avg sim_avg : fval) :
  collusion tables csv country_x country_y start_year end_year
    num_simulations confidence_threshold true rng
  = Ok (PyDict actual_avg sim_avg, rng') ->
  country_x <> country_y
  /\ actual_avg
     = pd_mean (map Pts.Points_total
                  (select_by_year csv country_y country_x start_year end_year))
  /\ fgt actual_avg sim_avg = true.
Proof.
  unfold collusion.
  destruct (favouritism _ _ country_x country_y _ _ _ _ _ rng)
    as [[first rng1]|] eqn:Hfirst; [|done].
  cbn [bind]. destruct (truthy first) eqn:Htruthy.
  2:{ intros [= -> _]. done. }
  intros Hsecond.
  assert (Hne : country_y <> country_x).
  { intros Heq. unfold favouritism in Hsecond.
    by rewrite bool_decide_eq_true_2 in Hsecond. }
  assert (Hrows : select_by_year csv country_y country_x start_year end_year
                  <> []).
  { intros Hempty. unfold favouritism in Hsecond.
    rewrite bool_decide_eq_false_2 in Hsecond by done.
    by rewrite Hempty in Hsecond. }
  destruct (favouritism_Ok_inv _ _ _ _ _ _ _ _ _ _ _ _ Hne Hrows Hsecond)
    as (_ & _ & _ & _ & threshold & _ & _ & _ & _ & _ & _ & Hreport).
  split; [done|]. unfold report in Hreport.
  destruct (fgt _ threshold) eqn:Hgt; [|done].
  by injection Hreport as -> ->.
Qed.

Lemma collusion_detailed_data_witness :
  "A"%string <> "B"%string
  /\ Fin (5 # 6)
     = pd_mean (map Pts.Points_total
                  (select_by_year (points_of final_2000) "B" "A" 1999 2001))
  /\ fgt (Fin (5 # 6)) (Fin (2 # 3)) = true.
Proof.
  apply (collusion_detailed_data (tables_of final_2000)
           (points_of final_2000) "A" "B" 1999 2001 1 95 sample_rng
           (advance 4 sample_rng)).
  by_computation.
Defined.

(** ** The participants of a range *)

Lemma insert_name_perm (c : string) (l : list string) :
  insert_name c l ≡ₚ c :: l.
Proof.
  induction l as [|d l IH]; [done|]. cbn [insert_name].
  destruct (String.leb c d); [done|]. by rewrite IH, Permutation_swap.
Qed.

Lemma sorted_perm (l : list string) : sorted l ≡ₚ l.
Proof.
  induction l as [|c l IH]; [done|]. cbn [sorted foldr]. fold (sorted l).
  by rewrite insert_name_perm, IH.
Qed.

Lemma insert_name_sorted (c : string) (l : list string) :
  Sorted (fun a b => String.leb a b = true) l ->
  Sorted (fun a b => String.leb a b = true) (insert_name c l).
Proof.
  induction 1 as [|d l Hl IH Hhd]; [by repeat constructor|].
  cbn [insert_name]. destruct (String.leb c d) eqn:Hcd.
  - constructor; [by constructor | by constructor].
  - assert (Hdc : String.leb d c = true).
    { destruct (String.leb_total c d) as [Hle | Hle]; congruence. }
    constructor; [exact IH|].
    destruct Hhd as [|e l Hde]; cbn [insert_name]; [by constructor|].
    by destruct (String.leb c e); constructor.
Qed.

Lemma sorted_Sorted (l : list string) :
  Sorted (fun a b => String.leb a b = true) (sorted l).
Proof.
  induction l as [|c l IH]; [constructor|]. by apply insert_name_sorted.
Qed.

Lemma NoDup_all_participants (points : list Pts.row)
  (start_year end_year : Z) :
  NoDup (all_participants points start_year end_year).
Proof. unfold all_participants. rewrite sorted_perm. apply NoDup_elements. Qed.

Lemma elem_of_all_participants (points : list Pts.row)
  (start_year end_year : Z) (c : string) :
  c ∈ all_participants points start_year end_year <->
  exists r,
    r ∈ points /\ start_year <= Pts.Year r <= end_year
    /\ (Pts.From_country r = c \/ Pts.To_country r = c).
Proof.
  unfold all_participants.
  rewrite sorted_perm, elem_of_elements, elem_of_union,
    !elem_of_list_to_set, !list_elem_of_fmap.
  split.
  - intros [(r & -> & Hr) | (r & -> & Hr)];
      apply list_elem_of_filter in Hr as [Hrange Hr];
      apply andb_prop in Hrange as [?%Z.leb_le ?%Z.leb_le];
      exists r; (split; [done|]); (split; [lia|]);
      first [by left | by right].
  - intros (r & Hr & Hrange & [<- | <-]); [left | right];
      exists r; (split; [done|]); apply list_elem_of_filter;
      (split; [|done]); apply andb_true_intro; split; apply Z.leb_le; lia.
Qed.

(** X14. The labels of the matrix are the countries that gave or received
    votes in a row of the range, each once, in ascending order. *)
Theorem all_participants_spec (points : list Pts.row)
  (start_year end_year : Z) :
  Sorted (fun a b => String.leb a b = true)
    (all_participants points start_year end_year)
  /\ NoDup (all_participants points start_year end_year)
  /\ (forall c,
         c ∈ all_participants points start_year end_year <->
         exists r,
           r ∈ points /\ start_year <= Pts.Year r <= end_year
           /\ (Pts.From_country r = c \/ Pts.To_country r = c)).
Proof.
  split; [apply sorted_Sorted|]. split.
  - apply NoDup_all_participants.
  - apply elem_of_all_participants.
Qed.

Lemma elem_of_ordered_pairs (l : list string) (d r : string) :
  (d, r) ∈ ordered_pairs l <-> d ∈ l /\ r ∈ l.
Proof.
  unfold ordered_pairs. rewrite list_elem_of_bind. split.
  - intros (d' & Hin & Hd). apply list_elem_of_bind in Hin as (r' & Hin & Hr).
    apply list_elem_of_singleton in Hin. by injection Hin as -> ->.
  - intros [Hd Hr]. exists d. split; [|done]. apply list_elem_of_bind.
    exists r. split; [by apply list_elem_of_singleton | done].
Qed.

(** ** The matrix of favouritism *)

Lemma favouritism_True_inv (tables : Globals) (csv : list Pts.row)
  (x y : string) (s e : Z) (n : nat) (q : Q) (d : bool)
  (rng rng' : Generator) (result : pyval) :
  favouritism tables csv x y s e n q d rng = Ok (result, rng') ->
  truthy result = true ->
  x <> y /\ select_by_year csv x y s e <> [].
Proof.
  intros Hrun Htruthy. unfold favouritism in Hrun. split.
  - intros Heq. rewrite bool_decide_eq_true_2 in Hrun by done.
    by injection Hrun as <- _.
  - intros Hempty. case_bool_decide; [by injection Hrun as <- _|].
    rewrite Hempty in Hrun. by injection Hrun as <- _.
Qed.

Lemma fill_matrix_cells (tables : Globals) (points : list Pts.row)
  (s e : Z) (pairs : list (string * string)) (m m' : Matrix)
  (rng rng' : Generator) :
  fill_matrix tables points s e pairs m rng = Ok (m', rng') ->
  labels m' = labels m
  /\ forall d r,
      cell m' d r = true ->
      cell m d r = true
      \/ ((d, r) ∈ pairs /\ d <> r /\ select_by_year points d r s e <> []).
Proof.
  revert m rng. induction pairs as [|[donor recipient] pairs IH];
    intros m rng; cbn [fill_matrix].
  { intros [= <- _]. split; [done | by left]. }
  destruct (favouritism _ _ donor recipient _ _ _ _ _ rng)
    as [[result rng1]|] eqn:Hrun; [|done].
  cbn [bind]. intros Hrest. apply IH in Hrest as [Hlabels Hcells].
  split; [by destruct (py_eq_True result)|].
  intros d r Hcell. apply Hcells in Hcell as [Hcell | (Hin & Hne & Hrows)].
  2:{ right. split; [by right | done]. }
  destruct (py_eq_True result) eqn:Htrue; [|by left].
  cbn in Hcell. case_bool_decide as Hdr; [|by left].
  destruct Hdr as [-> ->]. right. split; [left|].
  apply (favouritism_True_inv _ _ _ _ _ _ _ _ _ _ _ _ Hrun).
  by destruct result as [|[]|].
Qed.

(** ** A generator that repeats one value *)

(** Every row of the frame of ranks is then the same. *)
Lemma drawn_ranks_constant (g : Generator) (v low : Z) (high : list Z)
  (rows : nat) :
  (forall i, stream g i = v) ->
  drawn_ranks g low high rows
  = replicate rows ((fun h => low + v `mod` (h - low)) <$> high).
Proof.
  intros Hv. unfold drawn_ranks.
  assert (Hrow : forall offset,
            draw_row g offset low high
            = (fun h => low + v `mod` (h - low)) <$> high).
  { intros offset. unfold draw_row. rewrite <- imap_const.
    apply imap_ext. intros j h _. unfold const. by rewrite Hv. }
  generalize 0%nat. induction rows as [|rows IH]; intros start; [done|].
  cbn [seq map replicate]. by rewrite Hrow, IH.
Qed.

(** The batch of simulated averages repeats one value as well. *)
Lemma simulation_avgs_constant (tables : Globals) (timespan : list Z)
  (countries : list (Z * Z)) (no_televote : list (Z * bool)) (n : nat)
  (g : Generator) (v : Z) :
  (forall i, stream g i = v) ->
  value_of (simulation_avgs tables timespan countries no_televote (S n) g)
  = if bool_decide (Exists (fun h => h <= 1) countries.*2)
    then Raised ValueError
    else
      let* max_points :=
        getitem (MAX_POSSIBLE_POINTS_RECEIVED tables) timespan in
      let ranks := (fun h => 1 + v `mod` (h - 1)) <$> countries.*2 in
      Ok (replicate (S n)
            (np_mean
               (zip_with fdivZ
                  (zip_with Z.add (map rank_to_points ranks)
                     (map rank_to_points
                        (set_columns countries.*1 no_televote.*1 ranks)))
                  max_points.*2))).
Proof.
  intros Hv. unfold simulation_avgs.
  assert (Hcond : S n <> 0%nat /\ Exists (fun h => h <= 1) countries.*2
                  <-> Exists (fun h => h <= 1) countries.*2)
    by (split; [by intros [_ ?] | done]).
  rewrite simulate_jury_votes_eq, (bool_decide_ext _ _ Hcond).
  case_bool_decide as Hex; [done|].
  cbn [bind].
  rewrite simulate_televotes_eq, (bool_decide_ext _ _ Hcond),
    bool_decide_eq_false_2 by done.
  cbn [bind]. rewrite !(drawn_ranks_constant _ v) by done.
  destruct (getitem _ timespan) as [max_points|]; [|done].
  cbn [bind value_of]. f_equal.
  change map with (@fmap list _) at 1 2 3 4 5.
  by rewrite !fmap_replicate, zip_with_replicate, !fmap_replicate.
Qed.

Lemma lerp_same (c : fval) (t t' : Q) : lerp c c t = lerp c c t'.
Proof.
  assert (Hfin : forall x u, lerp (Fin x) (Fin x) u = Fin (Qred x)).
  { intros x u. unfold lerp, fsub. cbn [fneg fadd fmul].
    destruct (Qle_bool (1 # 2) u); f_equal; apply Qred_complete;
      rewrite !Qred_correct; ring. }
  destruct c as [x| | |]; [by rewrite !Hfin|..];
    unfold lerp, fsub; cbn; by destruct (Qle_bool _ t), (Qle_bool _ t').
Qed.

Lemma sort_le_refl (c : fval) : sort_le c c = true.
Proof.
  destruct c as [x| | |]; try done. cbn [sort_le]. apply fge_Fin, Qle_refl.
Qed.

Lemma np_sort_replicate (n : nat) (c : fval) :
  np_sort (replicate n c) = replicate n c.
Proof.
  apply np_sort_of_sorted. induction n as [|n IH]; [constructor|].
  cbn [replicate]. constructor; [done|].
  destruct n; constructor. apply sort_le_refl.
Qed.

Lemma np_min_replicate (n : nat) (c : fval) :
  np_min (replicate (S n) c) = Ok c.
Proof.
  cbn [replicate np_min]. f_equal.
  assert (Hmin : fmin c c = c).
  { destruct c as [x| | |]; try done. cbn [fmin].
    by rewrite (proj2 (fge_Fin x x) (Qle_refl x)). }
  induction n as [|n IH]; [done|]. cbn [replicate foldl]. by rewrite Hmin.
Qed.

Lemma nth_fval_replicate (n : nat) (c : fval) (i : Z) :
  0 <= i < Z.of_nat n -> nth_fval (replicate n c) i = c.
Proof.
  intros Hi. unfold nth_fval. rewrite lookup_replicate_2; [done | lia].
Qed.

(** The percentile of a batch that repeats one value does not depend on the
    length of the batch. *)
Lemma np_percentile_replicate (n : nat) (c : fval) (q : Q) :
  np_percentile (replicate (S n) c) q = np_percentile [c] q.
Proof.
  assert (Hone : forall m,
            np_percentile (replicate (S m) c) q
            = if negb (Qle_bool 0 q && Qle_bool q 100) then Raised ValueError
              else if is_nan c then Ok NaN else Ok (lerp c c 0)).
  { intros m. unfold np_percentile.
    destruct (Qle_bool 0 q) eqn:Hq0; [|done].
    destruct (Qle_bool q 100) eqn:Hq1; [|done]. cbn [andb negb].
    rewrite np_sort_replicate, length_replicate.
    assert (Hnan : existsb is_nan (replicate (S m) c) = is_nan c).
    { induction m as [|m IH]; [apply orb_false_r|].
      change (replicate (S (S m)) c) with (c :: replicate (S m) c).
      cbn [existsb]. rewrite IH. by destruct (is_nan c). }
    rewrite Hnan. destruct (is_nan c); [done|].
    destruct (Z.eqb_spec (Z.of_nat (S m)) 0) as [|_]; [lia|]. cbn [orb].
    apply Qle_bool_iff in Hq0, Hq1.
    pose proof (virtual_index_bounds q (Z.of_nat (S m) - 1) Hq0 Hq1
                  ltac:(lia)) as Hk.
    rewrite !nth_fval_replicate by lia. f_equal. apply lerp_same. }
  rewrite Hone. change [c] with (replicate 1 c). by rewrite (Hone 0%nat).
Qed.

(** On a generator that repeats one value the result of a test is the same
    for every positive number of simulations. *)
Lemma favouritism_constant (tables : Globals) (csv : list Pts.row)
  (x y : string) (s e : Z) (n : nat) (q : Q) (d : bool) (g : Generator)
  (v : Z) :
  (forall i, stream g i = v) ->
  value_of (favouritism tables csv x y s e (S n) q d g)
  = value_of (favouritism tables csv x y s e 1 q d g).
Proof.
  intros Hv. unfold favouritism. case_bool_decide; [done|].
  destruct (length _ =? 0)%nat; [done|].
  destruct (getitem (PARTICIPANTS_BY_YEAR tables) _) as [countries|]; [|done].
  cbn [bind].
  destruct (getitem (HAS_TELEVOTE_BY_YEAR tables) _) as [has_televote|];
    [|done].
  cbn [bind].
  match goal with
  | |- context [simulation_avgs ?t ?span ?c ?tv (S n) g] =>
      pose proof (simulation_avgs_constant t span c tv n g v Hv) as Hmany;
      pose proof (simulation_avgs_constant t span c tv 0 g v Hv) as Hone
  end.
  destruct (bool_decide _).
  { destruct (simulation_avgs _ _ _ _ (S n) _) as [[? ?]|]; [done|].
    destruct (simulation_avgs _ _ _ _ 1 _) as [[? ?]|]; [done|].
    cbn in Hmany, Hone. by simplify_eq. }
  destruct (getitem (MAX_POSSIBLE_POINTS_RECEIVED tables) _) as [max_points|].
  2:{ destruct (simulation_avgs _ _ _ _ (S n) _) as [[? ?]|]; [done|].
      destruct (simulation_avgs _ _ _ _ 1 _) as [[? ?]|]; [done|].
      cbn in Hmany, Hone. by simplify_eq. }
  cbn [bind] in Hmany, Hone.
  destruct (simulation_avgs _ _ _ _ (S n) _) as [[many g1]|]; [|done].
  destruct (simulation_avgs _ _ _ _ 1 _) as [[one g2]|]; [|done].
  cbn [value_of] in Hmany, Hone. injection Hmany as ->. injection Hone as ->.
  cbn [bind]. set (c := np_mean _).
  change (c :: replicate n c) with (replicate (S n) c).
  change [c] with (replicate 1 c).
  rewrite !np_sort_replicate, !np_min_replicate, np_percentile_replicate.
  change (replicate 1 c) with [c].
  cbn [bind]. destruct (py_assert _); [|done]. cbn [bind].
  by destruct (np_percentile [c] q).
Qed.

Lemma foldl_Raised {A B : Type} (f : outcome A -> B -> outcome A)
  (l : list B) (e : exn) :
  (forall b, f (Raised e) b = Raised e) -> foldl f (Raised e) l = Raised e.
Proof.
  intros Hf. induction l as [|b l IH]; [done|]. cbn [foldl]. by rewrite Hf.
Qed.

(** On a generator that repeats one value, the matrix is the one that a
    single simulation for each pair gives. *)
Lemma fill_matrix_constant (tables : Globals) (points : list Pts.row)
  (s e : Z) (pairs : list (string * string)) (m : Matrix) (g : Generator)
  (v : Z) :
  (forall i, stream g i = v) ->
  value_of (fill_matrix tables points s e pairs m g)
  = foldl (fun acc pair =>
             let* m := acc in
             let* result :=
               value_of (favouritism tables points pair.1 pair.2 s e 1
                           default_confidence_threshold false
                           (mkGenerator (fun _ => v) 0)) in
             Ok (if py_eq_True result then set_true m pair.1 pair.2 else m))
      (Ok m) pairs.
Proof.
  revert m g. induction pairs as [|[d r] pairs IH]; intros m g Hv; [done|].
  cbn [fill_matrix foldl bind fst snd].
  assert (Hvalue :
            value_of (favouritism tables points d r s e
                        default_num_simulations default_confidence_threshold
                        false g)
            = value_of (favouritism tables points d r s e 1
                          default_confidence_threshold false
                          (mkGenerator (fun _ => v) 0))).
  { assert (Hn : exists n, default_num_simulations = S n).
    { exists (Nat.pred default_num_simulations).
      unfold default_num_simulations. lia. }
    destruct Hn as [n ->]. rewrite (favouritism_constant _ _ _ _ _ _ _ _ _ _ v)
      by done.
    apply favouritism_local. intros i _. cbn. apply Hv. }
  rewrite <- Hvalue.
  destruct (favouritism tables points d r s e default_num_simulations _ _ g)
    as [[result g1]|err] eqn:Hrun; cbn [value_of bind].
  - apply favouritism_cursor in Hrun as [Hstream _].
    apply IH. intros i. by rewrite Hstream.
  - by rewrite foldl_Raised.
Qed.


(** X15. In a matrix that [get_favouritism_matrix] returns, the labels are
    the participants of the range, and a cell is true only for two different
    participants with a row from the first to the second in the range: the
    diagonal and the pairs without data stay false. *)
Theorem favouritism_matrix_cells (tables : Globals) (points : list Pts.row)
  (start_year end_year : Z) (rng rng' : Generator) (m : Matrix) :
  get_favouritism_matrix tables points start_year end_year rng
  = Ok (m, rng') ->
  labels m = all_participants points start_year end_year
  /\ forall donor recipient,
      cell m donor recipient = true ->
      donor <> recipient
      /\ donor ∈ labels m /\ recipient ∈ labels m
      /\ select_by_year points donor recipient start_year end_year <> [].
Proof.
  unfold get_favouritism_matrix.
  intros [Hlabels Hcells]%fill_matrix_cells. cbn in Hlabels.
  split; [done|]. intros donor recipient Hcell.
  apply Hcells in Hcell as [Hcell | (Hin & Hne & Hrows)]; [done|].
  apply elem_of_ordered_pairs in Hin as [Hd Hr]. by rewrite Hlabels.
Qed.

Lemma favouritism_matrix_cells_witness :
  exists m rng',
    get_favouritism_matrix (tables_of final_2000) (points_of final_2000)
      1999 2001 constant_rng
    = Ok (m, rng')
    /\ cell m "A" "B" = true
    /\ labels m = all_participants (points_of final_2000) 1999 2001
    /\ forall donor recipient,
        cell m donor recipient = true ->
        donor <> recipient
        /\ donor ∈ labels m /\ recipient ∈ labels m
        /\ select_by_year (points_of final_2000) donor recipient 1999 2001
           <> [].
Proof.
  destruct (value_of_Ok
              (get_favouritism_matrix (tables_of final_2000)
                 (points_of final_2000) 1999 2001 constant_rng)
              (set_true (false_matrix ["A"; "B"; "C"; "D"]%string) "A" "B"))
    as [rng' Hrun].
  { unfold get_favouritism_matrix.
    rewrite (fill_matrix_constant _ _ _ _ _ _ _ 10) by done.
    vm_compute. reflexivity. }
  eexists _, rng'. split; [exact Hrun|]. split; [reflexivity|].
  exact (favouritism_matrix_cells _ _ _ _ _ _ _ Hrun).
Defined.

(** X16. When no row of the table is in the range, [get_favouritism_matrix]
    returns a matrix without labels and draws nothing. *)
Theorem favouritism_matrix_empty_range (tables : Globals)
  (points : list Pts.row) (start_year end_year : Z) (rng : Generator) :
  (forall r, r ∈ points -> ~ start_year <= Pts.Year r <= end_year) ->
  get_favouritism_matrix tables points start_year end_year rng
  = Ok (false_matrix [], rng).
Proof.
  intros Hrange.
  pose proof (elem_of_all_participants points start_year end_year) as Hin.
  unfold get_favouritism_matrix.
  destruct (all_participants points start_year end_year) as [|c l];
    [done|].
  destruct (proj1 (Hin c)) as (r & Hr & Hyear & _); [left|].
  by apply Hrange in Hr.
Qed.

Lemma favouritism_matrix_empty_range_witness :
  get_favouritism_matrix (tables_of final_2000) (points_of final_2000)
    2010 2019 sample_rng
  = Ok (false_matrix [], sample_rng).
Proof.
  apply favouritism_matrix_empty_range. intros r Hr.
  apply list_elem_of_In in Hr. vm_compute in Hr.
  repeat (destruct Hr as [<- | Hr]; [cbn; lia|]). destruct Hr.
Defined.

(** ** The graph of collusion *)

(** X17. The edges of the collusion graph are the pairs of labels that are
    true in both directions in the matrix, so that with an edge the graph
    has the opposite edge. *)
Theorem collusion_edges_symmetric (m : Matrix) (a b : string) :
  ((a, b) ∈ collusion_edges m <->
   a ∈ labels m /\ b ∈ labels m
   /\ cell m a b = true /\ cell m b a = true)
  /\ ((a, b) ∈ collusion_edges m <-> (b, a) ∈ collusion_edges m).
Proof.
  assert (Hedge : forall x y,
            (x, y) ∈ collusion_edges m <->
            x ∈ labels m /\ y ∈ labels m
            /\ cell m x y = true /\ cell m y x = true).
  { intros x y. unfold collusion_edges, matrix_edges.
    rewrite list_elem_of_filter, elem_of_ordered_pairs. cbn.
    rewrite andb_true_iff. tauto. }
  split; [apply Hedge|]. rewrite !Hedge. tauto.
Qed.

(** ** The compiled results *)

Lemma favouritism_dict_inv (tables : Globals) (csv : list Pts.row)
  (x y : string) (s e : Z) (n : nat) (q : Q) (d : bool)
  (rng rng' : Generator) (a t : fval) :
  favouritism tables csv x y s e n q d rng = Ok (PyDict a t, rng') ->
  x <> y /\ select_by_year csv x y s e <> []
  /\ a = pd_mean (map Pts.Points_total (select_by_year csv x y s e))
  /\ fgt a t = true.
Proof.
  intros Hrun.
  destruct (favouritism_True_inv _ _ _ _ _ _ _ _ _ _ _ _ Hrun eq_refl)
    as [Hne Hrows].
  split; [done|]. split; [done|].
  destruct (favouritism_Ok_inv _ _ _ _ _ _ _ _ _ _ _ _ Hne Hrows Hrun)
    as (_ & _ & _ & _ & threshold & _ & _ & _ & _ & _ & _ & Hreport).
  unfold report in Hreport. destruct d; [|done].
  destruct (fgt _ threshold) eqn:Hgt; [|done].
  by injection Hreport as -> ->.
Qed.

Lemma collect_results_rows (tables : Globals) (points : list Pts.row)
  (s e : Z) (n : nat) (q : Q) (pairs : list (string * string))
  (results rows : list Finding.row) (rng rng' : Generator) :
  collect_results tables points s e n q pairs results rng = Ok (rows, rng') ->
  exists new,
    rows = results ++ new
    /\ finding_pair <$> new `sublist_of` pairs
    /\ Forall (finding_ok points s e) new.
Proof.
  revert results rng. induction pairs as [|[donor recipient] pairs IH];
    intros results rng; cbn [collect_results].
  { intros [= <- _]. exists []. by rewrite app_nil_r. }
  destruct (favouritism _ _ donor recipient _ _ _ _ _ rng)
    as [[result rng1]|] eqn:Hrun; [|done].
  cbn [bind]. intros (new & -> & Hsub & Hnew)%IH.
  destruct result as [|b|a t].
  1,2: exists new; split; [done|]; split; [by apply sublist_cons | done].
  exists (Finding.mk s e donor recipient a t :: new).
  split; [by rewrite <- app_assoc|]. split; [by apply sublist_skip|].
  constructor; [|done].
  apply favouritism_dict_inv in Hrun as (Hne & Hrows & Ha & Hgt).
  by repeat split.
Qed.

Lemma compile_one_result_findings (tables : Globals) (points : list Pts.row)
  (s e : Z) (n : nat) (q : Q) (rng rng' : Generator)
  (rows : list Finding.row) :
  compile_one_result tables points s e n q rng = Ok (rows, rng') ->
  Forall (finding_ok points s e) rows.
Proof.
  unfold compile_one_result.
  by intros (new & -> & _ & Hnew)%collect_results_rows.
Qed.

(** X18. The rows that [compile_one_result] returns follow the order of the
    two loops over the participants, with at most one row for a pair; each
    carries the range, two different countries with rows from the first to
    the second in the range, the observed mean of these rows and a simulated
    threshold that is strictly below it. *)
Theorem compile_one_result_rows (tables : Globals) (points : list Pts.row)
  (start_year end_year : Z) (num_simulations : nat)
  (confidence_threshold : Q) (rng rng' : Generator)
  (rows : list Finding.row) :
  compile_one_result tables points start_year end_year num_simulations
    confidence_threshold rng
  = Ok (rows, rng') ->
  finding_pair <$> rows
    `sublist_of` ordered_pairs (all_participants points start_year end_year)
  /\ NoDup (finding_pair <$> rows)
  /\ Forall (finding_ok points start_year end_year) rows.
Proof.
  unfold compile_one_result.
  intros (new & -> & Hsub & Hnew)%collect_results_rows. cbn [app].
  split; [done|]. split; [|done].
  eapply sublist_NoDup; [|exact Hsub].
  pose proof (NoDup_all_participants points start_year end_year) as Hnodup.
  unfold ordered_pairs. revert Hnodup.
  generalize (all_participants points start_year end_year). intros l Hl.
  apply NoDup_bind; [| |done].
  - intros d d' p _ _ Hp Hp'.
    apply list_elem_of_bind in Hp as (r & Hp & _).
    apply list_elem_of_bind in Hp' as (r' & Hp' & _).
    apply list_elem_of_singleton in Hp, Hp'. congruence.
  - intros d _. apply NoDup_bind; [| |done].
    + intros r r' p _ _ Hp Hp'.
      apply list_elem_of_singleton in Hp, Hp'. congruence.
    + intros r _. apply NoDup_singleton.
Qed.

Lemma compile_one_result_rows_witness :
  exists rows,
    finding_pair <$> rows
      `sublist_of` ordered_pairs
                     (all_participants (points_of final_2000) 1999 2001)
    /\ NoDup (finding_pair <$> rows)
    /\ Forall (finding_ok (points_of final_2000) 1999 2001) rows.
Proof.
  eexists.
  eapply (compile_one_result_rows (tables_of final_2000)
            (points_of final_2000) 1999 2001 1 95 sample_rng).
  by_computation.
Defined.

Lemma compile_years_acc (tables : Globals) (points : list Pts.row) (n : nat)
  (q : Q) (years_list : list (Z * Z)) (results : list Finding.row)
  (rng : Generator) :
  compile_years tables points n q years_list results rng
  = (let* (new, rng') := compile_years tables points n q years_list [] rng in
     Ok (results ++ new, rng')).
Proof.
  revert results rng. induction years_list as [|years years_list IH];
    intros results rng; cbn [compile_years].
  { cbn [bind]. by rewrite app_nil_r. }
  destruct (compile_one_result _ _ _ _ _ _ rng) as [[result rng1]|];
    [|done].
  cbn [bind].
  rewrite (IH (match result with [] => results | _ => results ++ result end)).
  rewrite (IH (match result with [] => [] | _ => [] ++ result end)).
  destruct (compile_years _ _ _ _ years_list [] rng1) as [[new rng2]|];
    [|done].
  cbn [bind]. destruct result as [|row result]; [done|].
  by rewrite <- app_assoc.
Qed.

Lemma compile_years_app (tables : Globals) (points : list Pts.row) (n : nat)
  (q : Q) (l1 l2 : list (Z * Z)) (results : list Finding.row)
  (rng : Generator) :
  compile_years tables points n q (l1 ++ l2) results rng
  = (let* (rows1, rng1) := compile_years tables points n q l1 results rng in
     compile_years tables points n q l2 rows1 rng1).
Proof.
  revert results rng. induction l1 as [|years l1 IH]; intros results rng;
    [done|].
  cbn [app compile_years].
  destruct (compile_one_result _ _ _ _ _ _ rng) as [[result rng1]|];
    [|done].
  cbn [bind]. apply IH.
Qed.

(** X19. Compiling a list of ranges that is two lists one after the other
    gives the rows of the first followed by the rows of the second, the
    second compiled on the generator that the first has left. *)
Theorem compile_favouritism_results_app (tables : Globals)
  (points : list Pts.row) (l1 l2 : list (Z * Z)) (n : nat) (q : Q)
  (rng rng1 rng2 : Generator) (rows1 rows2 : list Finding.row)
  (parameters1 parameters2 : nat * Q) :
  compile_favouritism_results tables points l1 n q rng
  = Ok ((rows1, parameters1), rng1) ->
  compile_favouritism_results tables points l2 n q rng1
  = Ok ((rows2, parameters2), rng2) ->
  compile_favouritism_results tables points (l1 ++ l2) n q rng
  = Ok ((rows1 ++ rows2, (n, q)), rng2).
Proof.
  unfold compile_favouritism_results. intros Hfirst Hsecond.
  rewrite compile_years_app.
  destruct (compile_years _ _ _ _ l1 [] rng) as [[rows1' rng1']|]; [|done].
  cbn [bind] in *. simplify_eq. rewrite compile_years_acc.
  destruct (compile_years _ _ _ _ l2 [] rng1) as [[rows2' rng2']|]; [|done].
  cbn [bind] in *. by simplify_eq.
Qed.

Lemma compile_favouritism_results_app_witness :
  exists rows rng',
    compile_favouritism_results (tables_of final_2000) (points_of final_2000)
      ([(1999, 2001)] ++ [(2000, 2000)]) 1 95 sample_rng
    = Ok ((rows, (1%nat, 95%Q)), rng').
Proof.
  eexists _, _.
  eapply (compile_favouritism_results_app (tables_of final_2000)
            (points_of final_2000) [(1999, 2001)] [(2000, 2000)] 1 95
            sample_rng).
  - by_computation.
  - by_computation.
Defined.

Lemma compile_years_rows (tables : Globals) (points : list Pts.row) (n : nat)
  (q : Q) (years_list : list (Z * Z)) (rows : list Finding.row)
  (rng rng' : Generator) :
  compile_years tables points n q years_list [] rng = Ok (rows, rng') ->
  Forall (fun row =>
            exists years,
              years ∈ years_list
              /\ finding_ok points years.1 years.2 row) rows.
Proof.
  revert rows rng. induction years_list as [|years years_list IH];
    intros rows rng; cbn [compile_years].
  { by intros [= <- _]. }
  destruct (compile_one_result _ _ _ _ _ _ rng) as [[result rng1]|] eqn:Hone;
    [|done].
  cbn [bind]. rewrite compile_years_acc.
  destruct (compile_years _ _ _ _ years_list [] rng1) as [[new rng2]|] eqn:Hrest;
    [|done].
  cbn [bind]. intros [= <- <-].
  apply compile_one_result_findings in Hone.
  apply IH in Hrest.
  assert (Hall : Forall (fun row =>
                   exists years0,
                     years0 ∈ years :: years_list
                     /\ finding_ok points years0.1 years0.2 row)
                   (result ++ new)).
  { apply Forall_app. split.
    - eapply Forall_impl; [exact Hone|]. intros row Hrow.
      exists years. split; [left | done].
    - eapply Forall_impl; [exact Hrest|]. intros row (years0 & Hin & Hrow).
      exists years0. split; [by right | done]. }
  by destruct result.
Qed.

(** X20. The frame of results of [compile_favouritism_results] carries, in
    each row, one of the ranges of the list with what a row of
    [compile_one_result] for that range says; the frame of parameters holds
    the number of simulations and the confidence threshold. *)
Theorem compile_favouritism_results_rows (tables : Globals)
  (points : list Pts.row) (years_list : list (Z * Z)) (n : nat) (q : Q)
  (rng rng' : Generator) (rows : list Finding.row) (parameters : nat * Q) :
  compile_favouritism_results tables points years_list n q rng
  = Ok ((rows, parameters), rng') ->
  parameters = (n, q)
  /\ Forall (fun row =>
               exists years,
                 years ∈ years_list
                 /\ finding_ok points years.1 years.2 row) rows.
Proof.
  unfold compile_favouritism_results.
  destruct (compile_years _ _ _ _ years_list [] rng) as [[rows' rng1]|] eqn:Hrun;
    [|done].
  cbn [bind]. intros Heq. simplify_eq. split; [done|].
  by apply compile_years_rows in Hrun.
Qed.

Lemma compile_favouritism_results_rows_witness :
  exists rows,
    Forall (fun row =>
              exists years,
                years ∈ [(1999, 2001); (2005, 2006)]
                /\ finding_ok (points_of final_2000) years.1 years.2 row)
      rows.
Proof.
  eexists.
  eapply (compile_favouritism_results_rows (tables_of final_2000)
            (points_of final_2000) [(1999, 2001); (2005, 2006)] 1 95
            sample_rng).
  by_computation.
Defined.

(** ** The agreement between jury and televote *)

Lemma duplicated_after_nil {A K : Type} `{EqDecision K} (key : A -> K)
  (l : list A) (seen : list K) :
  duplicated_after key seen l = []
  <-> NoDup (key <$> l) /\ forall a, a ∈ l -> key a ∉ seen.
Proof.
  revert seen. induction l as [|a l IH]; intros seen; cbn [duplicated_after].
  - split; [intros _|done]. split; [constructor|]. intros a Ha.
    by apply elem_of_nil in Ha.
  - rewrite fmap_cons, NoDup_cons. case_bool_decide as Hseen.
    + split; [done|]. intros [_ Hout]. destruct (Hout a); [left|done].
    + rewrite IH. split.
      * intros [Hnodup Hout]. repeat split; [|done|].
        -- intros Hin. apply list_elem_of_fmap in Hin as (b & Hkey & Hb).
           apply (Hout b Hb). rewrite Hkey. left.
        -- intros b Hb. apply elem_of_cons in Hb as [->|Hb]; [done|].
           intros Hin. apply (Hout b Hb). by right.
      * intros [[Hfresh Hnodup] Hout]. split; [done|].
        intros b Hb Hin. apply elem_of_cons in Hin as [Heq|Hin].
        -- apply Hfresh. apply list_elem_of_fmap. by exists b.
        -- apply (Hout b); [by right|done].
Qed.

Lemma duplicated_nil {A K : Type} `{EqDecision K} (key : A -> K)
  (l : list A) :
  duplicated key l = [] <-> NoDup (key <$> l).
Proof.
  unfold duplicated. rewrite duplicated_after_nil. split; [by intros [? _]|].
  intros Hnodup. split; [done|]. intros a _ Hin. by apply elem_of_nil in Hin.
Qed.

Lemma drop_duplicate_rows_NoDup {A : Type} `{EqDecision A} (l : list A) :
  NoDup l -> drop_duplicate_rows l = l.
Proof.
  induction 1 as [|x l Hfresh Hnodup IH]; [done|].
  cbn [drop_duplicate_rows]. rewrite IH. f_equal.
  clear IH Hnodup. induction l as [|y l IH]; [done|].
  rewrite filter_cons. apply not_elem_of_cons in Hfresh as [Hne Hfresh].
  destruct (decide (y <> x)) as [|Hn]; [|by destruct Hn]. f_equal. by apply IH.
Qed.

Lemma NoDup_channel (c : string) (l : list Ballot.row) :
  NoDup (ballot_key <$> l) ->
  NoDup (ballot_pair
           <$> filter (fun b => Ballot.Jury_or_Televoting b = c) l).
Proof.
  intros Hnodup.
  apply (NoDup_fmap_1 (fun p : string * string => (c, p.1, p.2))).
  rewrite <- list_fmap_compose.
  eapply sublist_NoDup; [exact Hnodup|].
  induction l as [|b l IH]; [done|].
  apply NoDup_cons in Hnodup as [_ Hnodup]. specialize (IH Hnodup).
  rewrite filter_cons. destruct (decide _) as [Hb|Hb].
  - assert ((c, (ballot_pair b).1, (ballot_pair b).2) = ballot_key b) as Hk
      by (unfold ballot_key, ballot_pair; cbn [fst snd]; by rewrite Hb).
    rewrite !fmap_cons. cbn [compose]. rewrite Hk. by apply sublist_skip.
  - rewrite fmap_cons. by apply sublist_cons.
Qed.

Lemma matches_at_most_one (k : string * string) (l : list Ballot.row) :
  NoDup (ballot_pair <$> l) ->
  (length (filter (fun t => ballot_pair t = k) l) <= 1)%nat.
Proof.
  induction l as [|t l IH]; [cbn; lia|].
  rewrite fmap_cons, NoDup_cons. intros [Hfresh Hnodup].
  rewrite filter_cons. destruct (decide _) as [Ht|Ht]; [|by apply IH].
  cbn [length].
  assert (filter (fun t => ballot_pair t = k) l = []) as ->; [|cbn; lia].
  destruct (filter _ l) as [|u rest] eqn:Hrest; [done|].
  assert (u ∈ filter (fun t => ballot_pair t = k) l) as Hu
    by (rewrite Hrest; left).
  apply list_elem_of_filter in Hu as [Hk Hu]. destruct Hfresh.
  apply list_elem_of_fmap. exists u. by rewrite Ht, Hk.
Qed.

Lemma length_join_televotes (juryvotes televotes : list Ballot.row) :
  NoDup (ballot_pair <$> televotes) ->
  length (join_televotes juryvotes televotes) = length juryvotes.
Proof.
  intros Hnodup. unfold join_televotes.
  induction juryvotes as [|j juryvotes IH]; [done|].
  rewrite bind_cons, length_app, IH. cbn [length].
  change (S (length juryvotes)) with (1 + length juryvotes)%nat. f_equal.
  pose proof (matches_at_most_one (ballot_pair j) televotes Hnodup) as Hone.
  destruct (filter _ televotes) as [|t [|t' rest]]; [done|done|].
  cbn [length] in Hone. lia.
Qed.

Lemma grand_final_votes_cases (csv : list Raw.row) (year : Z) :
  let grand_final := grand_final_of csv year in
  let juryvotes :=
    filter (fun b => Ballot.Jury_or_Televoting b = "J"%string) grand_final in
  let televotes :=
    filter (fun b => Ballot.Jury_or_Televoting b = "T"%string) grand_final in
  (NoDup (ballot_key <$> grand_final)
   /\ length juryvotes = length televotes
   /\ grand_final_votes csv year = Ok (join_televotes juryvotes televotes))
  \/ (~ (NoDup (ballot_key <$> grand_final)
         /\ length juryvotes = length televotes)
      /\ grand_final_votes csv year = Raised AssertionError).
Proof.
  intros grand_final juryvotes televotes. unfold grand_final_votes.
  fold grand_final.
  destruct (duplicated ballot_key grand_final) as [|d ds] eqn:Hdup.
  - apply duplicated_nil in Hdup.
    assert (NoDup grand_final) as Hrows by (by eapply NoDup_fmap_1).
    rewrite !drop_duplicate_rows_NoDup
      by (eapply sublist_NoDup; [exact Hrows|apply sublist_filter]).
    fold juryvotes televotes.
    rewrite length_join_televotes by by apply NoDup_channel.
    cbn [length Nat.eqb py_assert bind].
    destruct (decide (length juryvotes = length televotes)) as [Heq|Hne].
    + left. rewrite Heq, Nat.eqb_refl. by cbn.
    + right. split; [by intros [_ ?]|].
      apply Nat.eqb_neq in Hne as ->. by cbn.
  - right. split; [|done]. intros [Hnodup _].
    apply duplicated_nil in Hnodup. congruence.
Qed.



Lemma NoDup_key_inj {A K : Type} (key : A -> K) (l : list A) (a b : A) :
  NoDup (key <$> l) -> a ∈ l -> b ∈ l -> key a = key b -> a = b.
Proof.
  induction l as [|x l IH]; [by intros _ Ha; apply elem_of_nil in Ha|].
  rewrite fmap_cons, NoDup_cons. intros [Hfresh Hnodup] Ha Hb Hkey.
  apply elem_of_cons in Ha as [->|Ha], Hb as [->|Hb]; [done| | |by apply IH].
  - destruct Hfresh. apply list_elem_of_fmap. by exists b.
  - destruct Hfresh. apply list_elem_of_fmap. by exists a.
Qed.

Lemma join_televotes_keys (juryvotes televotes : list Ballot.row) :
  NoDup (ballot_pair <$> televotes) ->
  pair_key <$> join_televotes juryvotes televotes
  = ballot_pair <$> juryvotes.
Proof.
  intros Hnodup. unfold join_televotes.
  induction juryvotes as [|j juryvotes IH]; [done|].
  rewrite bind_cons, fmap_app, IH, fmap_cons.
  change (?x :: ?l) with ([x] ++ l) at 2. f_equal.
  pose proof (matches_at_most_one (ballot_pair j) televotes Hnodup) as Hone.
  destruct (filter _ televotes) as [|t [|t' rest]]; [done|done|].
  cbn [length] in Hone. lia.
Qed.

Lemma elem_of_join_televotes (juryvotes televotes : list Ballot.row)
  (p : Pair.row) :
  p ∈ join_televotes juryvotes televotes
  <-> exists j,
        j ∈ juryvotes
        /\ Pair.From_country p = Ballot.From_country j
        /\ Pair.To_country p = Ballot.To_country j
        /\ Pair.Points_Jury p = Ballot.Points j
        /\ match Pair.Points_Televote p with
           | Some v =>
               exists t, t ∈ televotes /\ ballot_pair t = ballot_pair j
                         /\ Ballot.Points t = v
           | None => forall t, t ∈ televotes -> ballot_pair t <> ballot_pair j
           end.
Proof.
  unfold join_televotes. rewrite list_elem_of_bind. split.
  - intros (j & Hp & Hj). exists j. split; [done|].
    destruct (filter _ televotes) as [|t rest] eqn:Hmatches.
    + apply list_elem_of_singleton in Hp as ->. cbn. repeat split.
      intros t Ht Hpair.
      assert (t ∈ filter (fun t => ballot_pair t = ballot_pair j) televotes)
        as Hin by by apply list_elem_of_filter.
      rewrite Hmatches in Hin. by apply elem_of_nil in Hin.
    + apply list_elem_of_fmap in Hp as (u & -> & Hu). cbn. repeat split.
      rewrite <- Hmatches in Hu. apply list_elem_of_filter in Hu as [? ?].
      by exists u.
  - intros (j & Hj & Hfrom & Hto & Hjury & Htele). exists j. split; [|done].
    destruct p as [from to pj pt]. cbn in Hfrom, Hto, Hjury, Htele. subst.
    destruct pt as [v|].
    + destruct Htele as (t & Ht & Hpair & <-).
      assert (t ∈ filter (fun t => ballot_pair t = ballot_pair j) televotes)
        as Hin by by apply list_elem_of_filter.
      destruct (filter _ televotes) as [|u rest];
        [by apply elem_of_nil in Hin|].
      apply list_elem_of_fmap. by exists t.
    + destruct (filter _ televotes) as [|u rest] eqn:Hmatches; [left|].
      assert (u ∈ filter (fun t => ballot_pair t = ballot_pair j) televotes)
        as Hin by (rewrite Hmatches; left).
      apply list_elem_of_filter in Hin as [Hpair Hu]. by destruct (Htele u).
Qed.

Lemma grand_final_votes_Ok (csv : list Raw.row) (year : Z)
  (pairs : list Pair.row) :
  grand_final_votes csv year = Ok pairs ->
  let grand_final := grand_final_of csv year in
  NoDup (ballot_key <$> grand_final)
  /\ pairs
     = join_televotes
         (filter (fun b => Ballot.Jury_or_Televoting b = "J"%string)
            grand_final)
         (filter (fun b => Ballot.Jury_or_Televoting b = "T"%string)
            grand_final).
Proof.
  intros Hrun grand_final.
  destruct (grand_final_votes_cases csv year) as [(Hnodup & _ & Hok)|[_ Hbad]];
    [|congruence].
  split; [done|]. fold grand_final in Hok. congruence.
Qed.

(** X21. [grand_final_votes] returns exactly when no two rows of the grand
    final of the year share channel, voting country and recipient, and the
    juries cast as many votes as the televotes; it then returns one row for
    each jury vote.  Otherwise it raises AssertionError, and nothing else. *)
Theorem grand_final_votes_guard (csv : list Raw.row) (year : Z) :
  let grand_final := grand_final_of csv year in
  let juryvotes :=
    filter (fun b => Ballot.Jury_or_Televoting b = "J"%string) grand_final in
  let televotes :=
    filter (fun b => Ballot.Jury_or_Televoting b = "T"%string) grand_final in
  ((exists pairs, grand_final_votes csv year = Ok pairs)
   <-> NoDup (ballot_key <$> grand_final)
       /\ length juryvotes = length televotes)
  /\ (forall pairs,
        grand_final_votes csv year = Ok pairs ->
        length pairs = length juryvotes)
  /\ (forall e, grand_final_votes csv year = Raised e -> e = AssertionError).
Proof.
  intros grand_final juryvotes televotes.
  destruct (grand_final_votes_cases csv year)
    as [(Hnodup & Hlength & Hok)|[Hnot Hbad]];
    fold grand_final in Hok || fold grand_final in Hnot;
    fold juryvotes televotes in Hok || fold juryvotes televotes in Hnot.
  - split; [split; [done|by eexists]|]. split.
    + intros pairs Hrun. rewrite Hok in Hrun. injection Hrun as <-.
      apply length_join_televotes. by apply NoDup_channel.
    + intros e Hrun. congruence.
  - split; [split; [intros [pairs Hrun]; congruence|done]|].
    split; [intros pairs Hrun|intros e Hrun]; congruence.
Qed.

(** X22. The rows that [grand_final_votes] returns: no two of them share
    voting country and recipient; a row is returned exactly when its jury
    points are those of a jury row of the grand final of the year and its
    televote points are those of the televote row of the same pair, or
    missing when that pair has no televote row. *)
Theorem grand_final_votes_pairs (csv : list Raw.row) (year : Z)
  (pairs : list Pair.row) :
  grand_final_votes csv year = Ok pairs ->
  NoDup (pair_key <$> pairs)
  /\ forall p,
       p ∈ pairs
       <-> Ballot.mk "J" (Pair.From_country p) (Pair.To_country p)
             (Pair.Points_Jury p) ∈ grand_final_of csv year
           /\ forall v,
                Pair.Points_Televote p = Some v
                <-> Ballot.mk "T" (Pair.From_country p) (Pair.To_country p) v
                      ∈ grand_final_of csv year.
Proof.
  intros Hrun. apply grand_final_votes_Ok in Hrun as [Hnodup ->].
  set (grand_final := grand_final_of csv year) in *.
  split.
  { rewrite join_televotes_keys; by apply NoDup_channel. }
  intros p. rewrite elem_of_join_televotes. split.
  - intros (j & Hj & Hfrom & Hto & Hjury & Htele).
    apply list_elem_of_filter in Hj as [Hchannel Hj].
    rewrite Hfrom, Hto, Hjury. split.
    { destruct j as [c f t pts]. cbn in Hchannel |- *. by rewrite <- Hchannel. }
    intros v. split.
    + intros Hv. rewrite Hv in Htele. destruct Htele as (t & Ht & Hpair & <-).
      apply list_elem_of_filter in Ht as [Hc Ht].
      destruct t as [c f' t' pts], j as [c' f t pj].
      unfold ballot_pair in Hpair. cbn in Hc, Hpair |- *. by simplify_eq.
    + intros Hin. destruct (Pair.Points_Televote p) as [w|].
      * destruct Htele as (t & Ht & Hpair & <-).
        apply list_elem_of_filter in Ht as [Hc Ht]. f_equal.
        pose proof (NoDup_key_inj ballot_key grand_final _ _ Hnodup Ht Hin)
          as Heq.
        rewrite Heq; [done|]. unfold ballot_key. unfold ballot_pair in Hpair.
        cbn. rewrite Hc. by injection Hpair as -> ->.
      * exfalso.
        eapply Htele; [apply list_elem_of_filter; split; [|exact Hin]|]; done.
  - intros [Hjury Htele].
    eexists. split; [apply list_elem_of_filter; split; [|exact Hjury]; done|].
    cbn. repeat split.
    destruct (Pair.Points_Televote p) as [w|] eqn:Hw.
    + exists (Ballot.mk "T" (Pair.From_country p) (Pair.To_country p) w).
      split; [apply list_elem_of_filter; split; [done|by apply Htele]|done].
    + intros t Ht Hpair. apply list_elem_of_filter in Ht as [Hc Ht].
      assert (@None Z = Some (Ballot.Points t)) as Hnone; [|done].
      apply Htele. destruct t as [c f t' pts].
      unfold ballot_pair in Hpair. cbn in Hc, Hpair |- *. by simplify_eq.
Qed.





Lemma groupby_sum_lookup {K : Type} `{Countable K} {A : Type}
  (key : A -> K) (col : A -> option Z) (rows : list A) (k : K) :
  groupby_sum key col rows !! k
  = match filter (fun a => key a = k) rows with
    | [] => None
    | group =>
        Some (foldr Z.add 0 ((fun a => default 0 (col a)) <$> group))
    end.
Proof.
  induction rows as [|a rows IH].
  { unfold groupby_sum. cbn [foldr]. by rewrite lookup_empty. }
  cbn [groupby_sum foldr]. rewrite lookup_partial_alter.
  fold (groupby_sum key col rows). rewrite filter_cons.
  destruct (decide (key a = k)) as [Heq | Hneq]; [|exact IH].
  rewrite Heq, IH. cbn [fmap list_fmap foldr].
  destruct (filter _ rows); cbn [default fmap list_fmap foldr];
    apply (f_equal Some); unfold id; lia.
Qed.

Lemma insert_by_value_perm (x : string * (Q * Q))
  (l : list (string * (Q * Q))) :
  insert_by_value x l ≡ₚ x :: l.
Proof.
  induction l as [|y l IH]; [done|]. cbn [insert_by_value].
  destruct (Qle_bool _ _); [done|]. by rewrite IH, Permutation_swap.
Qed.

Lemma sort_values_perm (l : list (string * (Q * Q))) : sort_values l ≡ₚ l.
Proof.
  induction l as [|x l IH]; [done|]. cbn [sort_values foldr].
  fold (sort_values l). by rewrite insert_by_value_perm, IH.
Qed.

Lemma Qle_bool_total (a b : Q) : Qle_bool a b = false -> (b <= a)%Q.
Proof.
  intros Hab. destruct (Qlt_le_dec b a) as [Hlt|Hle].
  - by apply Qlt_le_weak.
  - apply Qle_bool_iff in Hle. congruence.
Qed.

Lemma insert_by_value_sorted (x : string * (Q * Q))
  (l : list (string * (Q * Q))) :
  Sorted (fun a b => (a.2.1 <= b.2.1)%Q) l ->
  Sorted (fun a b => (a.2.1 <= b.2.1)%Q) (insert_by_value x l).
Proof.
  induction 1 as [|y l Hl IH Hhd]; [by repeat constructor|].
  cbn [insert_by_value]. destruct (Qle_bool x.2.1 y.2.1) eqn:Hxy.
  - constructor; [by constructor|]. constructor. by apply Qle_bool_iff.
  - constructor; [exact IH|].
    destruct Hhd as [|z l Hyz]; cbn [insert_by_value].
    + constructor. by apply Qle_bool_total.
    + destruct (Qle_bool x.2.1 z.2.1); constructor;
        [by apply Qle_bool_total | done].
Qed.

Lemma sort_values_sorted (l : list (string * (Q * Q))) :
  Sorted (fun a b => (a.2.1 <= b.2.1)%Q) (sort_values l).
Proof.
  induction l as [|x l IH]; [constructor|]. by apply insert_by_value_sorted.
Qed.

Lemma elem_of_disagreement_tabulate (voting : list Scored.row) (c : string)
  (v w : Q) :
  (c, (v, w)) ∈ disagreement_tabulate voting
  <-> (exists a, a ∈ voting /\ Scored.From_country a = c)
      /\ v = Qred (inject_Z (column_sum c Scored.disagree_val voting)
                   / 116 * 100)
      /\ w = Qred (inject_Z
                     (column_sum c Scored.disagree_val_weighted voting)
                   / inject_Z MAX_WIGHTED_DISAGREEMENT * 100).
Proof.
  unfold disagreement_tabulate. rewrite sort_values_perm.
  rewrite elem_of_map_to_list, lookup_fmap, map_lookup_zip_with.
  rewrite !groupby_sum_lookup. unfold column_sum.
  destruct (filter _ voting) as [|a group] eqn:Hgroup; cbn.
  - split; [done|]. intros [(a & Ha & Hc) _].
    assert (a ∈ filter (fun a => Scored.From_country a = c) voting) as Hin
      by by apply list_elem_of_filter.
    rewrite Hgroup in Hin. by apply elem_of_nil in Hin.
  - assert (a ∈ filter (fun a => Scored.From_country a = c) voting) as Hin
      by (rewrite Hgroup; left).
    apply list_elem_of_filter in Hin as [Hc Ha]. split.
    + intros [= <- <-]. split; [by exists a|done].
    + by intros (_ & -> & ->).
Qed.

(** X23. The table of [disagreement_tabulate] is in ascending order of
    [disagree_val] and has one row for each voting country of the frame and
    no other row; the row holds the sums of the two columns of disagreement
    over the rows of that country, as percentages of 116 and of
    [MAX_WIGHTED_DISAGREEMENT]. *)
Theorem disagreement_tabulate_table (voting : list Scored.row) :
  let table := disagreement_tabulate voting in
  Sorted (fun a b => (a.2.1 <= b.2.1)%Q) table
  /\ NoDup table.*1
  /\ forall c v w,
       (c, (v, w)) ∈ table
       <-> (exists a, a ∈ voting /\ Scored.From_country a = c)
           /\ v = Qred (inject_Z (column_sum c Scored.disagree_val voting)
                        / 116 * 100)
           /\ w = Qred (inject_Z
                          (column_sum c Scored.disagree_val_weighted voting)
                        / inject_Z MAX_WIGHTED_DISAGREEMENT * 100).
Proof.
  split; [apply sort_values_sorted|]. split.
  - unfold disagreement_tabulate. rewrite sort_values_perm.
    apply NoDup_fst_map_to_list.
  - apply elem_of_disagreement_tabulate.
Qed.

Lemma total_perm (l k : list Z) :
  l ≡ₚ k -> foldr Z.add 0 l = foldr Z.add 0 k.
Proof. induction 1; cbn [foldr]; lia. Qed.

Lemma total_app (l k : list Z) :
  foldr Z.add 0 (l ++ k) = foldr Z.add 0 l + foldr Z.add 0 k.
Proof. induction l as [|x l IH]; cbn [foldr app]; lia. Qed.

Lemma total_nonneg (l : list Z) :
  Forall (fun x => 0 <= x) l -> 0 <= foldr Z.add 0 l.
Proof. induction 1; cbn [foldr]; lia. Qed.

Lemma total_submseteq (l k : list Z) :
  l ⊆+ k -> Forall (fun x => 0 <= x) k -> foldr Z.add 0 l <= foldr Z.add 0 k.
Proof.
  intros Hsub Hk. apply submseteq_Permutation in Hsub as [rest Hperm].
  rewrite (total_perm _ _ Hperm), total_app. rewrite Hperm in Hk.
  apply Forall_app in Hk as [_ Hrest]. apply total_nonneg in Hrest. lia.
Qed.

Lemma total_without_zeros (f : Z -> Z) (l : list Z) :
  f 0 = 0 ->
  foldr Z.add 0 (f <$> l) = foldr Z.add 0 (f <$> filter (fun p => p <> 0) l).
Proof.
  intros Hzero. induction l as [|x l IH]; [done|].
  rewrite filter_cons. destruct (decide (x <> 0)) as [Hx|Hx].
  - rewrite !fmap_cons. cbn [foldr]. by rewrite IH.
  - rewrite fmap_cons. cbn [foldr]. rewrite IH.
    assert (x = 0) as -> by lia. lia.
Qed.

Lemma award_bound (f : Z -> Z) (l : list Z) :
  f 0 = 0 ->
  Forall (fun x => 0 <= f x) ladder ->
  award_ok l ->
  Forall (fun x => 0 <= f x) l
  /\ foldr Z.add 0 (f <$> l) <= foldr Z.add 0 (f <$> ladder).
Proof.
  intros Hzero Hladder [Hnodup Hvalues]. split.
  - eapply Forall_impl; [exact Hvalues|]. intros x [->|Hx]; [lia|].
    by eapply Forall_forall in Hladder.
  - rewrite (total_without_zeros f l Hzero). apply total_submseteq.
    + apply fmap_submseteq, NoDup_submseteq; [done|].
      intros x Hx. apply list_elem_of_filter in Hx as [Hne Hx].
      eapply Forall_forall in Hvalues; [|exact Hx].
      by destruct Hvalues.
    + by apply Forall_fmap.
Qed.

Lemma column_sum_flat (c : string) (voting : list Pair.row) :
  column_sum c Scored.disagree_val (add_disagreement voting)
  = foldr Z.add 0
      ((fun p =>
          default 0 ((fun t => Z.abs (Pair.Points_Jury p - t))
                       <$> Pair.Points_Televote p))
         <$> filter (fun p => Pair.From_country p = c) voting).
Proof.
  unfold column_sum, add_disagreement.
  induction voting as [|p voting IH]; [done|].
  rewrite fmap_cons, !filter_cons. cbn [Scored.From_country].
  destruct (decide (Pair.From_country p = c)); [|exact IH].
  rewrite !fmap_cons. cbn [foldr Scored.disagree_val]. by rewrite IH.
Qed.

Lemma column_sum_weighted (c : string) (voting : list Pair.row) :
  column_sum c Scored.disagree_val_weighted (add_disagreement voting)
  = foldr Z.add 0
      ((fun p =>
          default 0 ((fun t => Z.abs (Pair.Points_Jury p ^ 3 - t ^ 3))
                       <$> Pair.Points_Televote p))
         <$> filter (fun p => Pair.From_country p = c) voting).
Proof.
  unfold column_sum, add_disagreement.
  induction voting as [|p voting IH]; [done|].
  rewrite fmap_cons, !filter_cons. cbn [Scored.From_country].
  destruct (decide (Pair.From_country p = c)); [|exact IH].
  rewrite !fmap_cons. cbn [foldr Scored.disagree_val_weighted]. by rewrite IH.
Qed.

Lemma disagreement_sum_bounds (g : Z -> Z) (l : list Pair.row) :
  Forall (fun x => 0 <= g x) (Pair.Points_Jury <$> l) ->
  Forall (fun x => 0 <= g x)
    ((fun p => default 0 (Pair.Points_Televote p)) <$> l) ->
  0 <= foldr Z.add 0
         ((fun p =>
             default 0 ((fun t => Z.abs (g (Pair.Points_Jury p) - g t))
                          <$> Pair.Points_Televote p)) <$> l)
    <= foldr Z.add 0 (g <$> (Pair.Points_Jury <$> l))
       + foldr Z.add 0
           (g <$> ((fun p => default 0 (Pair.Points_Televote p)) <$> l)).
Proof.
  induction l as [|p l IH]; [cbn; lia|].
  rewrite !fmap_cons, !Forall_cons. intros [Hj Hjs] [Ht Hts].
  specialize (IH Hjs Hts). cbn [foldr].
  destruct (Pair.Points_Televote p) as [t|];
    cbn [fmap option_fmap option_map default] in *; unfold id in *; lia.
Qed.

(** X24. When a country gives each score of the ladder to at most one
    recipient in each channel, and nothing to the others, its two
    percentages of disagreement lie between 0 and 100. *)
Theorem disagreement_within_100 (voting : list Pair.row) (c : string)
  (v w : Q) :
  award_ok (jury_awards c voting) ->
  award_ok (televote_awards c voting) ->
  (c, (v, w)) ∈ disagreement_tabulate (add_disagreement voting) ->
  (0 <= v <= 100)%Q /\ (0 <= w <= 100)%Q.
Proof.
  intros Hjury Htele Hrow.
  apply elem_of_disagreement_tabulate in Hrow as (_ & -> & ->).
  rewrite column_sum_flat, column_sum_weighted.
  set (rows := filter (fun p => Pair.From_country p = c) voting).
  assert (Forall (fun x => 0 <= x) ladder) as Hflat
    by (repeat constructor; lia).
  assert (Forall (fun x => 0 <= x ^ 3) ladder) as Hcubes
    by (repeat constructor; lia).
  destruct (award_bound (fun x => x) _ eq_refl Hflat Hjury) as [Hj1 Hj2].
  destruct (award_bound (fun x => x) _ eq_refl Hflat Htele) as [Ht1 Ht2].
  destruct (award_bound (fun x => x ^ 3) _ eq_refl Hcubes Hjury) as [Hj3 Hj4].
  destruct (award_bound (fun x => x ^ 3) _ eq_refl Hcubes Htele) as [Ht3 Ht4].
  pose proof (disagreement_sum_bounds (fun x => x) rows Hj1 Ht1) as Hsum.
  pose proof (disagreement_sum_bounds (fun x => x ^ 3) rows Hj3 Ht3) as Hsum3.
  cbv beta in Hsum, Hsum3.
  unfold jury_awards, televote_awards in Hj2, Ht2, Hj4, Ht4.
  fold rows in Hj2, Ht2, Hj4, Ht4.
  set (flat := foldr Z.add 0 _) in Hsum |- *.
  set (weighted := foldr Z.add 0 _) in Hsum3 |- *.
  change (foldr Z.add 0 ((fun x => x) <$> ladder)) with 58 in Hj2, Ht2.
  change (foldr Z.add 0 ((fun x => x ^ 3) <$> ladder)) with 4024 in Hj4, Ht4.
  change MAX_WIGHTED_DISAGREEMENT with 8048.
  rewrite !Qred_correct. unfold Qle, Qdiv, Qmult, Qinv. cbn. lia.
Qed.

Lemma grand_final_votes_pairs_witness :
  exists pairs,
    NoDup (pair_key <$> pairs)
    /\ forall p,
         p ∈ pairs
         <-> Ballot.mk "J" (Pair.From_country p) (Pair.To_country p)
               (Pair.Points_Jury p) ∈ grand_final_of final_2019_pairs 2019
             /\ forall v,
                  Pair.Points_Televote p = Some v
                  <-> Ballot.mk "T" (Pair.From_country p) (Pair.To_country p)
                        v
                        ∈ grand_final_of final_2019_pairs 2019.
Proof.
  eexists. apply (grand_final_votes_pairs final_2019_pairs 2019).
  by_computation.
Defined.

Lemma disagreement_within_100_witness :
  exists v w,
    ("A"%string, (v, w)) ∈ disagreement_tabulate (add_disagreement sample_pairs)
    /\ (0 <= v <= 100)%Q /\ (0 <= w <= 100)%Q.
Proof.
  assert (("A"%string, (350 # 29, 15350 # 503)%Q)
            ∈ disagreement_tabulate (add_disagreement sample_pairs)) as Hrow
    by by_computation.
  eexists _, _. split; [exact Hrow|].
  apply (disagreement_within_100 sample_pairs "A"); [| |exact Hrow];
    split; apply (bool_decide_unpack _); by vm_compute.
Defined.
